(** * proofingbox: control and safety-supervision loop of the proofing cabinet

    A shallow embedding of [proofingbox.ino] (Arduino Leonardo, ATmega32U4)
    and the properties of its control loop and safety supervisor.

    Data follows the AVR toolchain: [int] is 16 bits, [long] and
    [unsigned long] are 32 bits, and both [float] and [double] are IEEE-754
    binary32 (rounding to nearest, ties to even), taken from the
    parameterised specification [SpecFloat] of the standard library.
    Hardware inputs (clock, ADC, temperature probes) come from an oracle
    indexed by the number of reads made so far; every library call that
    touches the hardware is logged in a chronological trace. *)

From Stdlib Require Import ZArith String Ascii List Lia Bool QArith Qabs.
From Stdlib Require Import Floats.SpecFloat.
Import ListNotations.
Open Scope Z_scope.

(** ** Machine arithmetic *)

(** [int]: 16-bit two's complement. *)
Definition int16 (z : Z) : Z := (z + 32768) mod 65536 - 32768.

(** [long]: 32-bit two's complement. *)
Definition long32 (z : Z) : Z := (z + 2147483648) mod 4294967296 - 2147483648.

(** [unsigned long]: arithmetic modulo 2^32. *)
Definition ulong (z : Z) : Z := z mod 4294967296.

(** ** binary32 floating point *)

Definition prec : Z := 24.
Definition emax : Z := 128.

Definition float := spec_float.

Definition fzero : float := S754_zero false.

(** Conversion of an integer to [float] (rounds when 24 bits do not suffice). *)
Definition of_Z (z : Z) : float := binary_normalize prec emax z 0 false.

Definition fadd : float -> float -> float := SFadd prec emax.
Definition fsub : float -> float -> float := SFsub prec emax.
Definition fmul : float -> float -> float := SFmul prec emax.
Definition fdiv : float -> float -> float := SFdiv prec emax.

(** [x < y] and [x <= y]; both are false as soon as one side is a NaN. *)
Definition fltb : float -> float -> bool := SFltb.
Definition fleb : float -> float -> bool := SFleb.

(** The decimal literals of the sketch, each the binary32 nearest to it. *)
Definition lit_0_25 : float := fdiv (of_Z 1) (of_Z 4).
Definition lit_4_1868 : float := fdiv (of_Z 41868) (of_Z 10000).
Definition lit_10_0 : float := of_Z 10.
Definition lit_0_3 : float := fdiv (of_Z 3) (of_Z 10).
Definition lit_0_2 : float := fdiv (of_Z 2) (of_Z 10).

(** Exact rational value of a finite float (0 for the non-finite ones). *)
Definition pow2Q (e : Z) : Q :=
  match e with
  | Z0 => 1%Q
  | Zpos p => inject_Z (Z.pow_pos 2 p)
  | Zneg p => (1 # Pos.pow 2 p)%Q
  end.

Definition SF2Q (x : float) : Q :=
  match x with
  | S754_finite s m e =>
      ((if s then inject_Z (Zneg m) else inject_Z (Zpos m)) * pow2Q e)%Q
  | _ => 0%Q
  end.

Arguments of_Z : simpl never.
Arguments fadd : simpl never.
Arguments fsub : simpl never.
Arguments fmul : simpl never.
Arguments fdiv : simpl never.
Arguments fltb : simpl never.
Arguments fleb : simpl never.
Arguments ulong : simpl never.
Arguments int16 : simpl never.
Arguments long32 : simpl never.

Definition is_finite (x : float) : bool :=
  match x with
  | S754_finite _ _ _ | S754_zero _ => true
  | _ => false
  end.

(** ** Constants of the sketch *)

Definition ON : Z := 0.
Definition OFF : Z := 1.

Definition MinTemp : Z := 5.
Definition MaxTemp : Z := 35.
Definition WaterVolume : Z := 10.
Definition PowerHeater : Z := 300.
Definition MaxRunTime : Z := 1440.

Definition HEATER_PIN : Z := 4.
Definition PUMP_PIN : Z := 6.
(** [A0] is digital pin 18 on the Leonardo. *)
Definition POTMETER_PIN : Z := 18.
Definition BEEP_PIN : Z := 7.

Definition NumberOfMeasurements : nat := 10.

(** ** Hardware interface: events and input oracle *)

Inductive Event : Type :=
| SerialBegin (baud : Z)
| DhtBegin
| PinModeOutput (pin : Z)
| DigitalWrite (pin level : Z)
| SensorsBegin
| LcdInit
| LcdBacklight
| LcdCreateChar (slot : Z) (glyph : list Z)
| LcdClear
| LcdSetCursor (col row : Z)
| LcdPrintStr (s : string)
| LcdPrintFloat (x : float) (digits : Z)
| LcdPrintChar (c : ascii)
| LcdWrite (slot : Z)
| LcdPrintULong (n : Z)
| Millis (t : Z)
| AnalogRead (pin v : Z)
| RequestTemperatures
| GetTempCByIndex (idx : Z) (v : float)
| DhtReadTemperature (v : Z)
| Tone (pin freq dur : Z)
| Delay (ms : Z).

(** What the hardware answers: the [k]-th call of each reading primitive.
    [dht_at] is the value of [dht.readTemperature()] once stored in the
    [int] variable [IntTemp]. *)
Record World : Type := {
  millis_at : nat -> Z;
  analog_at : nat -> Z;
  tempC_at : nat -> float;
  dht_at : nat -> Z
}.

(** ** Program state: the globals of the sketch and the hardware *)

(** [pin_level] is the output latch of each pin and [pin_output] says
    whether the pin has been made an output; a pin drives its latch only
    when it is an output (at reset every pin is an input). *)

Record State : Type := mkState {
  TargetTemperature : float;
  HeaterStatus : Z;
  PumpStatus : Z;
  PreviousHeaterStatus : Z;
  MaxHeaterOnTime : float;
  RunTime : Z;
  TimeHeaterOn : Z;
  TimeLastSafetyCheck : Z;
  Measurements : list float;
  SumMeasurements : float;
  AverageTemp : float;
  TempLastSafetyCheck : float;
  IntTemp : Z;
  pin_level : Z -> Z;
  pin_output : Z -> bool;
  trace : list Event;
  n_millis : nat;
  n_analog : nat;
  n_temp : nat;
  n_dht : nat
}.

Definition set_TargetTemperature (v : float) (s : State) : State :=
  mkState v (HeaterStatus s) (PumpStatus s) (PreviousHeaterStatus s)
    (MaxHeaterOnTime s) (RunTime s) (TimeHeaterOn s) (TimeLastSafetyCheck s)
    (Measurements s) (SumMeasurements s) (AverageTemp s)
    (TempLastSafetyCheck s) (IntTemp s) (pin_level s) (pin_output s) (trace s)
    (n_millis s) (n_analog s) (n_temp s) (n_dht s).

Definition set_HeaterStatus (v : Z) (s : State) : State :=
  mkState (TargetTemperature s) v (PumpStatus s) (PreviousHeaterStatus s)
    (MaxHeaterOnTime s) (RunTime s) (TimeHeaterOn s) (TimeLastSafetyCheck s)
    (Measurements s) (SumMeasurements s) (AverageTemp s)
    (TempLastSafetyCheck s) (IntTemp s) (pin_level s) (pin_output s) (trace s)
    (n_millis s) (n_analog s) (n_temp s) (n_dht s).

Definition set_PumpStatus (v : Z) (s : State) : State :=
  mkState (TargetTemperature s) (HeaterStatus s) v (PreviousHeaterStatus s)
    (MaxHeaterOnTime s) (RunTime s) (TimeHeaterOn s) (TimeLastSafetyCheck s)
    (Measurements s) (SumMeasurements s) (AverageTemp s)
    (TempLastSafetyCheck s) (IntTemp s) (pin_level s) (pin_output s) (trace s)
    (n_millis s) (n_analog s) (n_temp s) (n_dht s).

Definition set_PreviousHeaterStatus (v : Z) (s : State) : State :=
  mkState (TargetTemperature s) (HeaterStatus s) (PumpStatus s) v
    (MaxHeaterOnTime s) (RunTime s) (TimeHeaterOn s) (TimeLastSafetyCheck s)
    (Measurements s) (SumMeasurements s) (AverageTemp s)
    (TempLastSafetyCheck s) (IntTemp s) (pin_level s) (pin_output s) (trace s)
    (n_millis s) (n_analog s) (n_temp s) (n_dht s).

Definition set_MaxHeaterOnTime (v : float) (s : State) : State :=
  mkState (TargetTemperature s) (HeaterStatus s) (PumpStatus s)
    (PreviousHeaterStatus s) v (RunTime s) (TimeHeaterOn s)
    (TimeLastSafetyCheck s) (Measurements s) (SumMeasurements s)
    (AverageTemp s) (TempLastSafetyCheck s) (IntTemp s) (pin_level s)
    (pin_output s) (trace s) (n_millis s) (n_analog s) (n_temp s) (n_dht s) .

Definition set_RunTime (v : Z) (s : State) : State :=
  mkState (TargetTemperature s) (HeaterStatus s) (PumpStatus s)
    (PreviousHeaterStatus s) (MaxHeaterOnTime s) v (TimeHeaterOn s)
    (TimeLastSafetyCheck s) (Measurements s) (SumMeasurements s)
    (AverageTemp s) (TempLastSafetyCheck s) (IntTemp s) (pin_level s)
    (pin_output s) (trace s) (n_millis s) (n_analog s) (n_temp s) (n_dht s) .

Definition set_TimeHeaterOn (v : Z) (s : State) : State :=
  mkState (TargetTemperature s) (HeaterStatus s) (PumpStatus s)
    (PreviousHeaterStatus s) (MaxHeaterOnTime s) (RunTime s) v
    (TimeLastSafetyCheck s) (Measurements s) (SumMeasurements s)
    (AverageTemp s) (TempLastSafetyCheck s) (IntTemp s) (pin_level s)
    (pin_output s) (trace s) (n_millis s) (n_analog s) (n_temp s) (n_dht s) .

Definition set_TimeLastSafetyCheck (v : Z) (s : State) : State :=
  mkState (TargetTemperature s) (HeaterStatus s) (PumpStatus s)
    (PreviousHeaterStatus s) (MaxHeaterOnTime s) (RunTime s) (TimeHeaterOn s)
    v (Measurements s) (SumMeasurements s) (AverageTemp s)
    (TempLastSafetyCheck s) (IntTemp s) (pin_level s) (pin_output s) (trace s)
    (n_millis s) (n_analog s) (n_temp s) (n_dht s).

(** The three globals of the moving average are always written together. *)
Definition set_filter (ms : list float) (sum avg : float) (s : State) : State :=
  mkState (TargetTemperature s) (HeaterStatus s) (PumpStatus s)
    (PreviousHeaterStatus s) (MaxHeaterOnTime s) (RunTime s) (TimeHeaterOn s)
    (TimeLastSafetyCheck s) ms sum avg
    (TempLastSafetyCheck s) (IntTemp s) (pin_level s) (pin_output s) (trace s)
    (n_millis s) (n_analog s) (n_temp s) (n_dht s).

Definition set_TempLastSafetyCheck (v : float) (s : State) : State :=
  mkState (TargetTemperature s) (HeaterStatus s) (PumpStatus s)
    (PreviousHeaterStatus s) (MaxHeaterOnTime s) (RunTime s) (TimeHeaterOn s)
    (TimeLastSafetyCheck s) (Measurements s) (SumMeasurements s)
    (AverageTemp s) v (IntTemp s) (pin_level s) (pin_output s) (trace s)
    (n_millis s) (n_analog s) (n_temp s) (n_dht s).

Definition set_IntTemp (v : Z) (s : State) : State :=
  mkState (TargetTemperature s) (HeaterStatus s) (PumpStatus s)
    (PreviousHeaterStatus s) (MaxHeaterOnTime s) (RunTime s) (TimeHeaterOn s)
    (TimeLastSafetyCheck s) (Measurements s) (SumMeasurements s)
    (AverageTemp s) (TempLastSafetyCheck s) v (pin_level s) (pin_output s)
    (trace s) (n_millis s) (n_analog s) (n_temp s) (n_dht s) .

Definition set_pin_level (v : Z -> Z) (s : State) : State :=
  mkState (TargetTemperature s) (HeaterStatus s) (PumpStatus s)
    (PreviousHeaterStatus s) (MaxHeaterOnTime s) (RunTime s) (TimeHeaterOn s)
    (TimeLastSafetyCheck s) (Measurements s) (SumMeasurements s)
    (AverageTemp s) (TempLastSafetyCheck s) (IntTemp s) v (pin_output s)
    (trace s) (n_millis s) (n_analog s) (n_temp s) (n_dht s).

Definition set_pin_output (v : Z -> bool) (s : State) : State :=
  mkState (TargetTemperature s) (HeaterStatus s) (PumpStatus s)
    (PreviousHeaterStatus s) (MaxHeaterOnTime s) (RunTime s) (TimeHeaterOn s)
    (TimeLastSafetyCheck s) (Measurements s) (SumMeasurements s)
    (AverageTemp s) (TempLastSafetyCheck s) (IntTemp s) (pin_level s) v
    (trace s) (n_millis s) (n_analog s) (n_temp s) (n_dht s).

(** Append events to the log. *)
Definition emit (evs : list Event) (s : State) : State :=
  mkState (TargetTemperature s) (HeaterStatus s) (PumpStatus s)
    (PreviousHeaterStatus s) (MaxHeaterOnTime s) (RunTime s) (TimeHeaterOn s)
    (TimeLastSafetyCheck s) (Measurements s) (SumMeasurements s)
    (AverageTemp s) (TempLastSafetyCheck s) (IntTemp s) (pin_level s)
    (pin_output s) (trace s ++ evs) (n_millis s) (n_analog s) (n_temp s)
    (n_dht s) .

Definition set_counters (m a t d : nat) (s : State) : State :=
  mkState (TargetTemperature s) (HeaterStatus s) (PumpStatus s)
    (PreviousHeaterStatus s) (MaxHeaterOnTime s) (RunTime s) (TimeHeaterOn s)
    (TimeLastSafetyCheck s) (Measurements s) (SumMeasurements s)
    (AverageTemp s) (TempLastSafetyCheck s) (IntTemp s) (pin_level s)
    (pin_output s) (trace s) m a t d.

(** ** Control flow: a pass either returns or ends in the alert loop *)

(** [missionAbort] never returns: [Halted s] is the state in which its
    final [while(1 == 1)] loop is entered. *)
Inductive Outcome : Type :=
| Running (s : State)
| Halted (s : State).

Definition Prog : Type := State -> Outcome.

Definition skip : Prog := Running.

Definition lift (f : State -> State) : Prog := fun s => Running (f s).

Definition pseq (a b : Prog) : Prog :=
  fun s => match a s with
           | Running s1 => b s1
           | Halted s1 => Halted s1
           end.

Definition ifP (c : State -> bool) (a b : Prog) : Prog :=
  fun s => if c s then a s else b s.

Declare Scope prog_scope.
Delimit Scope prog_scope with prog.
Bind Scope prog_scope with Prog.
Notation "a ;; b" := (pseq a b) (at level 61, right associativity) : prog_scope.
Notation "'IF' c 'THEN' a 'ELSE' b" := (ifP c a b)
  (at level 60, c at level 200, a at level 60, b at level 60) : prog_scope.
Notation "'WHEN' c 'DO' a" := (ifP c a skip)
  (at level 60, c at level 200, a at level 60) : prog_scope.

(** Array write [l[i] = v]; the sketch only indexes inside the array. *)
Fixpoint set_nth {A : Type} (i : nat) (v : A) (l : list A) : list A :=
  match l, i with
  | [], _ => []
  | _ :: t, O => v :: t
  | h :: t, S j => h :: set_nth j v t
  end.

(** [map] of the Arduino core (WMath.cpp), on [long]. *)
Definition arduino_map (x in_min in_max out_min out_max : Z) : Z :=
  long32 (long32 (Z.quot (long32 (long32 (x - in_min) * long32 (out_max - out_min)))
                         (long32 (in_max - in_min)))
          + out_min).

Section Sketch.

Variable W : World.

(** *** Library primitives *)

Definition millis (s : State) : Z * State :=
  let t := ulong (millis_at W (n_millis s)) in
  (t, emit [Millis t]
        (set_counters (S (n_millis s)) (n_analog s) (n_temp s) (n_dht s) s)).

Definition analogRead (pin : Z) (s : State) : Z * State :=
  let v := int16 (analog_at W (n_analog s)) in
  (v, emit [AnalogRead pin v]
        (set_counters (n_millis s) (S (n_analog s)) (n_temp s) (n_dht s) s)).

Definition getTempCByIndex (idx : Z) (s : State) : float * State :=
  let v := tempC_at W (n_temp s) in
  (v, emit [GetTempCByIndex idx v]
        (set_counters (n_millis s) (n_analog s) (S (n_temp s)) (n_dht s) s)).

Definition dht_readTemperature (s : State) : Z * State :=
  let v := int16 (dht_at W (n_dht s)) in
  (v, emit [DhtReadTemperature v]
        (set_counters (n_millis s) (n_analog s) (n_temp s) (S (n_dht s)) s)).

(** [digitalWrite(pin, level)] sets the output latch of the pin. *)
Definition digitalWrite (pin level : Z) (s : State) : State :=
  emit [DigitalWrite pin level]
    (set_pin_level (fun p => if p =? pin then level else pin_level s p) s).

(** [pinMode(pin, OUTPUT)]: from now on the pin drives the level of its
    output latch. *)
Definition pinMode_OUTPUT (pin : Z) (s : State) : State :=
  emit [PinModeOutput pin]
    (set_pin_output (fun p => if p =? pin then true else pin_output s p) s).

(** *** The functions of the sketch *)

Definition getInternalTemp (s : State) : State :=
  let (v, s1) := dht_readTemperature s in set_IntTemp v s1.

Definition initScreen (s : State) : State :=
  let pump := [4; 14; 21; 4; 4; 4; 4; 4] in
  let heater := [0; 2; 17; 9; 10; 18; 17; 8] in
  emit [LcdInit; LcdBacklight; LcdCreateChar 0 pump; LcdCreateChar 1 heater;
        LcdClear] s.

Definition initDashboard (s : State) : State :=
  emit [LcdClear; LcdSetCursor 0 0; LcdPrintStr "Tt"; LcdSetCursor 0 1;
        LcdPrintStr "Tc"] s.

(** [for (i; i>0; i--) Measurements[i]=Measurements[i-1];] *)
Fixpoint shift_right (i : nat) (ms : list float) : list float :=
  match i with
  | O => ms
  | S j => shift_right j (set_nth i (nth j ms fzero) ms)
  end.

Definition getTemperature (s : State) : State :=
  let i := (NumberOfMeasurements - 1)%nat in
  let sum1 := fsub (SumMeasurements s) (nth i (Measurements s) fzero) in
  let ms1 := shift_right i (Measurements s) in
  let s1 := emit [RequestTemperatures] s in
  let (CurrentTemperature, s2) := getTempCByIndex 0 s1 in
  let ms2 := set_nth 0 CurrentTemperature ms1 in
  let sum2 := fadd sum1 (nth 0 ms2 fzero) in
  set_filter ms2 sum2 (fdiv sum2 (of_Z (Z.of_nat NumberOfMeasurements))) s2.

Definition changeHeaterStatus (status : Z) (s : State) : State :=
  let s1 := digitalWrite HEATER_PIN status s in
  let s2 := set_HeaterStatus status s1 in
  let (t, s3) := millis s2 in
  set_TimeHeaterOn t s3.

Definition changePumpStatus (status : Z) (s : State) : State :=
  let s1 := digitalWrite PUMP_PIN status s in
  set_PumpStatus status s1.

Definition controlHeater (s : State) : State :=
  if fltb (fadd (AverageTemp s) lit_0_25) (TargetTemperature s)
     && (HeaterStatus s =? OFF)
  then changeHeaterStatus ON s
  else if (HeaterStatus s =? ON)
          && fleb (TargetTemperature s) (AverageTemp s)
  then changeHeaterStatus OFF s
  else s.

(** The ten reads of the potentiometer, summed in an [int]. *)
Fixpoint read_pot (n : nat) (sum_sensorValue : Z) (s : State) : Z * State :=
  match n with
  | O => (sum_sensorValue, s)
  | S k =>
      let (v, s1) := analogRead POTMETER_PIN s in
      read_pot k (int16 (sum_sensorValue + v)) s1
  end.

(** [map(avg, 0, 1023, MinTemp*10, MaxTemp*10)]: the setpoint in tenths. *)
Definition rescale (avg_sensorValue : Z) : Z :=
  arduino_map avg_sensorValue 0 1023 (int16 (MinTemp * 10)) (int16 (MaxTemp * 10)).

(** [((map(...)+4)/5)*5]: tenths brought to a multiple of five. *)
Definition half_degree_tenths (avg_sensorValue : Z) : Z :=
  long32 (long32 (Z.quot (long32 (rescale avg_sensorValue + 4)) 5) * 5).

Definition getTargetTemperature (s : State) : State :=
  let (sum_sensorValue, s1) := read_pot 10 0 s in
  let avg_sensorValue := int16 (Z.quot sum_sensorValue 10) in
  set_TargetTemperature
    (fdiv (of_Z (half_degree_tenths avg_sensorValue)) lit_10_0) s1.

Definition updateLCD (s : State) : State :=
  emit ([LcdSetCursor 3 0; LcdPrintFloat (TargetTemperature s) 1;
         LcdSetCursor 3 1; LcdPrintFloat (AverageTemp s) 1;
         LcdSetCursor 12 0]
        ++ [if HeaterStatus s =? ON then LcdWrite 1 else LcdPrintChar " "]
        ++ [if PumpStatus s =? ON then LcdWrite 0 else LcdPrintChar " "]
        ++ [LcdSetCursor 9 1; LcdPrintULong (RunTime s); LcdPrintStr "min"]) s.

Definition missionAbort (message : string) : Prog :=
  fun s =>
    let s1 := changeHeaterStatus OFF s in
    let s2 := changePumpStatus OFF s1 in
    Halted (emit [LcdClear; LcdSetCursor 0 0; LcdPrintStr "System halted";
                  LcdSetCursor 0 1; LcdPrintStr message] s2).

(** One iteration of the body of [while(1 == 1)] in [missionAbort]. *)
Definition alert_iteration (s : State) : State :=
  emit [Tone 7 2000 1000; Delay 15000] s.

Definition safetyCheck : Prog :=
  fun s0 =>
    let (TimeNow, s) := millis s0 in
    if TimeNow >? ulong (TimeLastSafetyCheck s + 120000) then
      ((fun s => let (t, s1) := millis s in
                 Running (set_TimeLastSafetyCheck t s1)) ;;
       (IF (fun s => (PreviousHeaterStatus s =? HeaterStatus s)
                     && (HeaterStatus s =? ON))
        THEN ((IF (fun s => fleb (AverageTemp s) (TempLastSafetyCheck s))
               THEN missionAbort "E1-no T increase"
               ELSE lift (fun s => set_TempLastSafetyCheck (AverageTemp s) s)) ;;
              (WHEN (fun s => fltb (MaxHeaterOnTime s)
                                   (of_Z (ulong (TimeNow - TimeHeaterOn s))))
               DO missionAbort "E2-heat time lim"))
        ELSE (IF (fun s => HeaterStatus s =? ON)
              THEN lift (set_PreviousHeaterStatus ON)
              ELSE (WHEN (fun s => HeaterStatus s =? OFF)
                    DO lift (set_PreviousHeaterStatus OFF)))) ;;
       (WHEN (fun _ => TimeNow / 1000 / 60 >? ulong MaxRunTime)
        DO missionAbort "E4-timelim excee") ;;
       (WHEN (fun s => fltb (of_Z MaxTemp) (AverageTemp s))
        DO missionAbort "E3-temp too high") ;;
       lift getInternalTemp ;;
       (WHEN (fun s => IntTemp s >? 40)
        DO missionAbort "E5-int temp >40C"))%prog s
    else Running s.

Definition loop : Prog :=
  fun s0 =>
    let (TimeNow, s) := millis s0 in
    (lift (set_RunTime (TimeNow / 1000 / 60)) ;;
     safetyCheck ;;
     lift getTargetTemperature ;;
     lift getTemperature ;;
     lift controlHeater ;;
     lift updateLCD)%prog s.

(** *** Start-up *)

(** [while(millis() < deadline){;}]: spins until the clock reaches the
    deadline; [fuel] bounds the number of clock reads. *)
Fixpoint busy_wait (fuel : nat) (deadline : Z) (s : State) : option State :=
  match fuel with
  | O => None
  | S k =>
      let (t, s1) := millis s in
      if t <? deadline then busy_wait k deadline s1 else Some s1
  end.

(** The [for] loop of [initHeater], [n] rounds left. *)
Fixpoint initHeater_rounds (fuel n : nat) (s : State) : option State :=
  match n with
  | O => Some s
  | S k =>
      let (time_now, s1) := millis s in
      let s2 := getTemperature s1 in
      match busy_wait fuel (ulong (time_now + 1000)) s2 with
      | Some s3 => initHeater_rounds fuel k s3
      | None => None
      end
  end.

Definition initHeater (fuel : nat) (s : State) : option State :=
  initHeater_rounds fuel NumberOfMeasurements
    (emit [LcdPrintStr "Initializing..."] s).

Definition setup (fuel : nat) (s : State) : option State :=
  let s := emit [SerialBegin 9600; DhtBegin] s in
  let s := pinMode_OUTPUT 4 s in
  let s := pinMode_OUTPUT 6 s in
  let s := digitalWrite HEATER_PIN OFF s in
  let s := emit [SensorsBegin] s in
  let s := set_MaxHeaterOnTime
             (fdiv (fmul (fmul (of_Z (int16 (MaxTemp * WaterVolume))) lit_4_1868)
                         (of_Z 1000000))
                   (of_Z PowerHeater)) s in
  let s := initScreen s in
  match initHeater fuel s with
  | None => None
  | Some s =>
      let s := set_TempLastSafetyCheck (AverageTemp s) s in
      let s := initDashboard s in
      let s := set_PumpStatus ON s in
      Some (getInternalTemp s)
  end.

(** *** The whole machine: [loop] forever, or the alert loop forever *)

Inductive Machine : Type :=
| Looping (s : State)
| Alerting (s : State).

Definition machine_state (m : Machine) : State :=
  match m with Looping s | Alerting s => s end.

(** One tick: a pass of [loop], or one more round of the alert loop. *)
Definition tick (m : Machine) : Machine :=
  match m with
  | Looping s =>
      match loop s with
      | Running s1 => Looping s1
      | Halted s1 => Alerting s1
      end
  | Alerting s => Alerting (alert_iteration s)
  end.

Fixpoint ticks (n : nat) (m : Machine) : Machine :=
  match n with
  | O => m
  | S k => ticks k (tick m)
  end.

End Sketch.

(** State at reset: initialised globals, zeroed memory and output latches,
    every pin an input. *)
Definition boot : State :=
  mkState fzero OFF OFF OFF fzero 0 0 0
    (repeat fzero NumberOfMeasurements) fzero fzero fzero 0
    (fun _ => 0) (fun _ => false) [] 0%nat 0%nat 0%nat 0%nat.

(** * Definitions used in the statements *)

(** ** Outcomes and the clock *)

Definition outcome_state (o : Outcome) : State :=
  match o with Running s | Halted s => s end.

Definition is_halted (o : Outcome) : bool :=
  match o with Halted _ => true | Running _ => false end.

(** The clock value a state is about to read. *)
Definition next_millis (W : World) (s : State) : Z :=
  ulong (millis_at W (n_millis s)).

(** ** Canonical binary32 numbers *)

(** [m * 2^k] on positive numbers, by doubling. *)
Fixpoint shl (k : nat) (m : positive) : positive :=
  match k with
  | O => m
  | S k' => xO (shl k' m)
  end.

Fixpoint iter_nat {A : Type} (f : A -> A) (n : nat) (x : A) : A :=
  match n with
  | O => x
  | S k => iter_nat f k (f x)
  end.

Definition digits (m : positive) : nat := Pos.to_nat (digits2_pos m).

(** The binary32 number [(-1)^s * m * 2^e], for [m] below [2^24]. *)
Definition canon (s : bool) (m : positive) (e : Z) : float :=
  S754_finite s (shl (24 - digits m) m) (e + Z.of_nat (digits m) - 24).

(** The float [k/128]: temperatures on the probe's grid. *)
Definition grid (k : Z) : float := binary_normalize prec emax k (-7) false.

Definition signed (s : bool) (m : positive) : Z := cond_Zopp s (Zpos m).

(** ** C9: the time gate of the safety check *)

(** The guarded block of [safetyCheck] was entered: the pass did more than
    read the clock once and return. *)
Definition checks_performed (W : World) (s : State) : Prop :=
  safetyCheck W s <> Running (snd (millis W s)).

(** A pot of water at 100 degrees, exactly 120000 ms after the last check. *)
Definition gate_world : World :=
  {| millis_at := fun _ => 120000; analog_at := fun _ => 0;
     tempC_at := fun _ => of_Z 100; dht_at := fun _ => 20 |}.

Definition gate_state : State :=
  set_filter (repeat (of_Z 100) 10) (of_Z 1000) (of_Z 100) boot.

Definition gate_state_late : State := set_TimeLastSafetyCheck 41 gate_state.

(** ** C8: the setpoint reader *)

(** Checking a decidable property on an initial segment of the integers. *)
Definition check_below (n : nat) (P : Z -> bool) : bool :=
  forallb P (map Z.of_nat (seq 0 n)).

(** The values returned by the next [n] reads of the potentiometer. *)
Definition pot_readings (W : World) (s : State) (n : nat) : list Z :=
  map (fun i => analog_at W (n_analog s + i)) (seq 0 n).

Definition sumZ (l : list Z) : Z := fold_right Z.add 0 l.

(** [t] is the multiple of five nearest to [m]. *)
Definition nearest_half_degree (m t : Z) : Prop :=
  t mod 5 = 0 /\ forall u, u mod 5 = 0 -> Z.abs (t - m) <= Z.abs (u - m).

(** [t] is the smallest multiple of five that is not below [m]. *)
Definition next_half_degree (m t : Z) : Prop :=
  t mod 5 = 0 /\ m <= t < m + 5.

Definition pot_world (v : Z) : World :=
  {| millis_at := fun _ => 0; analog_at := fun _ => v;
     tempC_at := fun _ => fzero; dht_at := fun _ => 20 |}.

Definition setpoint_ok (avg : Z) : bool :=
  let m := rescale avg in
  let t := half_degree_tenths avg in
  (m =? MinTemp * 10 + avg * (MaxTemp * 10 - MinTemp * 10) / 1023)
  && (t mod 5 =? 0) && (m <=? t) && (t <? m + 5)
  && (MinTemp * 10 <=? t) && (t <=? MaxTemp * 10)
  && Qeq_bool (SF2Q (fdiv (of_Z t) lit_10_0)) (t # 10).

(** ** C4: hysteresis of the heater controller *)

(** The setpoint of [k] half degrees, as [getTargetTemperature] stores it. *)
Definition half_degrees (k : Z) : float := fdiv (of_Z (5 * k)) lit_10_0.

Definition margin_ok (k : Z) : bool :=
  (k <? 2 * MinTemp)
  || (fltb (fadd (fsub (half_degrees k) lit_0_3) lit_0_25) (half_degrees k)
      && negb (fltb (fadd (fsub (half_degrees k) lit_0_2) lit_0_25)
                    (half_degrees k))).

(** The heater relay was switched to [level] between [s] and [s']: the
    level is on the heater pin and in [HeaterStatus], the events are the
    write to the pin and the clock read that restarts the heater timer,
    and [s'] is [s] with exactly these changes. *)
Definition heater_switched (W : World) (level : Z) (s s' : State) : Prop :=
  pin_level s' HEATER_PIN = level
  /\ HeaterStatus s' = level
  /\ TimeHeaterOn s' = next_millis W s
  /\ trace s'
     = trace s ++ [DigitalWrite HEATER_PIN level; Millis (next_millis W s)]
  /\ s' = set_TimeHeaterOn (next_millis W s)
            (set_counters (S (n_millis s)) (n_analog s) (n_temp s) (n_dht s)
               (set_HeaterStatus level
                  (set_pin_level
                     (fun p => if p =? HEATER_PIN then level
                               else pin_level s p)
                     (emit [DigitalWrite HEATER_PIN level;
                            Millis (next_millis W s)] s)))).

Definition hysteresis_state (avg : float) : State :=
  set_TargetTemperature (half_degrees 50)
    (set_filter (repeat avg 10) (fmul avg lit_10_0) avg boot).

(** ** C1: the shutdown procedure *)

(** State in which [missionAbort] enters its endless alert loop. *)
Definition abort_state (W : World) (message : string) (s : State) : State :=
  outcome_state (missionAbort W message s).

Definition halt_display (code : string) : list Event :=
  [LcdClear; LcdSetCursor 0 0; LcdPrintStr "System halted";
   LcdSetCursor 0 1; LcdPrintStr code].

Definition alert_round : list Event := [Tone 7 2000 1000; Delay 15000].

Definition fault_codes : list string :=
  ["E1-no T increase"; "E2-heat time lim"; "E3-temp too high";
   "E4-timelim excee"; "E5-int temp >40C"]%string.

(** Both relays are released and both status variables say OFF. *)
Definition actuators_off (s : State) : Prop :=
  pin_level s HEATER_PIN = OFF /\ pin_level s PUMP_PIN = OFF
  /\ HeaterStatus s = OFF /\ PumpStatus s = OFF.

Definition hot_world : World :=
  {| millis_at := fun _ => 200000; analog_at := fun _ => 0;
     tempC_at := fun _ => of_Z 100; dht_at := fun _ => 20 |}.

(** ** C7: order of a pass of the control loop *)

(** The pass in the order the specification gives: setpoint, temperature,
    safety check, heater control, status display. *)
Definition loop_in_spec_order (W : World) : Prog :=
  fun s0 =>
    let (TimeNow, s) := millis W s0 in
    (lift (set_RunTime (TimeNow / 1000 / 60)) ;;
     lift (getTargetTemperature W) ;;
     lift (getTemperature W) ;;
     safetyCheck W ;;
     lift (controlHeater W) ;;
     lift updateLCD)%prog s.

(** Water at 20 degrees, a probe that now reads 1000, a check that is due. *)
Definition order_world : World :=
  {| millis_at := fun _ => 200000; analog_at := fun _ => 512;
     tempC_at := fun _ => of_Z 1000; dht_at := fun _ => 20 |}.

Definition order_state : State :=
  set_filter (repeat (of_Z 20) 10) (of_Z 200) (of_Z 20) boot.

Definition is_check_event (e : Event) : bool :=
  match e with Millis _ | DhtReadTemperature _ => true | _ => false end.

Definition is_pot_event (e : Event) : bool :=
  match e with AnalogRead pin _ => pin =? POTMETER_PIN | _ => false end.

Definition is_lcd_event (e : Event) : bool :=
  match e with
  | LcdSetCursor _ _ | LcdPrintFloat _ _ | LcdPrintChar _ | LcdWrite _
  | LcdPrintULong _ | LcdPrintStr _ => true
  | _ => false
  end.

(** State handed to the safety check: clock read, [RunTime] refreshed. *)
Definition pass_entry (W : World) (s : State) : State :=
  set_RunTime (next_millis W s / 1000 / 60) (snd (millis W s)).

Definition idle_world : World :=
  {| millis_at := fun n => 1000 * Z.of_nat n; analog_at := fun _ => 512;
     tempC_at := fun _ => of_Z 20; dht_at := fun _ => 20 |}.

(** ** C10: who writes the checkpoint temperature *)

Definition is_nan (x : float) : bool :=
  match x with S754_nan => true | _ => false end.

Definition heating_state : State := set_HeaterStatus ON order_state.

(** ** C3: the heater timeout *)

(** Code shown on the second display line when a pass ended in a fault. *)
Definition raised_code (o : Outcome) : option string :=
  match o with
  | Running _ => None
  | Halted h =>
      match last (trace h) LcdClear with
      | LcdPrintStr code => Some code
      | _ => None
      end
  end.

(** A check is due: the guard of [safetyCheck] on the clock it will read. *)
Definition check_due (W : World) (s : State) : bool :=
  next_millis W s >? ulong (TimeLastSafetyCheck s + 120000).

(** Milliseconds since the heater was last switched, as [safetyCheck]
    computes them: an [unsigned long] difference, converted to [float]. *)
Definition heater_on_elapsed (W : World) (s : State) : float :=
  of_Z (ulong (next_millis W s - TimeHeaterOn s)).

(** The value [setup] stores in [MaxHeaterOnTime]. *)
Definition startup_MaxHeaterOnTime : float :=
  fdiv (fmul (fmul (of_Z (int16 (MaxTemp * WaterVolume))) lit_4_1868)
             (of_Z 1000000))
       (of_Z PowerHeater).

Definition timeout_world : World :=
  {| millis_at := fun _ => 5000000; analog_at := fun _ => 0;
     tempC_at := fun _ => of_Z 20; dht_at := fun _ => 20 |}.

(** Heater ON since time 0 and at the previous checkpoint; water at 20. *)
Definition timeout_state (last : float) : State :=
  set_TempLastSafetyCheck last
    (set_MaxHeaterOnTime startup_MaxHeaterOnTime
       (set_PreviousHeaterStatus ON (set_HeaterStatus ON order_state))).

(** ** C6: who writes the pump *)

(** An event that acts on the pump relay: a write to its pin, or the
    configuration of the pin as an output. *)
Definition is_pump_write (e : Event) : bool :=
  match e with
  | DigitalWrite pin _ | PinModeOutput pin => pin =? PUMP_PIN
  | _ => false
  end.

(** Between [s0] and [s] nothing acted on the pump pin: latch and direction
    are the same and no event in between is a pump event. *)
Definition pump_untouched (s0 s : State) : Prop :=
  pin_level s PUMP_PIN = pin_level s0 PUMP_PIN
  /\ pin_output s PUMP_PIN = pin_output s0 PUMP_PIN
  /\ exists evs, trace s = trace s0 ++ evs /\ existsb is_pump_write evs = false.

(** What the pump relay sees: the level the pin drives, if it is an
    output; a pin that is an input drives nothing. *)
Definition pump_drive (s : State) : option Z :=
  if pin_output s PUMP_PIN then Some (pin_level s PUMP_PIN) else None.

(** The pump relay is driven ON while the machine loops and OFF once it
    alerts, and [PumpStatus] says so. *)
Definition pump_as_recorded (m : Machine) : Prop :=
  match m with
  | Looping s => pump_drive s = Some ON /\ PumpStatus s = ON
  | Alerting h => pump_drive h = Some OFF /\ PumpStatus h = OFF
  end.

(** After any clock read, the clock is a second further within [fuel]
    more reads (or the 32-bit deadline has wrapped below it). *)
Definition clock_advances (W : World) (fuel : nat) : Prop :=
  forall n, exists k,
    (k < fuel)%nat
    /\ ulong (ulong (millis_at W n) + 1000) <= ulong (millis_at W (S n + k)).

(** The state in which [loop] is first entered, for the idle world. *)
Definition startup_state : State :=
  match setup idle_world 1 boot with Some s => s | None => boot end.

(** ** C2: the sensor-fault check against a stale checkpoint *)

(** The machine before each of the first [n] ticks, and after the last. *)
Fixpoint trajectory (W : World) (n : nat) (m : Machine) : list Machine :=
  match n with
  | O => [m]
  | S k => m :: trajectory W k (tick W m)
  end.

(** Water at 10 degrees while warming up and at 20 degrees ever after, a
    setpoint of 25 degrees, a clock that gains a second per read. *)
Definition stale_world : World :=
  {| millis_at := fun n => 1000 * Z.of_nat n;
     analog_at := fun _ => 682;
     tempC_at := fun n => if (n <? 10)%nat then of_Z 10 else of_Z 20;
     dht_at := fun _ => 20 |}.

Definition stale_start : State :=
  match setup stale_world 1 boot with Some s => s | None => boot end.

Definition stale_run : list (nat * Machine) :=
  combine (seq 0 174) (trajectory stale_world 173 (Looping stale_start)).

(** A check is due in the pass that starts from this machine state. *)
Definition pass_checks (W : World) (m : Machine) : bool :=
  match m with
  | Looping s => check_due W (pass_entry W s)
  | Alerting _ => false
  end.

Definition heater_on (m : Machine) : bool :=
  HeaterStatus (machine_state m) =? ON.

Definition is_looping (m : Machine) : bool :=
  match m with Looping _ => true | Alerting _ => false end.

Definition state_at (n : nat) : State :=
  machine_state (nth n (map snd stale_run) (Looping boot)).

(** ** C5: the moving average *)

(** The last ten readings before read number [n], newest first, with a
    default before the first reading. *)
Definition history {A : Type} (d : A) (f : nat -> A) (n : nat) : list A :=
  map (fun i => if (i <? n)%nat then f (n - 1 - i)%nat else d) (seq 0 10).

(** The probe delivers multiples of 1/128 degree, at most 8192 degrees. *)
Definition on_grid (W : World) (raw : nat -> Z) : Prop :=
  forall i, Z.abs (raw i) <= 2 ^ 20 /\ tempC_at W i = grid (raw i).

(** The window holds the last ten samples (zeros before the first), and
    the average is the stored sum over ten. *)
Definition window_inv (W : World) (s : State) : Prop :=
  Measurements s = history fzero (tempC_at W) (n_temp s)
  /\ AverageTemp s = fdiv (SumMeasurements s) (of_Z 10).

(** The stored sum is the float of the exact sum of the window. *)
Definition sum_inv (raw : nat -> Z) (s : State) : Prop :=
  SumMeasurements s = grid (sumZ (history 0 raw (n_temp s))).

Definition filter_inv (W : World) (raw : nat -> Z) (s : State) : Prop :=
  window_inv W s /\ sum_inv raw s.

Definition same_filter (s s' : State) : Prop :=
  Measurements s' = Measurements s
  /\ SumMeasurements s' = SumMeasurements s
  /\ AverageTemp s' = AverageTemp s
  /\ n_temp s' = n_temp s.

(** An invariant of the filter holds and the warm-up is over. *)
Definition warmed_up (Inv : State -> Prop) (s : State) : Prop :=
  Inv s /\ (10 <= n_temp s)%nat.



(** ** The fault tests of the safety check *)

(** The heater was ON at the previous checkpoint and is ON now. *)
Definition continuous_on (s : State) : bool :=
  (PreviousHeaterStatus s =? HeaterStatus s) && (HeaterStatus s =? ON).

(** Code of the first test that holds, if any. *)
Fixpoint first_raised (tests : list (bool * string)) : option string :=
  match tests with
  | [] => None
  | (test, code) :: rest => if test then Some code else first_raised rest
  end.

(** The fault tests of a due safety check, in the order of the code, on
    the values at entry and on the ambient reading the call will get. *)
Definition fault_tests (W : World) (s : State) : list (bool * string) :=
  [ (continuous_on s && fleb (AverageTemp s) (TempLastSafetyCheck s),
     "E1-no T increase"%string);
    (continuous_on s && fltb (MaxHeaterOnTime s) (heater_on_elapsed W s),
     "E2-heat time lim"%string);
    (next_millis W s / 1000 / 60 >? ulong MaxRunTime,
     "E4-timelim excee"%string);
    (fltb (of_Z MaxTemp) (AverageTemp s), "E3-temp too high"%string);
    (int16 (dht_at W (n_dht s)) >? 40, "E5-int temp >40C"%string) ].

Definition expected_fault (W : World) (s : State) : option string :=
  if check_due W s then first_raised (fault_tests W s) else None.

(** ** Relay outputs and the display *)

(** The status variables say what the relay pins carry. *)
Definition outputs_mirrored (s : State) : Prop :=
  pin_level s HEATER_PIN = HeaterStatus s
  /\ pin_level s PUMP_PIN = PumpStatus s.

Definition status_valid (s : State) : Prop :=
  (HeaterStatus s = ON \/ HeaterStatus s = OFF)
  /\ (PumpStatus s = ON \/ PumpStatus s = OFF).

(** A write to the output latch of the heater pin. *)
Definition is_heater_write (e : Event) : bool :=
  match e with DigitalWrite pin _ => pin =? HEATER_PIN | _ => false end.

(** What [updateLCD] draws for a state. *)
Definition dashboard (s : State) : list Event :=
  [LcdSetCursor 3 0; LcdPrintFloat (TargetTemperature s) 1;
   LcdSetCursor 3 1; LcdPrintFloat (AverageTemp s) 1;
   LcdSetCursor 12 0;
   if pin_level s HEATER_PIN =? ON then LcdWrite 1 else LcdPrintChar " ";
   if pin_level s PUMP_PIN =? ON then LcdWrite 0 else LcdPrintChar " ";
   LcdSetCursor 9 1; LcdPrintULong (RunTime s); LcdPrintStr "min"].

(** ** The setpoint reader and the heater controller *)

(** The average of the next ten potentiometer readings, as
    [getTargetTemperature] computes it. *)
Definition averaged_pot (W : World) (s : State) : Z :=
  Z.quot (sumZ (pot_readings W s 10)) 10.

(** The next ten potentiometer readings are in the range of the ADC. *)
Definition adc_in_range (W : World) (s : State) : Prop :=
  forall i, (i < 10)%nat -> 0 <= analog_at W (n_analog s + i) <= 1023.

Definition setpoint_below_MaxTemp (k : Z) : bool :=
  (k <? 2 * MinTemp) || fleb (half_degrees k) (of_Z MaxTemp).

Definition setpoint_step_ok (a : Z) : bool :=
  let t := half_degree_tenths a in
  let t' := half_degree_tenths (a + 1) in
  (t <=? t') && (t' <=? t + 5)
  && ((t =? MinTemp * 10) || (3 <? a))
  && ((t =? MaxTemp * 10) || (a <? 1010))
  && ((a <=? 3) || negb (t =? MinTemp * 10))
  && ((1010 <=? a) || negb (t =? MaxTemp * 10)).

Definition half_degrees_ordered (j : Z) : bool :=
  check_below 71 (fun k => (k <? j) || (j <? 2 * MinTemp)
                           || fleb (half_degrees j) (half_degrees k)).

(** Some averaged reading selects the setpoint of [k] half degrees. *)
Definition setpoint_selectable (k : Z) : bool :=
  (k <? 2 * MinTemp)
  || existsb (fun a => half_degree_tenths a =? 5 * k)
       (map Z.of_nat (seq 0 1024)).

(** ** Timers *)

(** The heater time limit is the one of [setup] and the heater timer holds
    an [unsigned long]. *)
Definition timers_valid (s : State) : Prop :=
  MaxHeaterOnTime s = startup_MaxHeaterOnTime
  /\ 0 <= TimeHeaterOn s < 4294967296
  /\ 0 <= TimeLastSafetyCheck s < 4294967296.

(** The state after [k] more reads of the clock. *)
Fixpoint clock_reads (W : World) (k : nat) (s : State) : State :=
  match k with
  | O => s
  | S j => clock_reads W j (snd (millis W s))
  end.

(** ** Start-up and steady readings *)

(** Since [s] only clock reads and temperature samples happened: the
    controls are as they were and the heater pin was not written. *)
Definition quiet_since (s t : State) : Prop :=
  TargetTemperature t = TargetTemperature s
  /\ HeaterStatus t = HeaterStatus s
  /\ PreviousHeaterStatus t = PreviousHeaterStatus s
  /\ TimeHeaterOn t = TimeHeaterOn s
  /\ TimeLastSafetyCheck t = TimeLastSafetyCheck s
  /\ pin_level t = pin_level s
  /\ n_analog t = n_analog s
  /\ n_dht t = n_dht s
  /\ exists evs, trace t = trace s ++ evs /\ filter is_heater_write evs = [].

(** Structural equality of binary32 values. *)
Definition float_eqb (x y : float) : bool :=
  match x, y with
  | S754_zero a, S754_zero b => Bool.eqb a b
  | S754_infinity a, S754_infinity b => Bool.eqb a b
  | S754_nan, S754_nan => true
  | S754_finite a m e, S754_finite b m' e' =>
      Bool.eqb a b && Pos.eqb m m' && Z.eqb e e'
  | _, _ => false
  end.

(** Checking a decidable property on [count] integers from [lo] on. *)
Definition check_from (lo : Z) (count : positive) (P : Z -> bool) : bool :=
  snd (Pos.iter (fun st => (fst st + 1, snd st && P (fst st))) (lo, true)
         count).

(** Ten times a raw reading, summed and divided by ten, is the reading. *)
Definition steady_ok (k : Z) : bool :=
  float_eqb (fdiv (grid (10 * k)) (of_Z 10)) (grid k).

(** * Properties *)

(** ** Generic facts and proof automation *)

Lemma pseq_Running (a b : Prog) (s s1 : State) :
  a s = Running s1 -> (a ;; b)%prog s = b s1.
Proof. unfold pseq; intros ->; reflexivity. Qed.

Lemma pseq_Halted (a b : Prog) (s s1 : State) :
  a s = Halted s1 -> (a ;; b)%prog s = Halted s1.
Proof. unfold pseq; intros ->; reflexivity. Qed.

Lemma pseq_lift (f : State -> State) (b : Prog) (s : State) :
  (lift f ;; b)%prog s = b (f s).
Proof. reflexivity. Qed.

(** Case analysis on the next undecided test of a program. *)
Ltac split_if :=
  match goal with
  | |- context [if ?c then _ else _] =>
      let E := fresh "E" in destruct c eqn:E
  | H : context [if ?c then _ else _] |- _ =>
      let E := fresh "E" in destruct c eqn:E
  end.

Ltac unfold_prog :=
  unfold safetyCheck, loop, missionAbort, pseq, ifP, lift, skip,
    changePumpStatus, changeHeaterStatus, getInternalTemp,
    dht_readTemperature, digitalWrite, millis in *.

(** Reduce record projections applied to chains of field updates only. *)
Ltac proj_simpl :=
  cbn [TargetTemperature HeaterStatus PumpStatus PreviousHeaterStatus
       MaxHeaterOnTime RunTime TimeHeaterOn TimeLastSafetyCheck Measurements
       SumMeasurements AverageTemp TempLastSafetyCheck IntTemp pin_level
       pin_output set_pin_output pinMode_OUTPUT
       trace n_millis n_analog n_temp n_dht
       set_TargetTemperature set_HeaterStatus set_PumpStatus
       set_PreviousHeaterStatus set_MaxHeaterOnTime set_RunTime
       set_TimeHeaterOn set_TimeLastSafetyCheck set_filter
       set_TempLastSafetyCheck set_IntTemp set_pin_level emit set_counters
       outcome_state abort_state missionAbort changeHeaterStatus
       changePumpStatus digitalWrite millis getInternalTemp
       dht_readTemperature fst snd] in *.

(** The same, keeping the state reached by [missionAbort] folded. *)
Ltac proj_simpl_upto_abort :=
  cbn [TargetTemperature HeaterStatus PumpStatus PreviousHeaterStatus
       MaxHeaterOnTime RunTime TimeHeaterOn TimeLastSafetyCheck Measurements
       SumMeasurements AverageTemp TempLastSafetyCheck IntTemp pin_level
       pin_output set_pin_output pinMode_OUTPUT
       trace n_millis n_analog n_temp n_dht
       set_TargetTemperature set_HeaterStatus set_PumpStatus
       set_PreviousHeaterStatus set_MaxHeaterOnTime set_RunTime
       set_TimeHeaterOn set_TimeLastSafetyCheck set_filter
       set_TempLastSafetyCheck set_IntTemp set_pin_level emit set_counters
       outcome_state millis getInternalTemp dht_readTemperature fst snd] in *.

(** ** binary32 arithmetic on small integers and on the probe's grid *)

Lemma shl_Zpos (k : nat) (m : positive) :
  Zpos (shl k m) = Zpos m * 2 ^ Z.of_nat k.
Proof.
  induction k as [|k IH].
  - cbn. lia.
  - cbn [shl]. rewrite Pos2Z.inj_xO, IH.
    rewrite Nat2Z.inj_succ, Z.pow_succ_r by lia. lia.
Qed.

Lemma shl_add (j k : nat) (m : positive) : shl j (shl k m) = shl (j + k) m.
Proof. induction j as [|j IH]; cbn; [reflexivity | rewrite IH; reflexivity]. Qed.

Lemma shl_xO (k : nat) (m : positive) : shl k (xO m) = xO (shl k m).
Proof. induction k as [|k IH]; cbn; [reflexivity | rewrite IH; reflexivity]. Qed.

Lemma Pos_iter_xO (m p : positive) : Pos.iter xO m p = shl (Pos.to_nat p) m.
Proof.
  rewrite Pos2Nat.inj_iter. induction (Pos.to_nat p) as [|n IH]; cbn;
    [reflexivity | rewrite IH; reflexivity].
Qed.

Lemma digits2_shl (k : nat) (m : positive) :
  Zpos (digits2_pos (shl k m)) = Zpos (digits2_pos m) + Z.of_nat k.
Proof.
  induction k as [|k IH]; [cbn; lia |].
  cbn [shl digits2_pos]. rewrite Pos2Z.inj_succ, IH. lia.
Qed.

Lemma iter_nat_add {A : Type} (f : A -> A) (a b : nat) (x : A) :
  iter_nat f (a + b) x = iter_nat f b (iter_nat f a x).
Proof. revert x. induction a as [|a IH]; intros x; cbn; [reflexivity | apply IH]. Qed.

Lemma iter_pos_nat {A : Type} (f : A -> A) (p : positive) (x : A) :
  iter_pos f p x = iter_nat f (Pos.to_nat p) x.
Proof.
  revert x. induction p as [p IH | p IH |]; intros x; cbn [iter_pos].
  - rewrite !IH, Pos2Nat.inj_xI.
    replace (S (2 * Pos.to_nat p)) with (1 + (Pos.to_nat p + Pos.to_nat p))%nat by lia.
    rewrite !iter_nat_add. reflexivity.
  - rewrite !IH, Pos2Nat.inj_xO.
    replace (2 * Pos.to_nat p)%nat with (Pos.to_nat p + Pos.to_nat p)%nat by lia.
    rewrite iter_nat_add. reflexivity.
  - reflexivity.
Qed.

(** Shifting out [n] zero bits is exact. *)
Lemma shr_shl (n : nat) (m : positive) :
  iter_nat shr_1 n (Build_shr_record (Zpos (shl n m)) false false)
  = Build_shr_record (Zpos m) false false.
Proof.
  induction n as [|n IH]; [reflexivity |].
  cbn [shl iter_nat shr_1 orb]. exact IH.
Qed.

Lemma binary_round_aux_exact (s : bool) (M : positive) (n : nat) (E : Z) :
  Zpos (digits2_pos M) = 24 ->
  -149 <= E <= 104 ->
  binary_round_aux prec emax s (Zpos (shl n M)) (E - Z.of_nat n) loc_Exact
  = S754_finite s M E.
Proof.
  intros Hd HE. unfold binary_round_aux.
  assert (H1 : shr_fexp prec emax (Zpos (shl n M)) (E - Z.of_nat n) loc_Exact
               = (Build_shr_record (Zpos M) false false, E)).
  { unfold shr_fexp. cbn [Zdigits2]. rewrite digits2_shl, Hd.
    replace (fexp prec emax (24 + Z.of_nat n + (E - Z.of_nat n)) - (E - Z.of_nat n))
      with (Z.of_nat n) by (unfold fexp, SpecFloat.emin, prec, emax; lia).
    cbn [shr_record_of_loc]. unfold shr.
    destruct n as [|n]; [cbn; f_equal; lia |].
    cbn [Z.of_nat].
    rewrite iter_pos_nat, SuccNat2Pos.id_succ, shr_shl. f_equal. lia. }
  rewrite H1. cbn [shr_m loc_of_shr_record round_nearest_even].
  assert (H2 : shr_fexp prec emax (Zpos M) E loc_Exact
               = (Build_shr_record (Zpos M) false false, E)).
  { unfold shr_fexp. cbn [Zdigits2]. rewrite Hd.
    replace (fexp prec emax (24 + E) - E) with 0
      by (unfold fexp, SpecFloat.emin, prec, emax; lia).
    reflexivity. }
  rewrite H2. cbn [shr_m].
  replace (E <=? emax - prec) with true
    by (symmetry; apply Z.leb_le; unfold emax, prec; lia).
  reflexivity.
Qed.

Lemma binary_round_exact (s : bool) (m : positive) (j : nat) (e : Z) :
  (digits m <= 24)%nat ->
  -149 <= e + Z.of_nat (digits m) - 24 <= 104 ->
  binary_round prec emax s (shl j m) (e - Z.of_nat j) = canon s m e.
Proof.
  intros Hd He. unfold binary_round, canon.
  assert (Hdig : Zpos (digits2_pos m) = Z.of_nat (digits m))
    by (unfold digits; lia).
  set (d := digits m) in *.
  assert (H24 : Zpos (digits2_pos (shl (24 - d) m)) = 24)
    by (rewrite digits2_shl, Hdig; lia).
  assert (Hfexp : fexp prec emax (Zpos (digits2_pos (shl j m)) + (e - Z.of_nat j))
                  = e + Z.of_nat d - 24).
  { rewrite digits2_shl, Hdig. unfold fexp, SpecFloat.emin, prec, emax. lia. }
  rewrite Hfexp. unfold shl_align.
  destruct (e + Z.of_nat d - 24 - (e - Z.of_nat j)) as [|p|p] eqn:Hsh.
  - replace (shl j m) with (shl (j - (24 - d)) (shl (24 - d) m))
      by (rewrite shl_add; f_equal; lia).
    replace (e - Z.of_nat j)
      with (e + Z.of_nat d - 24 - Z.of_nat (j - (24 - d))) by lia.
    apply binary_round_aux_exact; [exact H24 | lia].
  - replace (shl j m) with (shl (j - (24 - d)) (shl (24 - d) m))
      by (rewrite shl_add; f_equal; lia).
    replace (e - Z.of_nat j)
      with (e + Z.of_nat d - 24 - Z.of_nat (j - (24 - d))) by lia.
    apply binary_round_aux_exact; [exact H24 | lia].
  - rewrite Pos_iter_xO, shl_add.
    replace (Pos.to_nat p + j)%nat with (24 - d)%nat by lia.
    replace (e + Z.of_nat d - 24)
      with (e + Z.of_nat d - 24 - Z.of_nat 0) at 1 by (cbn; lia).
    change (shl (24 - d) m) with (shl 0 (shl (24 - d) m)) at 1.
    apply binary_round_aux_exact; [exact H24 | lia].
Qed.

Lemma digits2_bounds (m : positive) :
  2 ^ (Zpos (digits2_pos m) - 1) <= Zpos m < 2 ^ Zpos (digits2_pos m).
Proof.
  induction m as [m IH | m IH |]; cbn [digits2_pos];
    [| | cbn; lia];
    rewrite Pos2Z.inj_succ;
    replace (Z.succ (Zpos (digits2_pos m)) - 1)
      with (Z.succ (Zpos (digits2_pos m) - 1)) by lia;
    rewrite !Z.pow_succ_r by lia; lia.
Qed.

Lemma digits_le_24 (m : positive) : Zpos m < 2 ^ 24 -> (digits m <= 24)%nat.
Proof.
  intros H. pose proof (digits2_bounds m) as [Hlo _].
  assert (Hlt : 2 ^ (Zpos (digits2_pos m) - 1) < 2 ^ 24) by lia.
  apply Z.pow_lt_mono_r_iff in Hlt; [| lia | lia]. unfold digits. lia.
Qed.

Lemma normalize_scaled (z : Z) (J : nat) :
  Z.abs z < 2 ^ 24 ->
  binary_normalize prec emax (z * 2 ^ Z.of_nat J) (-7 - Z.of_nat J) false
  = grid z.
Proof.
  intros Hz. unfold grid.
  destruct z as [|m|m]; [reflexivity | |].
  - rewrite <- shl_Zpos. cbn [binary_normalize].
    pose proof (digits_le_24 m ltac:(lia)) as Hd.
    assert (Hpos : (0 < digits m)%nat) by (unfold digits; lia).
    rewrite (binary_round_exact false m J (-7)) by lia.
    change m with (shl 0 m) at 2. change (-7) with (-7 - Z.of_nat 0) at 2.
    rewrite (binary_round_exact false m 0 (-7)) by lia. reflexivity.
  - replace (Zneg m * 2 ^ Z.of_nat J) with (Zneg (shl J m))
      by (rewrite <- Pos2Z.opp_pos, shl_Zpos; lia).
    cbn [binary_normalize].
    pose proof (digits_le_24 m ltac:(lia)) as Hd.
    assert (Hpos : (0 < digits m)%nat) by (unfold digits; lia).
    rewrite (binary_round_exact true m J (-7)) by lia.
    change m with (shl 0 m) at 2. change (-7) with (-7 - Z.of_nat 0) at 2.
    rewrite (binary_round_exact true m 0 (-7)) by lia. reflexivity.
Qed.

Lemma grid_signed (s : bool) (m : positive) :
  Zpos m < 2 ^ 24 -> grid (signed s m) = canon s m (-7).
Proof.
  intros Hm. pose proof (digits_le_24 m Hm) as Hd.
  assert (Hpos : (0 < digits m)%nat) by (unfold digits; lia).
  unfold grid, signed. destruct s; cbn [cond_Zopp Z.opp binary_normalize];
    change m with (shl 0 m) at 1; change (-7) with (-7 - Z.of_nat 0) at 1;
    apply binary_round_exact; lia.
Qed.

Lemma aligned_value (s : bool) (m : positive) (ez : Z) :
  (digits m <= 24)%nat ->
  ez <= -7 + Z.of_nat (digits m) - 24 ->
  cond_Zopp s (Zpos (fst (shl_align (shl (24 - digits m) m)
                            (-7 + Z.of_nat (digits m) - 24) ez)))
  = signed s m * 2 ^ (-7 - ez).
Proof.
  intros Hd He. set (d := digits m) in *.
  assert (Hv : Zpos (fst (shl_align (shl (24 - d) m) (-7 + Z.of_nat d - 24) ez))
               = Zpos m * 2 ^ (-7 - ez)).
  { unfold shl_align.
    destruct (ez - (-7 + Z.of_nat d - 24)) as [|p|p] eqn:Hsh; cbn [fst].
    - rewrite shl_Zpos. f_equal. f_equal. lia.
    - lia.
    - rewrite Pos_iter_xO, shl_add, shl_Zpos. f_equal. f_equal. lia. }
  unfold signed. destruct s; cbn [cond_Zopp]; rewrite Hv; lia.
Qed.

Lemma fadd_canon (sa sb : bool) (ma mb : positive) :
  Zpos ma < 2 ^ 24 -> Zpos mb < 2 ^ 24 ->
  Z.abs (signed sa ma + signed sb mb) < 2 ^ 24 ->
  fadd (canon sa ma (-7)) (canon sb mb (-7))
  = grid (signed sa ma + signed sb mb).
Proof.
  intros Ha Hb Hab.
  pose proof (digits_le_24 ma Ha) as Hda. pose proof (digits_le_24 mb Hb) as Hdb.
  unfold fadd, canon, SFadd.
  set (ea := -7 + Z.of_nat (digits ma) - 24).
  set (eb := -7 + Z.of_nat (digits mb) - 24).
  set (ez := IntDef.Z.min ea eb).
  assert (Hez : ez = Z.min ea eb) by reflexivity.
  clearbody ez. subst ea eb.
  rewrite (aligned_value sa ma ez Hda) by lia.
  rewrite (aligned_value sb mb ez Hdb) by lia.
  rewrite <- Z.mul_add_distr_r.
  replace (-7 - ez) with (Z.of_nat (Z.to_nat (-7 - ez))) by lia.
  replace ez with (-7 - Z.of_nat (Z.to_nat (-7 - ez))) at 2 by lia.
  apply normalize_scaled. exact Hab.
Qed.

Lemma fsub_canon (sa sb : bool) (ma mb : positive) :
  Zpos ma < 2 ^ 24 -> Zpos mb < 2 ^ 24 ->
  Z.abs (signed sa ma - signed sb mb) < 2 ^ 24 ->
  fsub (canon sa ma (-7)) (canon sb mb (-7))
  = grid (signed sa ma - signed sb mb).
Proof.
  intros Ha Hb Hab.
  pose proof (digits_le_24 ma Ha) as Hda. pose proof (digits_le_24 mb Hb) as Hdb.
  unfold fsub, canon, SFsub.
  set (ea := -7 + Z.of_nat (digits ma) - 24).
  set (eb := -7 + Z.of_nat (digits mb) - 24).
  set (ez := IntDef.Z.min ea eb).
  assert (Hez : ez = Z.min ea eb) by reflexivity.
  clearbody ez. subst ea eb.
  rewrite (aligned_value sa ma ez Hda) by lia.
  rewrite (aligned_value sb mb ez Hdb) by lia.
  rewrite <- Z.mul_sub_distr_r.
  replace (-7 - ez) with (Z.of_nat (Z.to_nat (-7 - ez))) by lia.
  replace ez with (-7 - Z.of_nat (Z.to_nat (-7 - ez))) at 2 by lia.
  apply normalize_scaled. exact Hab.
Qed.

Lemma signed_cases (z : Z) :
  z = 0 \/ exists s m, z = signed s m /\ Zpos m = Z.abs z.
Proof.
  destruct z as [|m|m]; [left; reflexivity | right | right].
  - exists false, m. split; reflexivity.
  - exists true, m. split; reflexivity.
Qed.

Lemma grid_0 : grid 0 = fzero.
Proof. reflexivity. Qed.

(** On the grid and below [2^24], float addition is exact. *)
Lemma fadd_grid (a b : Z) :
  Z.abs a < 2 ^ 24 -> Z.abs b < 2 ^ 24 -> Z.abs (a + b) < 2 ^ 24 ->
  fadd (grid a) (grid b) = grid (a + b).
Proof.
  intros Ha Hb Hab.
  destruct (signed_cases a) as [-> | (sa & ma & -> & Hma)];
    destruct (signed_cases b) as [-> | (sb & mb & -> & Hmb)].
  - reflexivity.
  - rewrite Z.add_0_l, grid_0, grid_signed by lia. reflexivity.
  - rewrite Z.add_0_r, grid_0, grid_signed by lia. reflexivity.
  - rewrite !grid_signed by lia. apply fadd_canon; lia.
Qed.

(** So is float subtraction. *)
Lemma fsub_grid (a b : Z) :
  Z.abs a < 2 ^ 24 -> Z.abs b < 2 ^ 24 -> Z.abs (a - b) < 2 ^ 24 ->
  fsub (grid a) (grid b) = grid (a - b).
Proof.
  intros Ha Hb Hab.
  destruct (signed_cases a) as [-> | (sa & ma & -> & Hma)];
    destruct (signed_cases b) as [-> | (sb & mb & -> & Hmb)].
  - reflexivity.
  - replace (0 - signed sb mb) with (signed (negb sb) mb)
      by (destruct sb; cbn; lia).
    rewrite grid_0, !grid_signed by lia. reflexivity.
  - rewrite Z.sub_0_r, grid_0, grid_signed by lia. reflexivity.
  - rewrite !grid_signed by lia. apply fsub_canon; lia.
Qed.


(** *** Integers converted to [float] *)

Lemma of_Z_small (m : positive) :
  Zpos m < 2 ^ 24 -> of_Z (Zpos m) = canon false m 0.
Proof.
  intros Hm. pose proof (digits_le_24 m Hm) as Hd.
  assert (Hpos : (0 < digits m)%nat) by (unfold digits; lia).
  unfold of_Z. cbn [binary_normalize].
  change m with (shl 0 m) at 1. change 0 with (0 - Z.of_nat 0) at 1.
  apply binary_round_exact; lia.
Qed.

Lemma shr_1_m (r : shr_record) :
  0 <= shr_m r -> shr_m (shr_1 r) = shr_m r / 2.
Proof.
  destruct r as [m b c]. cbn [shr_m]. intros Hm.
  destruct m as [|[p|p|]|p]; cbn [shr_1 shr_m]; try lia; try reflexivity;
    [ rewrite Pos2Z.inj_xI; apply Z.div_unique with (r := 1); lia
    | rewrite Pos2Z.inj_xO; apply Z.div_unique with (r := 0); lia ].
Qed.

Lemma shr_iter_m (k : nat) :
  forall r, 0 <= shr_m r ->
            shr_m (iter_nat shr_1 k r) = shr_m r / 2 ^ Z.of_nat k.
Proof.
  induction k as [|k IH]; intros r Hr.
  - cbn. rewrite Z.div_1_r. reflexivity.
  - cbn [iter_nat]. rewrite IH by (rewrite shr_1_m by exact Hr; apply Z.div_pos; lia).
    rewrite shr_1_m by exact Hr.
    rewrite Nat2Z.inj_succ, Z.pow_succ_r by lia.
    rewrite Z.div_div by lia. reflexivity.
Qed.

Lemma round_nearest_even_range (m : Z) (l : location) :
  m <= round_nearest_even m l <= m + 1.
Proof.
  destruct l as [|[| |]]; cbn; try lia. destruct (Z.even m); lia.
Qed.

(** An integer of 25 to 32 bits becomes a finite float of exponent >= 1. *)
Lemma of_Z_large (m : positive) :
  2 ^ 24 <= Zpos m < 2 ^ 32 ->
  exists m' e', of_Z (Zpos m) = S754_finite false m' e' /\ 1 <= e'.
Proof.
  intros Hm. pose proof (digits2_bounds m) as Hb.
  set (d := Zpos (digits2_pos m)) in *.
  assert (Hd : 25 <= d <= 32).
  { split.
    - destruct (Z.lt_ge_cases d 25) as [Hlt | Hge]; [| exact Hge].
      assert (2 ^ d <= 2 ^ 24) by (apply Z.pow_le_mono_r; lia). lia.
    - destruct (Z.lt_ge_cases 32 d) as [Hlt | Hge]; [| lia].
      assert (2 ^ 32 <= 2 ^ (d - 1)) by (apply Z.pow_le_mono_r; lia). lia. }
  unfold of_Z. cbn [binary_normalize]. unfold binary_round.
  fold d.
  replace (fexp prec emax (d + 0)) with (d - 24)
    by (unfold fexp, SpecFloat.emin, prec, emax; lia).
  unfold shl_align. destruct (d - 24 - 0) as [|p|p] eqn:Hp; try lia.
  set (r1 := iter_nat shr_1 (Pos.to_nat p) (Build_shr_record (Zpos m) false false)).
  assert (H1 : shr_fexp prec emax (Zpos m) 0 loc_Exact = (r1, Zpos p)).
  { unfold shr_fexp. cbn [Zdigits2]. fold d.
    replace (fexp prec emax (d + 0) - 0) with (Zpos p)
      by (unfold fexp, SpecFloat.emin, prec, emax; lia).
    cbn [shr_record_of_loc shr]. rewrite iter_pos_nat. reflexivity. }
  unfold binary_round_aux. rewrite H1.
  assert (Hr1 : shr_m r1 = Zpos m / 2 ^ (d - 24)).
  { subst r1. rewrite shr_iter_m by (cbn; lia). cbn [shr_m].
    f_equal. f_equal. lia. }
  assert (Hr1b : 2 ^ 23 <= shr_m r1 < 2 ^ 24).
  { rewrite Hr1. split.
    - apply Z.div_le_lower_bound; [lia |].
      rewrite <- Z.pow_add_r by lia. replace (d - 24 + 23) with (d - 1) by lia. lia.
    - apply Z.div_lt_upper_bound; [lia |].
      rewrite <- Z.pow_add_r by lia. replace (d - 24 + 24) with d by lia. lia. }
  pose proof (round_nearest_even_range (shr_m r1) (loc_of_shr_record r1)) as Hr2.
  set (m2 := round_nearest_even (shr_m r1) (loc_of_shr_record r1)) in *.
  destruct m2 as [|q|q] eqn:Hq; try lia.
  pose proof (digits2_bounds q) as Hbq.
  set (dq := Zpos (digits2_pos q)) in *.
  assert (Hdq : dq = 24 \/ dq = 25).
  { assert (23 < dq).
    { destruct (Z.lt_ge_cases 23 dq) as [Hlt | Hge]; [exact Hlt |].
      assert (2 ^ dq <= 2 ^ 23) by (apply Z.pow_le_mono_r; lia). lia. }
    assert (dq <= 25).
    { destruct (Z.lt_ge_cases 25 dq) as [Hlt | Hge]; [| lia].
      assert (2 ^ 25 <= 2 ^ (dq - 1)) by (apply Z.pow_le_mono_r; lia).
      change (2 ^ 25) with 33554432 in *. change (2 ^ 24) with 16777216 in *. lia. }
    lia. }
  unfold shr_fexp. cbn [Zdigits2]. fold dq.
  destruct Hdq as [Hdq | Hdq]; rewrite Hdq.
  - replace (fexp prec emax (24 + Zpos p) - Zpos p) with 0
      by (unfold fexp, SpecFloat.emin, prec, emax; lia).
    cbn [shr_record_of_loc shr shr_m].
    replace (Zpos p <=? emax - prec) with true
      by (symmetry; apply Z.leb_le; unfold emax, prec; lia).
    eexists; eexists; split; [reflexivity | lia].
  - replace (fexp prec emax (25 + Zpos p) - Zpos p) with 1
      by (unfold fexp, SpecFloat.emin, prec, emax; lia).
    cbn [shr_record_of_loc shr iter_pos].
    destruct q as [q' | q' |];
      [| | exfalso; change (2 ^ 23) with 8388608 in *; lia];
      cbn [shr_1 shr_m orb];
      (replace (Zpos p + 1 <=? emax - prec) with true
         by (symmetry; apply Z.leb_le; unfold emax, prec; lia));
      eexists; eexists; (split; [reflexivity | lia]).
Qed.

(** *** Division of a grid value by ten *)







(** ** C9: the time gate of the safety check *)

Lemma safetyCheck_gate_closed (W : World) (s : State) :
  (next_millis W s >? ulong (TimeLastSafetyCheck s + 120000)) = false ->
  safetyCheck W s = Running (snd (millis W s)).
Proof.
  intros H. unfold safetyCheck, next_millis in *. cbn. rewrite H. reflexivity.
Qed.

Lemma safetyCheck_gate_open_reads_clock_twice (W : World) (s : State) :
  (next_millis W s >? ulong (TimeLastSafetyCheck s + 120000)) = true ->
  (S (n_millis s) < n_millis (outcome_state (safetyCheck W s)))%nat.
Proof.
  intros H. unfold safetyCheck, next_millis in *. cbn. rewrite H.
  unfold_prog. cbn.
  repeat (split_if; cbn); lia.
Qed.

Lemma checks_performed_iff (W : World) (s : State) :
  checks_performed W s <->
  next_millis W s > ulong (TimeLastSafetyCheck s + 120000).
Proof.
  unfold checks_performed.
  destruct (next_millis W s >? ulong (TimeLastSafetyCheck s + 120000)) eqn:G.
  - split; [intros _; apply Z.gtb_gt; exact G |].
    intros _ Heq.
    pose proof (safetyCheck_gate_open_reads_clock_twice W s G) as Hn.
    rewrite Heq in Hn. cbn in Hn. lia.
  - split.
    + intros Hne. exfalso. apply Hne. apply safetyCheck_gate_closed; exact G.
    + intros Hgt. apply Z.gtb_gt in Hgt. congruence.
Qed.

(** C9, as stated, fails: with exactly [CheckInterval] elapsed
    ([now - lastCheckTimestamp >= 120000] holds with equality) the checks
    are not run; the call returns after its single clock read although the
    water is far above [MaxTemp]. *)
Lemma safetyCheck_gate_not_at_interval :
  next_millis gate_world gate_state - TimeLastSafetyCheck gate_state >= 120000
  /\ fltb (of_Z MaxTemp) (AverageTemp gate_state) = true
  /\ ~ checks_performed gate_world gate_state.
Proof.
  split; [vm_compute; intros H; discriminate H |].
  split; [vm_compute; reflexivity |].
  intros H. apply H. apply safetyCheck_gate_closed. vm_compute. reflexivity.
Qed.

(** C9 (amended): the checks of [safetyCheck] run exactly when the clock
    read at entry is strictly greater than [TimeLastSafetyCheck + 120000]
    (a 32-bit unsigned sum); otherwise the call only reads the clock and
    returns without a fault.  As long as that sum does not wrap, the checks
    run exactly when strictly more than 120000 ms have elapsed. *)
Theorem safetyCheck_gate (W : World) (s : State) :
  (checks_performed W s <->
   next_millis W s > ulong (TimeLastSafetyCheck s + 120000))
  /\ (next_millis W s <= ulong (TimeLastSafetyCheck s + 120000) ->
      safetyCheck W s = Running (snd (millis W s)))
  /\ (0 <= TimeLastSafetyCheck s < 4294967296 - 120000 ->
      (checks_performed W s <->
       next_millis W s - TimeLastSafetyCheck s > 120000)).
Proof.
  split; [apply checks_performed_iff |]. split.
  - intros Hle. apply safetyCheck_gate_closed.
    destruct (next_millis W s >? ulong (TimeLastSafetyCheck s + 120000)) eqn:G;
      [apply Z.gtb_gt in G; lia | reflexivity].
  - intros Hr. rewrite checks_performed_iff. unfold ulong.
    rewrite Z.mod_small by lia. lia.
Qed.

Lemma safetyCheck_gate_witness :
  0 <= TimeLastSafetyCheck gate_state_late < 4294967296 - 120000
  /\ (checks_performed gate_world gate_state_late <->
      next_millis gate_world gate_state_late
      - TimeLastSafetyCheck gate_state_late > 120000).
Proof.
  split.
  - vm_compute. split; [intros H; discriminate H | reflexivity].
  - apply (proj2 (proj2 (safetyCheck_gate gate_world gate_state_late))).
    vm_compute. split; [intros H; discriminate H | reflexivity].
Defined.

(** ** C8: the setpoint reader *)

Lemma check_below_spec (n : nat) (P : Z -> bool) :
  check_below n P = true -> forall z, 0 <= z < Z.of_nat n -> P z = true.
Proof.
  unfold check_below. rewrite forallb_forall. intros H z Hz.
  apply H. apply in_map_iff. exists (Z.to_nat z). split; [lia |].
  apply in_seq. lia.
Qed.

Lemma int16_small (z : Z) : -32768 <= z < 32768 -> int16 z = z.
Proof. intros H. unfold int16. rewrite Z.mod_small by lia. lia. Qed.

Lemma read_pot_sum (W : World) (n : nat) :
  forall (acc : Z) (s : State),
    0 <= acc -> acc + 1023 * Z.of_nat n <= 32767 ->
    (forall i, (i < n)%nat -> 0 <= analog_at W (n_analog s + i) <= 1023) ->
    fst (read_pot W n acc s) = acc + sumZ (pot_readings W s n)
    /\ 0 <= sumZ (pot_readings W s n) <= 1023 * Z.of_nat n.
Proof.
  induction n as [|n IH]; intros acc s Hacc Hfit Hr.
  - cbn. lia.
  - cbn [read_pot]. unfold analogRead.
    pose proof (Hr 0%nat ltac:(lia)) as H0. rewrite Nat.add_0_r in H0.
    rewrite (int16_small (analog_at W (n_analog s))) by lia.
    rewrite (int16_small (acc + _)) by lia.
    match goal with |- context [read_pot W n ?a ?t] =>
      destruct (IH a t) as [IHa IHb] end;
      [lia | lia | |].
    + intros i Hi. cbn. specialize (Hr (S i) ltac:(lia)).
      rewrite Nat.add_succ_r in Hr. exact Hr.
    + rewrite IHa. unfold pot_readings in *. cbn [seq map sumZ fold_right].
      rewrite Nat.add_0_r. rewrite <- seq_shift, map_map.
      cbn [n_analog emit set_counters] in *.
      rewrite (map_ext (fun x => analog_at W (n_analog s + S x))
                       (fun i => analog_at W (S (n_analog s) + i)))
        by (intros; f_equal; lia).
      unfold sumZ in *. lia.
Qed.

Lemma read_pot_state (W : World) (n : nat) :
  forall (acc : Z) (s : State),
    TargetTemperature (snd (read_pot W n acc s)) = TargetTemperature s.
Proof.
  induction n as [|n IH]; intros acc s; [reflexivity |].
  cbn [read_pot]. unfold analogRead. rewrite IH. reflexivity.
Qed.

(** C8, as stated, fails: ten readings of 4 average to 4 and rescale to
    51 tenths (5.1 degrees); the setpoint becomes 5.5 degrees, although 5.0
    is the nearest half degree. *)
Lemma setpoint_not_nearest_half_degree :
  pot_readings (pot_world 4) boot 10 = repeat 4 10%nat
  /\ rescale (Z.quot (sumZ (pot_readings (pot_world 4) boot 10)) 10) = 51
  /\ TargetTemperature (getTargetTemperature (pot_world 4) boot)
     = fdiv (of_Z 55) lit_10_0
  /\ ~ nearest_half_degree 51 55.
Proof.
  split; [reflexivity |]. split; [reflexivity |]. split; [reflexivity |].
  intros [_ H]. specialize (H 50 eq_refl). revert H. cbn. lia.
Qed.

Lemma setpoint_ok_all : check_below 1024 setpoint_ok = true.
Proof. vm_compute. reflexivity. Qed.

Lemma getTargetTemperature_value (W : World) (s : State) :
  (forall i, (i < 10)%nat -> 0 <= analog_at W (n_analog s + i) <= 1023) ->
  0 <= Z.quot (sumZ (pot_readings W s 10)) 10 < 1024
  /\ TargetTemperature (getTargetTemperature W s)
     = fdiv (of_Z (half_degree_tenths (Z.quot (sumZ (pot_readings W s 10)) 10)))
            lit_10_0.
Proof.
  intros Hadc.
  destruct (read_pot_sum W 10 0 s ltac:(lia) ltac:(lia) Hadc) as [Hsum Hbound].
  assert (Havg : 0 <= Z.quot (sumZ (pot_readings W s 10)) 10 < 1024).
  { split; [apply Z.quot_pos; lia |]. apply Z.quot_lt_upper_bound; lia. }
  split; [exact Havg |].
  unfold getTargetTemperature.
  destruct (read_pot W 10 0 s) as [sum s1] eqn:Hrp. cbn [fst] in Hsum.
  cbn [TargetTemperature set_TargetTemperature].
  rewrite Hsum, Z.add_0_l, int16_small by lia. reflexivity.
Qed.

(** Every setpoint the reader stores is a half-degree value between
    [MinTemp] and [MaxTemp]. *)
Lemma getTargetTemperature_half_degrees (W : World) (s : State) :
  (forall i, (i < 10)%nat -> 0 <= analog_at W (n_analog s + i) <= 1023) ->
  exists k, 2 * MinTemp <= k <= 2 * MaxTemp
            /\ TargetTemperature (getTargetTemperature W s) = half_degrees k.
Proof.
  intros Hadc. destruct (getTargetTemperature_value W s Hadc) as [Havg Ht].
  set (avg := Z.quot (sumZ (pot_readings W s 10)) 10) in *.
  pose proof (check_below_spec _ _ setpoint_ok_all avg Havg) as Hok.
  unfold setpoint_ok in Hok.
  repeat (apply andb_prop in Hok; destruct Hok as [Hok ?]).
  set (t := half_degree_tenths avg) in *.
  exists (t / 5).
  assert (H5 : 5 * (t / 5) = t)
    by (symmetry; apply Z.div_exact; [lia | apply Z.eqb_eq; assumption]).
  unfold MinTemp, MaxTemp in *. split; [lia |].
  unfold half_degrees. rewrite H5. exact Ht.
Qed.

(** C8 (amended): for ten ADC readings in 0..1023, the setpoint reader
    averages them (integer division), rescales the average linearly from
    0..1023 to [MinTemp*10 .. MaxTemp*10] tenths of a degree, rounds that
    value UP to the next multiple of five tenths (the smallest half degree
    not below it, not the nearest one) and stores it divided by 10.0; the
    stored float is exactly that half-degree value, within
    [MinTemp, MaxTemp]. *)
Theorem getTargetTemperature_rounds_up (W : World) (s : State)
  (Hadc : forall i, (i < 10)%nat -> 0 <= analog_at W (n_analog s + i) <= 1023) :
  let avg := Z.quot (sumZ (pot_readings W s 10)) 10 in
  let m := MinTemp * 10 + avg * (MaxTemp * 10 - MinTemp * 10) / 1023 in
  let t := half_degree_tenths avg in
  rescale avg = m
  /\ next_half_degree m t
  /\ MinTemp * 10 <= t <= MaxTemp * 10
  /\ TargetTemperature (getTargetTemperature W s) = fdiv (of_Z t) lit_10_0
  /\ (SF2Q (TargetTemperature (getTargetTemperature W s)) == t # 10)%Q.
Proof.
  intros avg m t.
  destruct (getTargetTemperature_value W s Hadc) as [Havg Ht].
  fold avg in Havg, Ht. fold t in Ht.
  pose proof (check_below_spec _ _ setpoint_ok_all avg Havg) as Hok.
  unfold setpoint_ok in Hok. fold t in Hok.
  repeat (apply andb_prop in Hok; destruct Hok as [Hok ?]).
  split; [subst m; lia |].
  split; [split; subst m; lia |].
  split; [lia |]. split; [exact Ht |].
  rewrite Ht. apply Qeq_bool_iff. assumption.
Qed.

Lemma getTargetTemperature_rounds_up_witness :
  (forall i, (i < 10)%nat ->
     0 <= analog_at (pot_world 4) (n_analog boot + i) <= 1023)
  /\ next_half_degree 51 55
  /\ TargetTemperature (getTargetTemperature (pot_world 4) boot)
     = fdiv (of_Z 55) lit_10_0.
Proof.
  assert (H : forall i, (i < 10)%nat ->
     0 <= analog_at (pot_world 4) (n_analog boot + i) <= 1023).
  { intros i _. cbn. lia. }
  split; [exact H |].
  destruct (getTargetTemperature_rounds_up (pot_world 4) boot H)
    as (_ & Hn & _ & Ht & _).
  split; [exact Hn | exact Ht].
Defined.

(** ** C4: hysteresis of the heater controller *)

Lemma margin_ok_all : check_below 71 margin_ok = true.
Proof. vm_compute. reflexivity. Qed.

Lemma HeaterStatus_changeHeaterStatus (W : World) (v : Z) (s : State) :
  HeaterStatus (changeHeaterStatus W v s) = v.
Proof. reflexivity. Qed.

Lemma changeHeaterStatus_switched (W : World) (level : Z) (s : State) :
  heater_switched W level s (changeHeaterStatus W level s).
Proof.
  unfold heater_switched, next_millis. proj_simpl.
  change (HEATER_PIN =? HEATER_PIN) with true.
  rewrite <- !app_assoc.
  repeat (split; [reflexivity |]).
  unfold set_TimeHeaterOn, set_counters, set_HeaterStatus, set_pin_level, emit.
  proj_simpl. rewrite <- !app_assoc. reflexivity.
Qed.

(** C4: [controlHeater] switches an OFF heater ON exactly when
    [AverageTemp + 0.25 < TargetTemperature], and an ON heater OFF exactly
    when [AverageTemp >= TargetTemperature].  Whenever it changes
    [HeaterStatus] it has switched the relay: it has written the new level
    to the heater pin and restarted the heater timer at the clock value
    read then; whenever it does not, it has done nothing at all.  For every
    half-degree setpoint between [MinTemp] and [MaxTemp], which are the
    values the setpoint reader stores, an OFF heater is switched ON at
    [AverageTemp = target - 0.3] and stays OFF (nothing is written) at
    [AverageTemp = target - 0.2]. *)
Theorem controlHeater_hysteresis (W : World) (s : State) :
  (HeaterStatus s = OFF /\ HeaterStatus (controlHeater W s) = ON <->
   fltb (fadd (AverageTemp s) lit_0_25) (TargetTemperature s) = true
   /\ HeaterStatus s = OFF)
  /\ (HeaterStatus s = ON /\ HeaterStatus (controlHeater W s) = OFF <->
      HeaterStatus s = ON
      /\ fleb (TargetTemperature s) (AverageTemp s) = true)
  /\ (HeaterStatus (controlHeater W s) <> HeaterStatus s ->
      heater_switched W (HeaterStatus (controlHeater W s)) s
        (controlHeater W s))
  /\ (HeaterStatus (controlHeater W s) = HeaterStatus s ->
      controlHeater W s = s)
  /\ (forall k,
        2 * MinTemp <= k <= 2 * MaxTemp ->
        TargetTemperature s = half_degrees k ->
        HeaterStatus s = OFF ->
        (AverageTemp s = fsub (TargetTemperature s) lit_0_3 ->
         heater_switched W ON s (controlHeater W s))
        /\ (AverageTemp s = fsub (TargetTemperature s) lit_0_2 ->
            controlHeater W s = s))
  /\ (forall s0,
        (forall i, (i < 10)%nat ->
                   0 <= analog_at W (n_analog s0 + i) <= 1023) ->
        exists k,
          2 * MinTemp <= k <= 2 * MaxTemp
          /\ TargetTemperature (getTargetTemperature W s0) = half_degrees k).
Proof.
  assert (Hon : fltb (fadd (AverageTemp s) lit_0_25) (TargetTemperature s)
                = true ->
                HeaterStatus s = OFF ->
                controlHeater W s = changeHeaterStatus W ON s).
  { intros Hc Hs. unfold controlHeater. rewrite Hc, Hs. reflexivity. }
  assert (Hoff : HeaterStatus s = ON ->
                 fleb (TargetTemperature s) (AverageTemp s) = true ->
                 controlHeater W s = changeHeaterStatus W OFF s).
  { intros Hs Hc. unfold controlHeater. rewrite Hc, Hs.
    rewrite andb_false_r. reflexivity. }
  assert (Hidle : (fltb (fadd (AverageTemp s) lit_0_25) (TargetTemperature s)
                   && (HeaterStatus s =? OFF) = false) ->
                  ((HeaterStatus s =? ON)
                   && fleb (TargetTemperature s) (AverageTemp s) = false) ->
                  controlHeater W s = s).
  { intros H1 H2. unfold controlHeater. rewrite H1, H2. reflexivity. }
  assert (Hcases : (controlHeater W s = changeHeaterStatus W ON s
                    /\ HeaterStatus s = OFF
                    /\ fltb (fadd (AverageTemp s) lit_0_25)
                            (TargetTemperature s) = true)
                   \/ (controlHeater W s = changeHeaterStatus W OFF s
                       /\ HeaterStatus s = ON
                       /\ fleb (TargetTemperature s) (AverageTemp s) = true)
                   \/ (controlHeater W s = s
                       /\ ~ (fltb (fadd (AverageTemp s) lit_0_25)
                                  (TargetTemperature s) = true
                             /\ HeaterStatus s = OFF)
                       /\ ~ (HeaterStatus s = ON
                             /\ fleb (TargetTemperature s) (AverageTemp s)
                                = true))).
  { destruct (fltb (fadd (AverageTemp s) lit_0_25) (TargetTemperature s)
              && (HeaterStatus s =? OFF)) eqn:E1.
    - left. apply andb_prop in E1. destruct E1 as [Hc Hs].
      apply Z.eqb_eq in Hs. auto.
    - destruct ((HeaterStatus s =? ON)
                && fleb (TargetTemperature s) (AverageTemp s)) eqn:E2.
      + right; left. apply andb_prop in E2. destruct E2 as [Hs Hc].
        apply Z.eqb_eq in Hs. auto.
      + right; right. split; [auto |].
        split; intros [Ha Hb].
        * rewrite Ha, Hb in E1. discriminate E1.
        * rewrite Ha, Hb in E2. discriminate E2. }
  split; [| split; [| split; [| split; [| split]]]].
  - destruct Hcases as [(-> & Hs & Hc) | [(-> & Hs & Hc) | (-> & N1 & N2)]];
      rewrite ?HeaterStatus_changeHeaterStatus; unfold ON, OFF in *;
      split; intros [? ?]; try (split; congruence); try congruence;
      exfalso; auto.
  - destruct Hcases as [(-> & Hs & Hc) | [(-> & Hs & Hc) | (-> & N1 & N2)]];
      rewrite ?HeaterStatus_changeHeaterStatus; unfold ON, OFF in *;
      split; intros [? ?]; try (split; congruence); try congruence;
      exfalso; auto.
  - destruct Hcases as [(-> & Hs & Hc) | [(-> & Hs & Hc) | (-> & N1 & N2)]];
      rewrite ?HeaterStatus_changeHeaterStatus; intros Hne;
      [apply changeHeaterStatus_switched | apply changeHeaterStatus_switched
      | congruence].
  - destruct Hcases as [(-> & Hs & Hc) | [(-> & Hs & Hc) | (-> & N1 & N2)]];
      rewrite ?HeaterStatus_changeHeaterStatus; intros Heq;
      [rewrite Hs in Heq; discriminate Heq
      | rewrite Hs in Heq; discriminate Heq | reflexivity].
  - intros k Hk Ht Hs.
    pose proof (check_below_spec _ _ margin_ok_all k
                  ltac:(unfold MinTemp, MaxTemp in Hk; lia)) as Hm.
    unfold margin_ok in Hm. rewrite <- Ht in Hm.
    apply orb_prop in Hm. destruct Hm as [Hm | Hm];
      [apply Z.ltb_lt in Hm; unfold MinTemp in *; lia |].
    apply andb_prop in Hm. destruct Hm as [H3 H2].
    apply negb_true_iff in H2. split; intros Ha; rewrite <- Ha in *.
    + rewrite (Hon H3 Hs). apply changeHeaterStatus_switched.
    + apply Hidle; [rewrite H2; reflexivity |].
      rewrite Hs. reflexivity.
  - intros s0. apply getTargetTemperature_half_degrees.
Qed.

Lemma controlHeater_hysteresis_witness :
  let s := hysteresis_state (fsub (half_degrees 50) lit_0_3) in
  2 * MinTemp <= 50 <= 2 * MaxTemp
  /\ TargetTemperature s = half_degrees 50
  /\ HeaterStatus s = OFF
  /\ AverageTemp s = fsub (TargetTemperature s) lit_0_3
  /\ heater_switched gate_world ON s (controlHeater gate_world s).
Proof.
  intros s.
  assert (Hk : 2 * MinTemp <= 50 <= 2 * MaxTemp) by (unfold MinTemp, MaxTemp; lia).
  split; [exact Hk |]. split; [reflexivity |]. split; [reflexivity |].
  split; [reflexivity |].
  apply (proj1 (proj1 (proj2 (proj2 (proj2 (proj2
                  (controlHeater_hysteresis gate_world s)))))
                  50 Hk eq_refl eq_refl)).
  reflexivity.
Defined.

(** ** C1: the shutdown procedure *)

Lemma missionAbort_eq (W : World) (message : string) (s : State) :
  missionAbort W message s = Halted (abort_state W message s).
Proof. reflexivity. Qed.

Lemma abort_state_spec (W : World) (message : string) (s : State) :
  actuators_off (abort_state W message s)
  /\ trace (abort_state W message s)
     = trace s
       ++ [DigitalWrite HEATER_PIN OFF; Millis (next_millis W s);
           DigitalWrite PUMP_PIN OFF]
       ++ halt_display message.
Proof.
  split; [repeat split |].
  unfold abort_state, missionAbort, changePumpStatus, changeHeaterStatus,
    digitalWrite, millis, next_millis. cbn.
  rewrite <- !app_assoc. reflexivity.
Qed.

Lemma alert_forever (W : World) (n : nat) :
  forall h, exists a,
    ticks W n (Alerting h) = Alerting a
    /\ trace a = trace h ++ List.concat (repeat alert_round n)
    /\ pin_level a = pin_level h
    /\ HeaterStatus a = HeaterStatus h /\ PumpStatus a = PumpStatus h.
Proof.
  induction n as [|n IH]; intros h.
  - exists h. cbn. rewrite app_nil_r. repeat split.
  - destruct (IH (alert_iteration h)) as (a & Ht & Htr & Hp & Hh & Hu).
    exists a. cbn [ticks tick]. split; [exact Ht |].
    split; [| repeat split; assumption].
    rewrite Htr. cbn [repeat concat]. unfold alert_iteration. cbn [trace emit].
    rewrite <- app_assoc. reflexivity.
Qed.

Ltac step_prog :=
  repeat first
    [ progress cbv beta iota zeta delta [pseq ifP lift skip] in *
    | rewrite missionAbort_eq in *
    | split_if ].

Lemma safetyCheck_Halted (W : World) (s h : State) :
  safetyCheck W s = Halted h ->
  exists code s0, In code fault_codes /\ h = abort_state W code s0.
Proof.
  unfold safetyCheck. cbv beta iota zeta delta [millis].
  intros H. step_prog; try discriminate H;
    injection H as <-; eexists; eexists; (split; [| reflexivity]);
    cbn; tauto.
Qed.

Lemma loop_Halted (W : World) (s h : State) :
  loop W s = Halted h ->
  exists code s0, In code fault_codes /\ h = abort_state W code s0.
Proof.
  unfold loop. cbv beta iota zeta delta [millis pseq lift].
  intros H.
  match type of H with context [safetyCheck W ?s1] =>
    destruct (safetyCheck W s1) eqn:Hs end.
  - discriminate H.
  - injection H as <-. eapply safetyCheck_Halted; eassumption.
Qed.

(** C1: [missionAbort] writes OFF to the heater and the pump relay, shows
    "System halted" and the code it was given, and enters the alert loop.
    Every fault raised during a pass of [loop] is one of the five codes
    and ends the pass in that procedure; from then on every tick is one
    more tone-and-pause round, the control loop is never re-entered and
    both actuators stay OFF. *)
Theorem missionAbort_shutdown (W : World) (s h : State)
  (Hfault : loop W s = Halted h) :
  (forall message s0,
      missionAbort W message s0 = Halted (abort_state W message s0)
      /\ actuators_off (abort_state W message s0)
      /\ trace (abort_state W message s0)
         = trace s0
           ++ [DigitalWrite HEATER_PIN OFF; Millis (next_millis W s0);
               DigitalWrite PUMP_PIN OFF]
           ++ halt_display message)
  /\ (exists code s0, In code fault_codes /\ h = abort_state W code s0)
  /\ actuators_off h
  /\ forall n, exists a,
       ticks W (S n) (Looping s) = Alerting a
       /\ actuators_off a
       /\ trace a = trace h ++ List.concat (repeat alert_round n).
Proof.
  split.
  { intros message s0. split; [reflexivity | apply abort_state_spec]. }
  destruct (loop_Halted W s h Hfault) as (code & s0 & Hin & ->).
  split; [exists code, s0; split; [exact Hin | reflexivity] |].
  split; [apply abort_state_spec |].
  intros n.
  destruct (alert_forever W n (abort_state W code s0))
    as (a & Ht & Htr & Hp & Hh & Hu).
  exists a. cbn [ticks tick]. rewrite Hfault. split; [exact Ht |].
  split; [| exact Htr].
  destruct (abort_state_spec W code s0) as [(A1 & A2 & A3 & A4) _].
  unfold actuators_off. rewrite Hp, Hh, Hu. repeat split; assumption.
Qed.

Lemma missionAbort_shutdown_witness :
  loop hot_world gate_state
  = Halted (outcome_state (loop hot_world gate_state))
  /\ exists a,
       ticks hot_world 3 (Looping gate_state) = Alerting a
       /\ actuators_off a.
Proof.
  assert (H : loop hot_world gate_state
              = Halted (outcome_state (loop hot_world gate_state))).
  { vm_compute. reflexivity. }
  split; [exact H |].
  destruct (missionAbort_shutdown hot_world gate_state _ H)
    as (_ & _ & _ & Hn).
  destruct (Hn 2%nat) as (a & Ha & Hoff & _).
  exists a. split; [exact Ha | exact Hoff].
Defined.

(** ** C7: order of a pass of the control loop *)

(** C7, as stated, fails: [loop] runs the safety check before it reads the
    setpoint and the temperature.  Here the fresh sample lifts the average
    above [MaxTemp]; the pass in the stated order halts on it, while [loop]
    checks the old average and completes the pass. *)
Lemma loop_not_in_spec_order :
  is_halted (loop order_world order_state) = false
  /\ is_halted (loop_in_spec_order order_world order_state) = true
  /\ loop order_world order_state <> loop_in_spec_order order_world order_state.
Proof.
  assert (H1 : is_halted (loop order_world order_state) = false)
    by (vm_compute; reflexivity).
  assert (H2 : is_halted (loop_in_spec_order order_world order_state) = true)
    by (vm_compute; reflexivity).
  split; [exact H1 |]. split; [exact H2 |].
  intros E. rewrite E in H1. congruence.
Qed.

Lemma read_pot_trace (W : World) (n : nat) :
  forall acc s, exists pot,
    trace (snd (read_pot W n acc s)) = trace s ++ pot
    /\ length pot = n /\ forallb is_pot_event pot = true.
Proof.
  induction n as [|n IH]; intros acc s.
  - exists []. cbn. rewrite app_nil_r. auto.
  - cbn [read_pot]. unfold analogRead.
    match goal with |- context [read_pot W n ?a ?t] =>
      destruct (IH a t) as (pot & Ht & Hl & Hf) end.
    eexists (_ :: pot). rewrite Ht. cbn [trace emit set_counters].
    rewrite <- app_assoc. split; [reflexivity |].
    split; [cbn; lia | cbn; exact Hf].
Qed.

Lemma getTargetTemperature_trace (W : World) (s : State) :
  exists pot,
    trace (getTargetTemperature W s) = trace s ++ pot
    /\ length pot = 10%nat /\ forallb is_pot_event pot = true.
Proof.
  unfold getTargetTemperature.
  destruct (read_pot_trace W 10 0 s) as (pot & Ht & Hl & Hf).
  destruct (read_pot W 10 0 s) as [sum s1]. exists pot. auto.
Qed.

Lemma getTemperature_trace (W : World) (s : State) :
  trace (getTemperature W s)
  = trace s ++ [RequestTemperatures; GetTempCByIndex 0 (tempC_at W (n_temp s))].
Proof.
  unfold getTemperature, getTempCByIndex. cbn. rewrite <- app_assoc. reflexivity.
Qed.

Lemma controlHeater_trace (W : World) (s : State) :
  exists heat,
    trace (controlHeater W s) = trace s ++ heat
    /\ (heat = [] \/ exists l t, heat = [DigitalWrite HEATER_PIN l; Millis t]).
Proof.
  unfold controlHeater.
  destruct (_ && _).
  - eexists. unfold changeHeaterStatus, digitalWrite, millis. cbn.
    rewrite <- app_assoc. split; [reflexivity |].
    right. do 2 eexists. reflexivity.
  - destruct (_ && _).
    + eexists. unfold changeHeaterStatus, digitalWrite, millis. cbn.
      rewrite <- app_assoc. split; [reflexivity |].
      right. do 2 eexists. reflexivity.
    + exists []. rewrite app_nil_r. auto.
Qed.

Lemma updateLCD_trace (s : State) :
  exists lcd,
    trace (updateLCD s) = trace s ++ lcd
    /\ length lcd = 10%nat /\ forallb is_lcd_event lcd = true.
Proof.
  unfold updateLCD. eexists. cbn [trace emit]. split; [reflexivity |].
  split; [reflexivity |]. cbn. repeat split_if; reflexivity.
Qed.

Lemma safetyCheck_Running_trace (W : World) (s s1 : State) :
  safetyCheck W s = Running s1 ->
  exists t1 chk,
    trace s1 = trace s ++ Millis t1 :: chk
    /\ forallb is_check_event chk = true.
Proof.
  unfold safetyCheck. cbv beta iota zeta delta [millis].
  intros H. step_prog; try discriminate H; injection H as <-;
    unfold getInternalTemp, dht_readTemperature; cbn;
    rewrite <- ?app_assoc; cbn [app];
    eexists; eexists; (split; [reflexivity | reflexivity]).
Qed.

Lemma loop_unfold (W : World) (s : State) :
  loop W s =
  match safetyCheck W (pass_entry W s) with
  | Running s1 =>
      Running (updateLCD (controlHeater W (getTemperature W
                 (getTargetTemperature W s1))))
  | Halted h => Halted h
  end.
Proof. reflexivity. Qed.

(** C7 (amended): a pass of [loop] first runs the time-gated safety check,
    on the state left by the previous pass; only if that check returns does
    the pass go on to read the setpoint, read and filter the temperature,
    run heater control and render the status, in this order.  A pass whose
    safety check raises a fault ends there. *)
Theorem loop_pass_order (W : World) (s : State) :
  (forall h, loop W s = Halted h <-> safetyCheck W (pass_entry W s) = Halted h)
  /\ (forall s',
        loop W s = Running s' <->
        exists s1,
          safetyCheck W (pass_entry W s) = Running s1
          /\ s' = updateLCD (controlHeater W (getTemperature W
                     (getTargetTemperature W s1))))
  /\ (forall s',
        loop W s = Running s' ->
        exists t1 chk pot v heat lcd,
          trace s'
          = trace s ++ Millis (next_millis W s) :: Millis t1 :: chk
              ++ pot ++ [RequestTemperatures; GetTempCByIndex 0 v]
              ++ heat ++ lcd
          /\ forallb is_check_event chk = true
          /\ (length pot = 10%nat /\ forallb is_pot_event pot = true)
          /\ (heat = [] \/
              exists l t, heat = [DigitalWrite HEATER_PIN l; Millis t])
          /\ (length lcd = 10%nat /\ forallb is_lcd_event lcd = true)).
Proof.
  rewrite loop_unfold.
  destruct (safetyCheck W (pass_entry W s)) as [s1 | h1] eqn:Hs.
  - split; [intros h; split; intros H; discriminate H |]. split.
    + intros s'. split.
      * intros H. injection H as <-. exists s1. auto.
      * intros (s2 & H2 & ->). injection H2 as <-. reflexivity.
    + intros s' H. injection H as <-.
      destruct (safetyCheck_Running_trace W _ _ Hs) as (t1 & chk & Hc & Hchk).
      destruct (getTargetTemperature_trace W s1) as (pot & Hp & Hpl & Hpf).
      destruct (controlHeater_trace W (getTemperature W (getTargetTemperature W s1)))
        as (heat & Hh & Hheat).
      destruct (updateLCD_trace (controlHeater W (getTemperature W
                  (getTargetTemperature W s1)))) as (lcd & Hl & Hll & Hlf).
      exists t1, chk, pot, (tempC_at W (n_temp (getTargetTemperature W s1))),
        heat, lcd.
      split; [| auto].
      rewrite Hl, Hh, getTemperature_trace, Hp, Hc.
      unfold pass_entry, millis, next_millis. cbn [trace emit set_RunTime set_counters snd].
      rewrite <- !app_assoc. cbn [app]. reflexivity.
  - split; [intros h; split; intros H; exact H |]. split.
    + intros s'. split; [intros H; discriminate H |].
      intros (s2 & H2 & _). discriminate H2.
    + intros s' H. discriminate H.
Qed.

Lemma loop_pass_order_witness :
  loop idle_world order_state
  = Running (outcome_state (loop idle_world order_state))
  /\ exists t1 chk rest,
       trace (outcome_state (loop idle_world order_state))
       = trace order_state ++ Millis (next_millis idle_world order_state)
           :: Millis t1 :: chk ++ rest
       /\ forallb is_check_event chk = true.
Proof.
  assert (H : loop idle_world order_state
              = Running (outcome_state (loop idle_world order_state)))
    by (vm_compute; reflexivity).
  split; [exact H |].
  destruct (proj2 (proj2 (loop_pass_order idle_world order_state)) _ H)
    as (t1 & chk & pot & v & heat & lcd & Ht & Hc & _).
  exists t1, chk, (pot ++ [RequestTemperatures; GetTempCByIndex 0 v] ++ heat ++ lcd).
  split; [exact Ht | exact Hc].
Defined.

(** ** C10: who writes the checkpoint temperature *)

Lemma read_pot_TempLast (W : World) (n : nat) :
  forall acc s,
    TempLastSafetyCheck (snd (read_pot W n acc s)) = TempLastSafetyCheck s.
Proof.
  induction n as [|n IH]; intros acc s; [reflexivity |].
  cbn [read_pot]. unfold analogRead. rewrite IH. reflexivity.
Qed.

Lemma getTargetTemperature_TempLast (W : World) (s : State) :
  TempLastSafetyCheck (getTargetTemperature W s) = TempLastSafetyCheck s.
Proof.
  unfold getTargetTemperature.
  pose proof (read_pot_TempLast W 10 0 s) as H.
  destruct (read_pot W 10 0 s) as [sum s1]. exact H.
Qed.

Lemma controlHeater_TempLast (W : World) (s : State) :
  TempLastSafetyCheck (controlHeater W s) = TempLastSafetyCheck s.
Proof. unfold controlHeater. repeat split_if; reflexivity. Qed.

Lemma getTemperature_TempLast (W : World) (s : State) :
  TempLastSafetyCheck (getTemperature W s) = TempLastSafetyCheck s.
Proof. reflexivity. Qed.

Lemma updateLCD_TempLast (s : State) :
  TempLastSafetyCheck (updateLCD s) = TempLastSafetyCheck s.
Proof. reflexivity. Qed.

Lemma pass_tail_TempLast (W : World) (s : State) :
  TempLastSafetyCheck
    (updateLCD (controlHeater W (getTemperature W (getTargetTemperature W s))))
  = TempLastSafetyCheck s.
Proof.
  rewrite updateLCD_TempLast, controlHeater_TempLast,
    getTemperature_TempLast.
  apply getTargetTemperature_TempLast.
Qed.

Lemma safetyCheck_TempLast (W : World) (s : State) :
  TempLastSafetyCheck (outcome_state (safetyCheck W s)) = TempLastSafetyCheck s
  \/ (PreviousHeaterStatus s = ON /\ HeaterStatus s = ON
      /\ checks_performed W s
      /\ fleb (AverageTemp s) (TempLastSafetyCheck s) = false
      /\ TempLastSafetyCheck (outcome_state (safetyCheck W s)) = AverageTemp s).
Proof.
  destruct (next_millis W s >? ulong (TimeLastSafetyCheck s + 120000)) eqn:G.
  2:{ left. rewrite safetyCheck_gate_closed by exact G. reflexivity. }
  assert (Hc : checks_performed W s)
    by (apply checks_performed_iff, Z.gtb_gt; exact G).
  unfold safetyCheck, next_millis in *. cbv beta iota zeta delta [millis].
  proj_simpl. rewrite G.
  step_prog; proj_simpl;
  try (left; reflexivity);
  right;
  match goal with
  | H : (_ =? _) && (_ =? _) = true |- _ =>
      apply andb_prop in H; destruct H as [Hprev Hheat];
      apply Z.eqb_eq in Hprev, Hheat
  end;
  repeat split; congruence.
Qed.

Lemma SFcompare_antisym (x y : float) :
  SFcompare y x = option_map CompOpp (SFcompare x y).
Proof.
  destruct x as [sx | sx | | sx mx ex], y as [sy | sy | | sy my ey];
    cbn; try reflexivity;
    try (destruct sx; reflexivity); try (destruct sy; reflexivity);
    try (destruct sx, sy; reflexivity).
  destruct sx, sy; cbn; try reflexivity;
    rewrite (Z.compare_antisym ex ey);
    destruct (ex ?= ey) eqn:Ec; cbn; try reflexivity;
    rewrite (Pos.compare_cont_antisym mx my Eq); cbn;
    rewrite ?CompOpp_involutive; reflexivity.
Qed.

(** Between numbers, "not [x <= y]" is "[y < x]". *)
Lemma fleb_false_fltb (x y : float) :
  is_nan x = false -> is_nan y = false ->
  fleb x y = false -> fltb y x = true.
Proof.
  unfold fleb, fltb, SFleb, SFltb. rewrite (SFcompare_antisym x y).
  intros Hx Hy.
  destruct (SFcompare x y) as [[| |]|] eqn:E; cbn;
    try discriminate; try reflexivity.
  intros _. destruct x, y; cbn in *; discriminate.
Qed.

Lemma safetyCheck_Previous (W : World) (s : State) :
  ~ (PreviousHeaterStatus s = ON /\ HeaterStatus s = ON) ->
  checks_performed W s ->
  HeaterStatus s = ON \/ HeaterStatus s = OFF ->
  PreviousHeaterStatus (outcome_state (safetyCheck W s)) = HeaterStatus s.
Proof.
  intros Hnot Hc Hst. apply checks_performed_iff, Z.gtb_gt in Hc.
  unfold safetyCheck, next_millis in *. cbv beta iota zeta delta [millis].
  proj_simpl. rewrite Hc.
  step_prog; proj_simpl;
    repeat match goal with
           | H : _ && _ = true |- _ =>
               apply andb_prop in H; destruct H as [? ?]
           | H : (_ =? _) = true |- _ => apply Z.eqb_eq in H
           | H : (_ =? _) = false |- _ => apply Z.eqb_neq in H
           end;
    try congruence; try tauto;
    exfalso; apply Hnot; split; congruence.
Qed.

Lemma setup_TempLast (W : World) (fuel : nat) (s s' : State) :
  setup W fuel s = Some s' -> TempLastSafetyCheck s' = AverageTemp s'.
Proof.
  unfold setup. destruct (initHeater W fuel _) as [s1|]; [| discriminate].
  intros H. injection H as <-. reflexivity.
Qed.

(** A check that returns leaves the heater and the filter as they were. *)
Lemma safetyCheck_Running_frame (W : World) (s s1 : State) :
  safetyCheck W s = Running s1 ->
  HeaterStatus s1 = HeaterStatus s /\ PumpStatus s1 = PumpStatus s
  /\ AverageTemp s1 = AverageTemp s /\ pin_level s1 = pin_level s.
Proof.
  unfold safetyCheck. cbv beta iota zeta delta [millis].
  intros H. step_prog; try discriminate H; injection H as <-;
    repeat split.
Qed.

(** C10: a safety-check pass in which the heater was not ON both at the
    previous checkpoint and now leaves [TempLastSafetyCheck] unchanged and
    (when the checks run) records the current heater status as the new
    baseline.  Over a whole pass of [loop] the checkpoint temperature
    changes only in a continuous-ON check whose comparison
    [AverageTemp <= TempLastSafetyCheck] fails (an increase, for numbers),
    and [setup] is its only other writer.  Hence, after the first check
    that sees the heater ON, the next comparison is still against the
    temperature stored before that check. *)
Theorem TempLastSafetyCheck_writers (W : World) (s : State) :
  (~ (PreviousHeaterStatus s = ON /\ HeaterStatus s = ON) ->
   TempLastSafetyCheck (outcome_state (safetyCheck W s))
   = TempLastSafetyCheck s
   /\ (checks_performed W s ->
       HeaterStatus s = ON \/ HeaterStatus s = OFF ->
       PreviousHeaterStatus (outcome_state (safetyCheck W s))
       = HeaterStatus s))
  /\ (TempLastSafetyCheck (outcome_state (loop W s)) = TempLastSafetyCheck s
      \/ (PreviousHeaterStatus s = ON /\ HeaterStatus s = ON
          /\ checks_performed W (pass_entry W s)
          /\ fleb (AverageTemp s) (TempLastSafetyCheck s) = false
          /\ (is_nan (AverageTemp s) = false ->
              is_nan (TempLastSafetyCheck s) = false ->
              fltb (TempLastSafetyCheck s) (AverageTemp s) = true)
          /\ TempLastSafetyCheck (outcome_state (loop W s)) = AverageTemp s))
  /\ (forall fuel s', setup W fuel s = Some s' ->
                      TempLastSafetyCheck s' = AverageTemp s')
  /\ (HeaterStatus s = ON -> PreviousHeaterStatus s <> ON ->
      checks_performed W s ->
      forall s1, safetyCheck W s = Running s1 ->
                 PreviousHeaterStatus s1 = ON /\ HeaterStatus s1 = ON
                 /\ TempLastSafetyCheck s1 = TempLastSafetyCheck s).
Proof.
  split; [| split; [| split]].
  - intros Hnot. split.
    + destruct (safetyCheck_TempLast W s) as [H | (Hp & Hh & _)];
        [exact H | tauto].
    + intros Hc Hst. apply safetyCheck_Previous; assumption.
  - assert (Ht : TempLastSafetyCheck (outcome_state (loop W s))
                 = TempLastSafetyCheck
                     (outcome_state (safetyCheck W (pass_entry W s)))).
    { rewrite loop_unfold. destruct (safetyCheck W (pass_entry W s));
        [apply pass_tail_TempLast | reflexivity]. }
    rewrite Ht.
    destruct (safetyCheck_TempLast W (pass_entry W s))
      as [H | (Hp & Hh & Hc & Hle & Hw)]; [left; exact H |].
    right. repeat split; try assumption.
    intros Ha Hb. apply fleb_false_fltb; assumption.
  - intros fuel s'. apply setup_TempLast.
  - intros Hon Hprev Hc s1 Hrun.
    assert (Hnot : ~ (PreviousHeaterStatus s = ON /\ HeaterStatus s = ON))
      by tauto.
    destruct (safetyCheck_Running_frame W s s1 Hrun) as (Hh & _).
    pose proof (safetyCheck_Previous W s Hnot Hc (or_introl Hon)) as Hp.
    destruct (safetyCheck_TempLast W s) as [Ht | (Hp' & _)]; [| tauto].
    rewrite Hrun in Hp, Ht. cbn [outcome_state] in Hp, Ht.
    repeat split; congruence.
Qed.

Lemma TempLastSafetyCheck_writers_witness :
  ~ (PreviousHeaterStatus heating_state = ON /\ HeaterStatus heating_state = ON)
  /\ TempLastSafetyCheck (outcome_state (safetyCheck order_world heating_state))
     = TempLastSafetyCheck heating_state.
Proof.
  assert (H : ~ (PreviousHeaterStatus heating_state = ON
                 /\ HeaterStatus heating_state = ON)).
  { intros [Hp _]. vm_compute in Hp. discriminate Hp. }
  split; [exact H |].
  exact (proj1 (proj1 (TempLastSafetyCheck_writers order_world heating_state) H)).
Defined.

(** ** C3: the heater timeout *)

Lemma raised_code_abort (W : World) (message : string) (s : State) :
  raised_code (Halted (abort_state W message s)) = Some message.
Proof.
  unfold raised_code.
  destruct (abort_state_spec W message s) as [_ ->].
  unfold halt_display.
  change (trace s ++
          [DigitalWrite HEATER_PIN OFF; Millis (next_millis W s);
           DigitalWrite PUMP_PIN OFF] ++
          [LcdClear; LcdSetCursor 0 0; LcdPrintStr "System halted";
           LcdSetCursor 0 1; LcdPrintStr message])
    with (trace s ++
          [DigitalWrite HEATER_PIN OFF; Millis (next_millis W s);
           DigitalWrite PUMP_PIN OFF; LcdClear; LcdSetCursor 0 0;
           LcdPrintStr "System halted"; LcdSetCursor 0 1]
          ++ [LcdPrintStr message]).
  rewrite app_assoc, last_last. reflexivity.
Qed.

(** Whatever clock reads and temperature samples preserve is preserved by
    the warm-up of [initHeater]. *)
Section WarmUpInvariant.

Variable W : World.
Variable P : State -> Prop.
Hypothesis P_millis : forall s, P s -> P (snd (millis W s)).
Hypothesis P_getTemperature : forall s, P s -> P (getTemperature W s).

Lemma busy_wait_preserves (fuel : nat) :
  forall deadline s s',
    busy_wait W fuel deadline s = Some s' -> P s -> P s'.
Proof.
  induction fuel as [|f IH]; intros d s s' H Hs; [discriminate |].
  cbn [busy_wait] in H.
  destruct (millis W s) as [t s1] eqn:Hm.
  assert (Hs1 : P s1) by (change s1 with (snd (t, s1)); rewrite <- Hm; auto).
  destruct (t <? d); [eapply IH; eassumption | injection H as <-; exact Hs1].
Qed.

Lemma initHeater_rounds_preserves (fuel n : nat) :
  forall s s', initHeater_rounds W fuel n s = Some s' -> P s -> P s'.
Proof.
  induction n as [|n IH]; intros s s' H Hs.
  - injection H as <-. exact Hs.
  - cbn [initHeater_rounds] in H.
    destruct (millis W s) as [t s1] eqn:Hm.
    assert (Hs1 : P s1) by (change s1 with (snd (t, s1)); rewrite <- Hm; auto).
    destruct (busy_wait W fuel (ulong (t + 1000)) (getTemperature W s1))
      as [s3|] eqn:Hb; [| discriminate].
    eapply IH; [eassumption |].
    eapply busy_wait_preserves; [eassumption |]. auto.
Qed.

End WarmUpInvariant.

Lemma setup_MaxHeaterOnTime (W : World) (fuel : nat) (s s' : State) :
  setup W fuel s = Some s' -> MaxHeaterOnTime s' = startup_MaxHeaterOnTime.
Proof.
  unfold setup, initHeater.
  match goal with |- context [initHeater_rounds W fuel ?n ?s0] =>
    destruct (initHeater_rounds W fuel n s0) as [s1|] eqn:Hi; [| discriminate];
    apply (initHeater_rounds_preserves W
             (fun t => MaxHeaterOnTime t = startup_MaxHeaterOnTime)) in Hi
  end; try reflexivity; try (intros t Ht; exact Ht).
  intros H. injection H as <-. exact Hi.
Qed.

Lemma both_on_iff (s : State) :
  (PreviousHeaterStatus s =? HeaterStatus s) && (HeaterStatus s =? ON) = true
  <-> PreviousHeaterStatus s = ON /\ HeaterStatus s = ON.
Proof.
  rewrite andb_true_iff, !Z.eqb_eq. split; intros [? ?]; split; congruence.
Qed.

Lemma safetyCheck_HeaterTimeout_iff (W : World) (s : State) :
  raised_code (safetyCheck W s) = Some "E2-heat time lim"%string <->
  check_due W s = true
  /\ (PreviousHeaterStatus s = ON /\ HeaterStatus s = ON)
  /\ fleb (AverageTemp s) (TempLastSafetyCheck s) = false
  /\ fltb (MaxHeaterOnTime s) (heater_on_elapsed W s) = true.
Proof.
  rewrite <- both_on_iff. unfold check_due, heater_on_elapsed.
  destruct (next_millis W s >? ulong (TimeLastSafetyCheck s + 120000)) eqn:G.
  2:{ rewrite safetyCheck_gate_closed by exact G. cbn.
      split; [discriminate | intros [? _]; discriminate]. }
  unfold safetyCheck, next_millis in *. cbv beta iota zeta delta [millis].
  proj_simpl. rewrite G.
  step_prog; proj_simpl_upto_abort; rewrite ?raised_code_abort;
    (split; [intros H; try discriminate H | intros (_ & ? & ? & ?)]);
    repeat split; try congruence; try reflexivity.
Qed.

(** The sensor fault is raised exactly in a due check that finds the heater
    ON at both ends and [AverageTemp <= TempLastSafetyCheck]. *)
Lemma safetyCheck_SensorFault_iff (W : World) (s : State) :
  raised_code (safetyCheck W s) = Some "E1-no T increase"%string <->
  check_due W s = true
  /\ (PreviousHeaterStatus s = ON /\ HeaterStatus s = ON)
  /\ fleb (AverageTemp s) (TempLastSafetyCheck s) = true.
Proof.
  rewrite <- both_on_iff. unfold check_due.
  destruct (next_millis W s >? ulong (TimeLastSafetyCheck s + 120000)) eqn:G.
  2:{ rewrite safetyCheck_gate_closed by exact G. cbn.
      split; [discriminate | intros [? _]; discriminate]. }
  unfold safetyCheck, next_millis in *. cbv beta iota zeta delta [millis].
  proj_simpl. rewrite G.
  step_prog; proj_simpl_upto_abort; rewrite ?raised_code_abort;
    (split; [intros H; try discriminate H | intros (_ & ? & ?)]);
    repeat split; try congruence; try reflexivity.
Qed.

Lemma startup_MaxHeaterOnTime_value :
  startup_MaxHeaterOnTime = S754_finite false 9769200 (-1).
Proof. vm_compute. reflexivity. Qed.

(** On [unsigned long] values the float test [MaxHeaterOnTime < elapsed]
    of [safetyCheck] is the integer test [4884600 < elapsed]. *)
Lemma heater_timeout_threshold (e : Z) :
  0 <= e < 2 ^ 32 ->
  fltb startup_MaxHeaterOnTime (of_Z e) = (4884600 <? e).
Proof.
  intros He. rewrite startup_MaxHeaterOnTime_value.
  destruct e as [|m|m]; [reflexivity | | lia].
  destruct (Z.lt_ge_cases (Zpos m) (2 ^ 24)) as [Hs | Hl].
  - rewrite of_Z_small by exact Hs.
    pose proof (digits_le_24 m Hs) as Hd.
    pose proof (digits2_bounds m) as Hb.
    assert (Hdig : Zpos (digits2_pos m) = Z.of_nat (digits m))
      by (unfold digits; lia).
    rewrite Hdig in Hb.
    unfold canon, fltb, SFltb, SFcompare.
    destruct (Z.compare_spec (-1) (0 + Z.of_nat (digits m) - 24)) as [E | E | E].
    + assert (Hd23 : digits m = 23%nat) by lia. rewrite Hd23 in *.
      change (Pos.compare_cont Eq 9769200 (shl (24 - 23) m))
        with (9769200 ?= shl 1 m)%positive.
      rewrite Pos2Z.inj_compare, shl_Zpos.
      change (2 ^ Z.of_nat 1) with 2. unfold Z.ltb.
      destruct (Z.compare_spec 9769200 (Zpos m * 2));
        destruct (Z.compare_spec 4884600 (Zpos m)); try reflexivity; lia.
    + assert (Hd24 : digits m = 24%nat) by lia. rewrite Hd24 in *.
      symmetry. apply Z.ltb_lt.
      change (2 ^ (Z.of_nat 24 - 1)) with 8388608 in Hb. lia.
    + assert (Hlt : Zpos m < 2 ^ 22).
      { eapply Z.lt_le_trans; [apply Hb |]. apply Z.pow_le_mono_r; lia. }
      symmetry. apply Z.ltb_ge. change (2 ^ 22) with 4194304 in Hlt. lia.
  - destruct (of_Z_large m ltac:(lia)) as (m' & e' & -> & He').
    unfold fltb, SFltb, SFcompare.
    replace (-1 ?= e') with Lt by (symmetry; apply Z.compare_lt_iff; lia).
    symmetry. apply Z.ltb_lt. change (2 ^ 24) with 16777216 in Hl. lia.
Qed.

(** C3, as stated, fails: the heater has been ON across the interval for
    5000000 ms, more than [MaxHeaterOnTime], but the temperature has not
    risen since the last checkpoint; the pass halts with the sensor fault
    E1 and the heater-timeout test is never reached. *)
Lemma HeaterTimeout_preempted_by_SensorFault :
  let s := timeout_state (of_Z 20) in
  check_due timeout_world s = true
  /\ (PreviousHeaterStatus s = ON /\ HeaterStatus s = ON)
  /\ fltb (MaxHeaterOnTime s) (heater_on_elapsed timeout_world s) = true
  /\ raised_code (safetyCheck timeout_world s) = Some "E1-no T increase"%string
  /\ raised_code (safetyCheck timeout_world s) <> Some "E2-heat time lim"%string.
Proof.
  cbv zeta.
  assert (H : raised_code (safetyCheck timeout_world (timeout_state (of_Z 20)))
              = Some "E1-no T increase"%string) by (vm_compute; reflexivity).
  split; [vm_compute; reflexivity |].
  split; [split; vm_compute; reflexivity |].
  split; [vm_compute; reflexivity |].
  split; [exact H |].
  rewrite H. discriminate.
Qed.

(** C3 (amended): in a safety-check pass whose checks run with the heater
    ON both at the previous checkpoint and now, and whose sensor-fault
    comparison did not already halt the system, HeaterTimeout (E2) is
    raised if the time since the heater was last switched exceeds
    [MaxHeaterOnTime]; E2 is never raised otherwise.  [setup] computes
    [MaxHeaterOnTime] as MaxTemp*WaterVolume*4.1868*1000000/PowerHeater,
    which is exactly 4884600 ms, and against that value the float test of
    the code is the integer test "more than 4884600 ms elapsed". *)
Theorem HeaterTimeout_raised (W : World) (s : State) :
  (check_due W s = true ->
   PreviousHeaterStatus s = ON -> HeaterStatus s = ON ->
   fleb (AverageTemp s) (TempLastSafetyCheck s) = false ->
   fltb (MaxHeaterOnTime s) (heater_on_elapsed W s) = true ->
   raised_code (safetyCheck W s) = Some "E2-heat time lim"%string)
  /\ (raised_code (safetyCheck W s) = Some "E2-heat time lim"%string ->
      check_due W s = true
      /\ (PreviousHeaterStatus s = ON /\ HeaterStatus s = ON)
      /\ fltb (MaxHeaterOnTime s) (heater_on_elapsed W s) = true)
  /\ (forall fuel s', setup W fuel s = Some s' ->
                      MaxHeaterOnTime s' = startup_MaxHeaterOnTime)
  /\ (SF2Q startup_MaxHeaterOnTime == 4884600 # 1)%Q
  /\ (MaxHeaterOnTime s = startup_MaxHeaterOnTime ->
      (fltb (MaxHeaterOnTime s) (heater_on_elapsed W s) = true <->
       4884600 < ulong (next_millis W s - TimeHeaterOn s))).
Proof.
  split; [| split; [| split; [| split]]].
  - intros. apply safetyCheck_HeaterTimeout_iff. tauto.
  - intros H. apply safetyCheck_HeaterTimeout_iff in H. tauto.
  - intros fuel s'. apply setup_MaxHeaterOnTime.
  - vm_compute. reflexivity.
  - intros ->. unfold heater_on_elapsed.
    rewrite heater_timeout_threshold
      by (unfold ulong; change (2 ^ 32) with 4294967296;
          apply Z.mod_pos_bound; lia).
    apply Z.ltb_lt.
Qed.

Lemma HeaterTimeout_raised_witness :
  let s := timeout_state (of_Z 19) in
  check_due timeout_world s = true
  /\ fleb (AverageTemp s) (TempLastSafetyCheck s) = false
  /\ fltb (MaxHeaterOnTime s) (heater_on_elapsed timeout_world s) = true
  /\ raised_code (safetyCheck timeout_world s) = Some "E2-heat time lim"%string.
Proof.
  cbv zeta. split; [reflexivity |]. split; [reflexivity |].
  split; [reflexivity |].
  apply (proj1 (HeaterTimeout_raised timeout_world (timeout_state (of_Z 19))));
    reflexivity.
Defined.

(** ** C6: who writes the pump *)

Lemma pump_untouched_refl (s : State) : pump_untouched s s.
Proof.
  split; [reflexivity |]. split; [reflexivity |].
  exists []. rewrite app_nil_r. auto.
Qed.

Lemma pump_untouched_step (s0 s s' : State) (evs : list Event) :
  pump_untouched s0 s ->
  pin_level s' PUMP_PIN = pin_level s PUMP_PIN ->
  pin_output s' PUMP_PIN = pin_output s PUMP_PIN ->
  trace s' = trace s ++ evs ->
  existsb is_pump_write evs = false ->
  pump_untouched s0 s'.
Proof.
  intros (Hp & Ho & e0 & Ht & He) Hp' Ho' Ht' He'.
  split; [congruence |]. split; [congruence |].
  exists (e0 ++ evs). rewrite Ht', Ht, app_assoc. split; [reflexivity |].
  rewrite existsb_app, He, He'. reflexivity.
Qed.

Lemma pump_untouched_trans (s0 s1 s2 : State) :
  pump_untouched s0 s1 -> pump_untouched s1 s2 -> pump_untouched s0 s2.
Proof.
  intros H01 (Hp & Ho & evs & Ht & He).
  eapply pump_untouched_step; eassumption.
Qed.

Lemma no_pump_write (P : Event -> bool) (l : list Event) :
  (forall e, P e = true -> is_pump_write e = false) ->
  forallb P l = true -> existsb is_pump_write l = false.
Proof.
  intros HP. induction l as [|e l IH]; cbn; [reflexivity |].
  intros H. apply andb_prop in H. destruct H as [He Hl].
  rewrite (HP e He), (IH Hl). reflexivity.
Qed.

Lemma millis_pump (W : World) (s : State) :
  pump_untouched s (snd (millis W s)).
Proof.
  eapply pump_untouched_step with (evs := [Millis (next_millis W s)]);
    [apply pump_untouched_refl | reflexivity | reflexivity | reflexivity
    | reflexivity].
Qed.

Lemma getTemperature_pump (W : World) (s : State) :
  pump_untouched s (getTemperature W s).
Proof.
  eapply pump_untouched_step;
    [apply pump_untouched_refl | reflexivity | reflexivity
    | apply getTemperature_trace | reflexivity].
Qed.

Lemma read_pot_pin (W : World) (n : nat) :
  forall acc s, pin_level (snd (read_pot W n acc s)) = pin_level s.
Proof.
  induction n as [|n IH]; intros acc s; [reflexivity |].
  cbn [read_pot]. unfold analogRead. rewrite IH. reflexivity.
Qed.

Lemma read_pot_pin_output (W : World) (n : nat) :
  forall acc s, pin_output (snd (read_pot W n acc s)) = pin_output s.
Proof.
  induction n as [|n IH]; intros acc s; [reflexivity |].
  cbn [read_pot]. unfold analogRead. rewrite IH. reflexivity.
Qed.

Lemma getTargetTemperature_pump (W : World) (s : State) :
  pump_untouched s (getTargetTemperature W s)
  /\ PumpStatus (getTargetTemperature W s) = PumpStatus s.
Proof.
  destruct (getTargetTemperature_trace W s) as (pot & Ht & _ & Hf).
  split.
  - eapply pump_untouched_step;
      [apply pump_untouched_refl | | | exact Ht |].
    + unfold getTargetTemperature.
      pose proof (read_pot_pin W 10 0 s) as H.
      destruct (read_pot W 10 0 s) as [sum s1]. cbn in *. rewrite H. reflexivity.
    + unfold getTargetTemperature.
      pose proof (read_pot_pin_output W 10 0 s) as H.
      destruct (read_pot W 10 0 s) as [sum s1]. cbn in *. rewrite H. reflexivity.
    + apply (no_pump_write is_pot_event); [| exact Hf].
      intros [] He; try discriminate He; reflexivity.
  - unfold getTargetTemperature.
    assert (H : forall n acc t, PumpStatus (snd (read_pot W n acc t)) = PumpStatus t).
    { induction n as [|n IH]; intros acc t; [reflexivity |].
      cbn [read_pot]. unfold analogRead. rewrite IH. reflexivity. }
    specialize (H 10%nat 0 s). destruct (read_pot W 10 0 s) as [sum s1].
    exact H.
Qed.

Lemma controlHeater_pump (W : World) (s : State) :
  pump_untouched s (controlHeater W s)
  /\ PumpStatus (controlHeater W s) = PumpStatus s.
Proof.
  destruct (controlHeater_trace W s) as (heat & Ht & Hheat).
  split.
  - eapply pump_untouched_step;
      [apply pump_untouched_refl | | | exact Ht |].
    + unfold controlHeater. repeat split_if; reflexivity.
    + unfold controlHeater. repeat split_if; reflexivity.
    + destruct Hheat as [-> | (l & t & ->)]; reflexivity.
  - unfold controlHeater. repeat split_if; reflexivity.
Qed.

Lemma updateLCD_pump (s : State) : pump_untouched s (updateLCD s).
Proof.
  destruct (updateLCD_trace s) as (lcd & Ht & _ & Hf).
  eapply pump_untouched_step;
    [apply pump_untouched_refl | reflexivity | reflexivity | exact Ht |].
  apply (no_pump_write is_lcd_event); [| exact Hf].
  intros [] He; try discriminate He; reflexivity.
Qed.

Lemma getTemperature_PumpStatus (W : World) (s : State) :
  PumpStatus (getTemperature W s) = PumpStatus s.
Proof. reflexivity. Qed.

Lemma updateLCD_PumpStatus (s : State) :
  PumpStatus (updateLCD s) = PumpStatus s.
Proof. reflexivity. Qed.

Lemma safetyCheck_pump (W : World) (s : State) :
  match safetyCheck W s with
  | Running s1 => pump_untouched s s1 /\ PumpStatus s1 = PumpStatus s
  | Halted h => exists code s0, h = abort_state W code s0 /\ pump_untouched s s0
  end.
Proof.
  unfold safetyCheck. cbv beta iota zeta delta [millis].
  step_prog;
    lazymatch goal with
    | |- exists _, _ => eexists; eexists; split; [reflexivity |]
    | |- _ => split; [| reflexivity]
    end;
    (split; [reflexivity |]); (split; [reflexivity |]);
    eexists; proj_simpl_upto_abort; rewrite <- ?app_assoc;
    (split; [reflexivity | reflexivity]).
Qed.

Lemma loop_pump (W : World) (s : State) :
  match loop W s with
  | Running s1 => pump_untouched s s1 /\ PumpStatus s1 = PumpStatus s
  | Halted h => exists code s0, h = abort_state W code s0 /\ pump_untouched s s0
  end.
Proof.
  rewrite loop_unfold.
  assert (H0 : pump_untouched s (pass_entry W s)).
  { eapply pump_untouched_step with (evs := [Millis (next_millis W s)]);
      [apply pump_untouched_refl | reflexivity | reflexivity | reflexivity
      | reflexivity]. }
  pose proof (safetyCheck_pump W (pass_entry W s)) as Hs.
  destruct (safetyCheck W (pass_entry W s)) as [s1 | h].
  - destruct Hs as [Hu Hp].
    destruct (getTargetTemperature_pump W s1) as [Hu1 Hp1].
    pose proof (getTemperature_pump W (getTargetTemperature W s1)) as Hu2.
    destruct (controlHeater_pump W (getTemperature W (getTargetTemperature W s1)))
      as [Hu3 Hp3].
    pose proof (updateLCD_pump (controlHeater W (getTemperature W
                  (getTargetTemperature W s1)))) as Hu4.
    split.
    + eapply pump_untouched_trans; [| exact Hu4].
      eapply pump_untouched_trans; [| exact Hu3].
      eapply pump_untouched_trans; [| exact Hu2].
      eapply pump_untouched_trans; [| exact Hu1].
      eapply pump_untouched_trans; [exact H0 | exact Hu].
    + rewrite updateLCD_PumpStatus, Hp3, getTemperature_PumpStatus, Hp1.
      exact Hp.
  - destruct Hs as (code & s0 & -> & Hu). exists code, s0.
    split; [reflexivity |]. eapply pump_untouched_trans; eassumption.
Qed.

Lemma setup_pump (W : World) (fuel : nat) (s s' : State) :
  setup W fuel s = Some s' ->
  PumpStatus s' = ON
  /\ pin_output s' PUMP_PIN = true
  /\ pin_level s' PUMP_PIN = pin_level s PUMP_PIN
  /\ exists evs,
       trace s' = trace s ++ evs
       /\ filter is_pump_write evs = [PinModeOutput PUMP_PIN].
Proof.
  unfold setup, initHeater.
  match goal with |- context [initHeater_rounds W fuel ?n ?s0] =>
    set (s1 := s0);
    destruct (initHeater_rounds W fuel n s1) as [s2|] eqn:Hi; [| discriminate];
    apply (initHeater_rounds_preserves W (pump_untouched s1)) in Hi
  end.
  - intros H. injection H as <-.
    destruct Hi as (Hp & Ho & evs & Ht & He).
    unfold getInternalTemp, dht_readTemperature, initDashboard.
    proj_simpl. rewrite Hp, Ho, Ht. subst s1.
    unfold initScreen, digitalWrite. proj_simpl.
    change (PUMP_PIN =? HEATER_PIN) with false.
    change (PUMP_PIN =? 6) with true.
    repeat (split; [reflexivity |]).
    eexists. rewrite <- !app_assoc. split; [reflexivity |].
    assert (Hf : filter is_pump_write evs = []).
    { clear - He. induction evs as [|e evs IH]; [reflexivity |].
      cbn [existsb filter] in *. apply orb_false_elim in He.
      destruct He as [-> He]. apply IH. exact He. }
    cbn [app filter is_pump_write].
    change (4 =? PUMP_PIN) with false. change (6 =? PUMP_PIN) with true.
    change (HEATER_PIN =? PUMP_PIN) with false. cbn [app].
    rewrite !filter_app, Hf. reflexivity.
  - intros t Ht. eapply pump_untouched_trans; [exact Ht | apply millis_pump].
  - intros t Ht. eapply pump_untouched_trans;
      [exact Ht | apply getTemperature_pump].
  - apply pump_untouched_refl.
Qed.

Lemma pump_drive_untouched (s0 s : State) :
  pump_untouched s0 s -> pump_drive s = pump_drive s0.
Proof. intros (Hp & Ho & _). unfold pump_drive. rewrite Hp, Ho. reflexivity. Qed.

Lemma pump_drive_abort_state (W : World) (code : string) (s : State) :
  pump_drive (abort_state W code s)
  = if pin_output s PUMP_PIN then Some OFF else None.
Proof. reflexivity. Qed.

Lemma tick_pump (W : World) (m : Machine) :
  pump_as_recorded m -> pump_as_recorded (tick W m).
Proof.
  destruct m as [s | h]; cbn [tick pump_as_recorded].
  - intros [Hd Hs]. pose proof (loop_pump W s) as H.
    destruct (loop W s) as [s1 | h]; cbn [pump_as_recorded].
    + destruct H as [Hu Hp]. rewrite (pump_drive_untouched s s1 Hu), Hp. auto.
    + destruct H as (code & s0 & -> & Hu).
      rewrite pump_drive_abort_state.
      apply pump_drive_untouched in Hu. rewrite Hd in Hu.
      unfold pump_drive in Hu.
      destruct (pin_output s0 PUMP_PIN); [| discriminate Hu].
      split; reflexivity.
  - intros H. exact H.
Qed.

Lemma ticks_pump (W : World) (n : nat) :
  forall m, pump_as_recorded m -> pump_as_recorded (ticks W n m).
Proof.
  induction n as [|n IH]; intros m Hm; [exact Hm |].
  cbn [ticks]. apply IH. apply tick_pump. exact Hm.
Qed.

(** *** Start-up returns when the clock moves *)

Lemma busy_wait_returns (W : World) (fuel : nat) :
  forall deadline s,
    (exists k, (k < fuel)%nat
               /\ deadline <= ulong (millis_at W (n_millis s + k))) ->
    exists s', busy_wait W fuel deadline s = Some s'.
Proof.
  induction fuel as [|f IH]; intros d s (k & Hk & Hd); [lia |].
  cbn [busy_wait]. cbv beta iota zeta delta [millis].
  destruct (ulong (millis_at W (n_millis s)) <? d) eqn:Hlt;
    [| eexists; reflexivity].
  apply IH. apply Z.ltb_lt in Hlt.
  destruct k as [|k]; [rewrite Nat.add_0_r in Hd; lia |].
  exists k. split; [lia |]. proj_simpl.
  rewrite Nat.add_succ_r in Hd. exact Hd.
Qed.

Lemma initHeater_rounds_returns (W : World) (fuel : nat) :
  clock_advances W fuel ->
  forall n s, exists s', initHeater_rounds W fuel n s = Some s'.
Proof.
  intros Hclock. induction n as [|n IH]; intros s; [eexists; reflexivity |].
  cbn [initHeater_rounds]. cbv beta iota zeta delta [millis].
  match goal with |- context [busy_wait W fuel ?d ?t] =>
    destruct (busy_wait_returns W fuel d t) as [s3 ->]; [| apply IH]
  end.
  destruct (Hclock (n_millis s)) as (k & Hk & Hd).
  exists k. split; [exact Hk | exact Hd].
Qed.

Lemma setup_returns (W : World) (fuel : nat) (s : State) :
  clock_advances W fuel -> exists s', setup W fuel s = Some s'.
Proof.
  intros Hclock. unfold setup, initHeater.
  match goal with |- context [initHeater_rounds W fuel ?n ?s0] =>
    destruct (initHeater_rounds_returns W fuel Hclock n s0) as [s1 ->]
  end.
  eexists. reflexivity.
Qed.

Lemma idle_world_clock_advances : clock_advances idle_world 1.
Proof.
  intros n. exists 0%nat. split; [lia |].
  unfold ulong, idle_world, millis_at.
  rewrite Zplus_mod_idemp_l.
  replace (1000 * Z.of_nat (S n + 0)) with (1000 * Z.of_nat n + 1000) by lia.
  lia.
Qed.

(** C6: the pump is set ON at startup and forced OFF only on abort.
    [setup] records [PumpStatus = ON]; its only action on the pump relay is
    [pinMode(6, OUTPUT)], which makes the pin drive its latch, and it never
    writes the latch.  From reset, where the pin is an input and its latch
    is zero, the relay is therefore driven to the ON level (active low) by
    [setup] and not before (and [setup] does return once the clock moves).
    A pass of [loop] that returns leaves the pump pin and [PumpStatus]
    alone; a pass that faults acts on the pump exactly through
    [missionAbort], which writes OFF and records OFF.  Hence in every state
    reached from reset the pump is driven ON and recorded ON while the
    machine loops, and driven OFF and recorded OFF once it alerts: startup
    and abort are the pump's only two writers. *)
Theorem pump_writers (W : World) (s : State) :
  (forall fuel s', setup W fuel s = Some s' ->
                   PumpStatus s' = ON
                   /\ pin_output s' PUMP_PIN = true
                   /\ pin_level s' PUMP_PIN = pin_level s PUMP_PIN
                   /\ exists evs,
                        trace s' = trace s ++ evs
                        /\ filter is_pump_write evs = [PinModeOutput PUMP_PIN])
  /\ (pump_drive boot = None
      /\ forall fuel s0, setup W fuel boot = Some s0 ->
                         pump_drive s0 = Some ON /\ PumpStatus s0 = ON)
  /\ (forall fuel, clock_advances W fuel -> exists s', setup W fuel s = Some s')
  /\ match loop W s with
     | Running s1 => pump_untouched s s1 /\ PumpStatus s1 = PumpStatus s
     | Halted h =>
         exists code s0, h = abort_state W code s0 /\ pump_untouched s s0
     end
  /\ (forall code s0,
        pin_level (abort_state W code s0) PUMP_PIN = OFF
        /\ pin_output (abort_state W code s0) PUMP_PIN = pin_output s0 PUMP_PIN
        /\ PumpStatus (abort_state W code s0) = OFF
        /\ trace (abort_state W code s0)
           = trace s0
             ++ [DigitalWrite HEATER_PIN OFF; Millis (next_millis W s0);
                 DigitalWrite PUMP_PIN OFF]
             ++ halt_display code)
  /\ (forall fuel s0 n,
        setup W fuel boot = Some s0 ->
        pump_as_recorded (ticks W n (Looping s0))).
Proof.
  assert (Hboot : forall fuel s0, setup W fuel boot = Some s0 ->
                                  pump_drive s0 = Some ON /\ PumpStatus s0 = ON).
  { intros fuel s0 H.
    destruct (setup_pump W fuel boot s0 H) as (Hs & Ho & Hp & _).
    split; [| exact Hs]. unfold pump_drive. rewrite Ho, Hp. reflexivity. }
  split; [intros fuel s'; apply setup_pump |].
  split; [split; [reflexivity | exact Hboot] |].
  split; [intros fuel; apply setup_returns |].
  split; [apply loop_pump |].
  split.
  - intros code s0.
    destruct (abort_state_spec W code s0) as [(_ & Hp & _ & Hs) Ht].
    split; [exact Hp |]. split; [reflexivity |]. split; [exact Hs | exact Ht].
  - intros fuel s0 n H. apply ticks_pump. cbn [pump_as_recorded].
    exact (Hboot fuel s0 H).
Qed.

Lemma pump_writers_witness :
  clock_advances idle_world 1
  /\ setup idle_world 1 boot = Some startup_state
  /\ pump_drive boot = None
  /\ pump_drive startup_state = Some ON
  /\ PumpStatus startup_state = ON
  /\ pump_as_recorded (ticks idle_world 3 (Looping startup_state)).
Proof.
  split; [exact idle_world_clock_advances |].
  assert (H : setup idle_world 1 boot = Some startup_state)
    by (vm_compute; reflexivity).
  split; [exact H |].
  destruct (pump_writers idle_world boot) as (_ & (Hb & Hs) & _ & _ & _ & Hr).
  split; [exact Hb |].
  split; [exact (proj1 (Hs 1%nat startup_state H)) |].
  split; [exact (proj2 (Hs 1%nat startup_state H)) |].
  exact (Hr 1%nat startup_state 3%nat H).
Defined.

(** ** C2: the sensor-fault check against a stale checkpoint *)

(** C2 does not hold of the code.  Started by [setup] at 10 degrees, the
    heater goes ON in the first pass and stays ON; the checks run in passes
    50, 111 and 172.  The filtered temperature is 20 degrees at the first
    and at the second of these checkpoints, yet no fault is raised at the
    second: the comparison there is against the 10 degrees stored by
    [setup], which the first checkpoint did not refresh.  SensorFault comes
    one interval late, at the third checkpoint. *)
Theorem SensorFault_missed_at_second_checkpoint :
  setup stale_world 1 boot = Some stale_start
  /\ map fst (filter (fun p => pass_checks stale_world (snd p)) stale_run)
     = [50; 111; 172]%nat
  /\ forallb (fun p => (fst p =? 0)%nat || heater_on (snd p)) (firstn 173 stale_run)
     = true
  /\ AverageTemp (state_at 50) = of_Z 20
  /\ AverageTemp (state_at 111) = of_Z 20
  /\ TempLastSafetyCheck (state_at 111) = of_Z 10
  /\ forallb (fun p => is_looping (snd p)) (firstn 173 stale_run) = true
  /\ raised_code (loop stale_world (state_at 172))
     = Some "E1-no T increase"%string.
Proof.
  split; [vm_compute; reflexivity |].
  split; [vm_compute; reflexivity |].
  split; [vm_compute; reflexivity |].
  split; [vm_compute; reflexivity |].
  split; [vm_compute; reflexivity |].
  split; [vm_compute; reflexivity |].
  split; vm_compute; reflexivity.
Qed.

(** ** C5: the moving average *)

(** *** One sample *)

Lemma shift_right_window (v a0 a1 a2 a3 a4 a5 a6 a7 a8 a9 : float) :
  set_nth 0 v (shift_right 9 [a0; a1; a2; a3; a4; a5; a6; a7; a8; a9])
  = [v; a0; a1; a2; a3; a4; a5; a6; a7; a8].
Proof. reflexivity. Qed.

Lemma length_10 {A : Type} (l : list A) :
  length l = 10%nat ->
  exists a0 a1 a2 a3 a4 a5 a6 a7 a8 a9,
    l = [a0; a1; a2; a3; a4; a5; a6; a7; a8; a9].
Proof.
  intros H.
  do 10 (destruct l as [|? l]; [discriminate H |]).
  destruct l; [| discriminate H]. repeat eexists.
Qed.

(** Each call evicts the oldest sample and updates sum and average. *)
Lemma getTemperature_step (W : World) (s : State) :
  length (Measurements s) = 10%nat ->
  let v := tempC_at W (n_temp s) in
  let sum := fadd (fsub (SumMeasurements s) (last (Measurements s) fzero)) v in
  Measurements (getTemperature W s) = v :: removelast (Measurements s)
  /\ SumMeasurements (getTemperature W s) = sum
  /\ AverageTemp (getTemperature W s) = fdiv sum (of_Z 10)
  /\ n_temp (getTemperature W s) = S (n_temp s).
Proof.
  intros Hlen. destruct (length_10 _ Hlen)
    as (a0 & a1 & a2 & a3 & a4 & a5 & a6 & a7 & a8 & a9 & Hm).
  unfold getTemperature, getTempCByIndex. proj_simpl. rewrite Hm.
  repeat split.
Qed.

Lemma history_length {A : Type} (d : A) (f : nat -> A) (n : nat) :
  length (history d f n) = 10%nat.
Proof. reflexivity. Qed.

Lemma history_bound (raw : nat -> Z) (n : nat) :
  (forall i, Z.abs (raw i) <= 2 ^ 20) ->
  Forall (fun z => Z.abs z <= 2 ^ 20) (history 0 raw n).
Proof.
  intros H. unfold history. apply Forall_map, Forall_forall. intros i _.
  destruct (i <? n)%nat; [apply H | cbn; lia].
Qed.

Lemma history_grid (W : World) (raw : nat -> Z) (n : nat) :
  on_grid W raw ->
  history fzero (tempC_at W) n = map grid (history 0 raw n).
Proof.
  intros Hgrid. unfold history. rewrite map_map. apply map_ext.
  intros i. destruct (i <? n)%nat; [apply Hgrid | reflexivity].
Qed.

Lemma history_entry_succ {A : Type} (d : A) (f : nat -> A) (n i : nat) :
  (if (S i <? S n)%nat then f (S n - 1 - S i)%nat else d)
  = (if (i <? n)%nat then f (n - 1 - i)%nat else d).
Proof.
  change (S i <? S n)%nat with (i <? n)%nat.
  destruct (i <? n)%nat eqn:E; [| reflexivity].
  apply Nat.ltb_lt in E. f_equal. lia.
Qed.

Lemma history_succ {A : Type} (d : A) (f : nat -> A) (n : nat) :
  history d f (S n) = f n :: removelast (history d f n).
Proof.
  unfold history. cbn [seq map removelast].
  rewrite !history_entry_succ.
  change (0 <? S n)%nat with true. cbv iota.
  f_equal. f_equal. lia.
Qed.

Lemma window_inv_getTemperature (W : World) (s : State) :
  window_inv W s -> window_inv W (getTemperature W s).
Proof.
  intros (Hm & _).
  assert (Hlen : length (Measurements s) = 10%nat)
    by (rewrite Hm; apply history_length).
  destruct (getTemperature_step W s Hlen) as (Hm' & Hs' & Ha' & Hn').
  split.
  - rewrite Hm', Hn', history_succ, Hm. reflexivity.
  - rewrite Ha', Hs'. reflexivity.
Qed.

Lemma filter_inv_getTemperature (W : World) (raw : nat -> Z) (s : State) :
  on_grid W raw -> filter_inv W raw s -> filter_inv W raw (getTemperature W s).
Proof.
  intros Hgrid [Hw Hs]. split; [apply window_inv_getTemperature; exact Hw |].
  destruct Hw as (Hm & _). unfold sum_inv in *.
  rewrite (history_grid W raw _ Hgrid) in Hm.
  assert (Hlen : length (Measurements s) = 10%nat)
    by (rewrite Hm, length_map; apply history_length).
  destruct (getTemperature_step W s Hlen) as (_ & Hs' & _ & Hn').
  rewrite Hn', history_succ.
  pose proof (history_bound raw (n_temp s) (fun i => proj1 (Hgrid i))) as Hb.
  destruct (Hgrid (n_temp s)) as [Hk Hv].
  destruct (length_10 _ (history_length 0 raw (n_temp s)))
    as (a0 & a1 & a2 & a3 & a4 & a5 & a6 & a7 & a8 & a9 & Hh).
  rewrite Hh in *. rewrite Hm, Hs, Hv in Hs'.
  cbn [map last removelast sumZ fold_right] in *.
  repeat match goal with
         | H : Forall _ (_ :: _) |- _ => inversion H; subst; clear H
         end.
  change (2 ^ 20) with 1048576 in *.
  rewrite fsub_grid in Hs' by (change (2 ^ 24) with 16777216; lia).
  rewrite fadd_grid in Hs' by (change (2 ^ 24) with 16777216; lia).
  rewrite Hs'. f_equal. lia.
Qed.

(** *** The rest of the program leaves the filter alone *)

Lemma same_filter_trans (s1 s2 s3 : State) :
  same_filter s1 s2 -> same_filter s2 s3 -> same_filter s1 s3.
Proof. unfold same_filter. intuition congruence. Qed.

Lemma window_inv_boot (W : World) : window_inv W boot.
Proof. split; reflexivity. Qed.

Lemma window_inv_frame (W : World) (s s' : State) :
  same_filter s s' -> window_inv W s -> window_inv W s'.
Proof.
  intros (Hm & Hs & Ha & Hn) (Im & Ia). unfold window_inv.
  rewrite Hm, Hs, Ha, Hn. auto.
Qed.

Lemma sum_inv_frame (raw : nat -> Z) (s s' : State) :
  same_filter s s' -> sum_inv raw s -> sum_inv raw s'.
Proof.
  intros (Hm & Hs & Ha & Hn) Is. unfold sum_inv. rewrite Hs, Hn. exact Is.
Qed.

Lemma safetyCheck_same_filter (W : World) (s : State) :
  same_filter s (outcome_state (safetyCheck W s)).
Proof.
  unfold safetyCheck. cbv beta iota zeta delta [millis].
  step_prog; repeat split.
Qed.

Lemma read_pot_same_filter (W : World) (n : nat) :
  forall acc s, same_filter s (snd (read_pot W n acc s)).
Proof.
  induction n as [|n IH]; intros acc s; [repeat split |].
  cbn [read_pot]. unfold analogRead.
  eapply same_filter_trans; [| apply IH]. repeat split.
Qed.

Lemma getTargetTemperature_same_filter (W : World) (s : State) :
  same_filter s (getTargetTemperature W s).
Proof.
  unfold getTargetTemperature.
  pose proof (read_pot_same_filter W 10 0 s) as H.
  destruct (read_pot W 10 0 s) as [sum s1]. exact H.
Qed.

Lemma controlHeater_same_filter (W : World) (s : State) :
  same_filter s (controlHeater W s).
Proof. unfold controlHeater. repeat split_if; repeat split. Qed.

Lemma updateLCD_same_filter (s : State) : same_filter s (updateLCD s).
Proof. repeat split. Qed.

Lemma filter_inv_frame (W : World) (raw : nat -> Z) (s s' : State) :
  same_filter s s' -> filter_inv W raw s -> filter_inv W raw s'.
Proof.
  intros H [Hw Hs].
  split; [eapply window_inv_frame | eapply sum_inv_frame]; eassumption.
Qed.

Lemma filter_inv_boot (W : World) (raw : nat -> Z) : filter_inv W raw boot.
Proof. split; [apply window_inv_boot | reflexivity]. Qed.

Lemma n_temp_getTemperature (W : World) (s : State) :
  n_temp (getTemperature W s) = S (n_temp s).
Proof. reflexivity. Qed.

(** Any property of the filter that survives a sample and ignores the rest
    of the state holds throughout a run. *)
Section FilterInvariant.

Variable W : World.
Variable Inv : State -> Prop.
Hypothesis Inv_frame : forall s s', same_filter s s' -> Inv s -> Inv s'.
Hypothesis Inv_sample : forall s, Inv s -> Inv (getTemperature W s).

Lemma loop_warmed_up (s : State) :
  warmed_up Inv s -> warmed_up Inv (outcome_state (loop W s)).
Proof.
  intros [Hinv Hn].
  assert (H0 : same_filter s (pass_entry W s)) by repeat split.
  pose proof (safetyCheck_same_filter W (pass_entry W s)) as H1.
  pose proof (same_filter_trans _ _ _ H0 H1) as H01.
  rewrite loop_unfold.
  destruct (safetyCheck W (pass_entry W s)) as [s1 | h]; cbn [outcome_state] in *.
  - pose proof (same_filter_trans _ _ _ H01 (getTargetTemperature_same_filter W s1))
      as H2.
    pose proof (same_filter_trans _ _ _
                  (controlHeater_same_filter W _)
                  (updateLCD_same_filter (controlHeater W
                     (getTemperature W (getTargetTemperature W s1))))) as H3.
    split.
    + eapply Inv_frame; [exact H3 |]. apply Inv_sample.
      eapply Inv_frame; eassumption.
    + destruct H3 as (_ & _ & _ & H3n). destruct H2 as (_ & _ & _ & H2n).
      rewrite H3n, n_temp_getTemperature. lia.
  - split; [eapply Inv_frame; eassumption |].
    destruct H01 as (_ & _ & _ & Hh). lia.
Qed.

Lemma ticks_warmed_up (n : nat) :
  forall m, warmed_up Inv (machine_state m) ->
            warmed_up Inv (machine_state (ticks W n m)).
Proof.
  induction n as [|n IH]; intros m Hm; [exact Hm |].
  cbn [ticks]. apply IH. destruct m as [s | s]; cbn [tick machine_state] in *.
  - pose proof (loop_warmed_up s Hm) as H.
    destruct (loop W s); exact H.
  - destruct Hm as [Hi Hn]. split; [| exact Hn].
    eapply Inv_frame; [| exact Hi]. repeat split.
Qed.

Lemma busy_wait_same_filter (fuel : nat) (d : Z) (s s' : State) :
  busy_wait W fuel d s = Some s' -> same_filter s s'.
Proof.
  intros H.
  apply (busy_wait_preserves W (same_filter s)) with (fuel := fuel)
    (deadline := d) (s := s); [| exact H | repeat split].
  intros t Ht. eapply same_filter_trans; [exact Ht | repeat split].
Qed.

Lemma initHeater_rounds_filter (fuel n : nat) :
  forall s s',
    initHeater_rounds W fuel n s = Some s' ->
    Inv s -> Inv s' /\ n_temp s' = (n_temp s + n)%nat.
Proof.
  induction n as [|n IH]; intros s s' H Hinv.
  - injection H as <-. split; [exact Hinv | lia].
  - cbn [initHeater_rounds] in H. cbv beta iota zeta delta [millis] in H.
    match type of H with context [busy_wait W fuel ?d ?t] =>
      destruct (busy_wait W fuel d t) as [s3|] eqn:Hb; [| discriminate H];
      pose proof (busy_wait_same_filter fuel d t s3 Hb) as Hsame;
      assert (Ht : Inv t /\ n_temp t = S (n_temp s))
    end.
    { split; [| reflexivity].
      apply Inv_sample. eapply Inv_frame; [| exact Hinv]. repeat split. }
    destruct Ht as [Ht Hn].
    destruct (IH s3 s' H) as [Hi' Hn']; [eapply Inv_frame; eassumption |].
    split; [exact Hi' |].
    destruct Hsame as (_ & _ & _ & Hs3). lia.
Qed.

Lemma setup_warmed_up (fuel : nat) (s0 : State) :
  Inv boot -> setup W fuel boot = Some s0 -> warmed_up Inv s0.
Proof.
  intros Hboot. unfold setup, initHeater.
  match goal with |- context [initHeater_rounds W fuel ?n ?s] =>
    destruct (initHeater_rounds W fuel n s) as [s1|] eqn:Hi; [| discriminate];
    destruct (initHeater_rounds_filter fuel n s s1 Hi) as [H1 H2];
      [eapply Inv_frame; [| exact Hboot]; repeat split |]
  end.
  intros H. injection H as <-.
  split; [eapply Inv_frame; [| exact H1]; repeat split |].
  change (n_temp s1 >= 10)%nat. rewrite H2. unfold NumberOfMeasurements. lia.
Qed.

Lemma run_warmed_up (fuel : nat) (s0 : State) (n : nat) :
  Inv boot -> setup W fuel boot = Some s0 ->
  warmed_up Inv (machine_state (ticks W n (Looping s0))).
Proof.
  intros Hboot Hsetup. apply ticks_warmed_up.
  apply (setup_warmed_up fuel); assumption.
Qed.

End FilterInvariant.

(** *** What the invariant says after warm-up *)


Lemma history_full {A : Type} (d : A) (f : nat -> A) (n : nat) :
  (10 <= n)%nat ->
  history d f n = map (fun i => f (n - 1 - i)%nat) (seq 0 10).
Proof.
  intros Hn. unfold history. apply map_ext_in. intros i Hi.
  apply in_seq in Hi.
  replace (i <? n)%nat with true by (symmetry; apply Nat.ltb_lt; lia).
  reflexivity.
Qed.




(** * Further properties of the sketch *)

(** ** The fault tests of the safety check *)

Ltac rewrite_tests :=
  repeat match goal with
         | H : ?c = true |- context [?c] => rewrite H
         | H : ?c = false |- context [?c] => rewrite H
         end.

(** X1: the fault tests of [safetyCheck] run in the order E1, E2, E4, E3,
    E5 and the first one that holds decides the code on the display; each
    test sees the values the state had on entry (the ambient temperature is
    read afresh), and the call halts exactly when one of them holds. *)
Theorem safetyCheck_fault_order (W : World) (s : State) :
  raised_code (safetyCheck W s) = expected_fault W s
  /\ (is_halted (safetyCheck W s) = true <-> expected_fault W s <> None).
Proof.
  unfold expected_fault.
  destruct (check_due W s) eqn:G; unfold check_due in G.
  2:{ rewrite safetyCheck_gate_closed by exact G. cbn.
      split; [reflexivity | split; [discriminate | congruence]]. }
  unfold safetyCheck, next_millis in *. cbv beta iota zeta delta [millis].
  proj_simpl. rewrite G.
  step_prog; proj_simpl_upto_abort; rewrite ?raised_code_abort;
    unfold fault_tests, continuous_on, heater_on_elapsed, next_millis;
    rewrite_tests; cbn [andb first_raised is_halted raised_code];
    (split; [reflexivity
            | split; [discriminate || congruence | congruence || reflexivity]]).
Qed.

(** ** Frames of the steps of a pass *)

Lemma read_pot_frame (W : World) (n : nat) :
  forall acc s, exists pot,
    snd (read_pot W n acc s)
    = emit pot (set_counters (n_millis s) (n_analog s + n) (n_temp s)
                  (n_dht s) s)
    /\ forallb is_pot_event pot = true.
Proof.
  induction n as [|n IH]; intros acc s.
  - exists []. split; [| reflexivity].
    destruct s. unfold emit, set_counters. cbn.
    rewrite app_nil_r, Nat.add_0_r. reflexivity.
  - cbn [read_pot]. unfold analogRead.
    match goal with |- context [read_pot W n ?a ?t] =>
      destruct (IH a t) as (pot & -> & Hf) end.
    exists (AnalogRead POTMETER_PIN (int16 (analog_at W (n_analog s))) :: pot).
    split; [| exact Hf].
    destruct s. unfold emit, set_counters. cbn.
    rewrite <- app_assoc, Nat.add_succ_r. reflexivity.
Qed.

Lemma getTargetTemperature_frame (W : World) (s : State) :
  exists v pot,
    getTargetTemperature W s
    = set_TargetTemperature v
        (emit pot (set_counters (n_millis s) (n_analog s + 10) (n_temp s)
                     (n_dht s) s))
    /\ forallb is_pot_event pot = true.
Proof.
  unfold getTargetTemperature.
  destruct (read_pot_frame W 10 0 s) as (pot & H & Hf).
  destruct (read_pot W 10 0 s) as [sum s1]. cbn [snd] in H. subst s1.
  eexists; eexists; split; [reflexivity | exact Hf].
Qed.

Lemma loop_Running (W : World) (s s' : State) :
  loop W s = Running s' ->
  exists s1,
    safetyCheck W (pass_entry W s) = Running s1
    /\ s' = updateLCD (controlHeater W (getTemperature W
                         (getTargetTemperature W s1))).
Proof.
  rewrite loop_unfold.
  destruct (safetyCheck W (pass_entry W s)) as [s1 | h]; [| discriminate].
  intros H. injection H as <-. exists s1. split; reflexivity.
Qed.

(** The three ways through [controlHeater]. *)
Lemma controlHeater_cases (W : World) (s : State) :
  (controlHeater W s = changeHeaterStatus W ON s
   /\ HeaterStatus s = OFF
   /\ fltb (fadd (AverageTemp s) lit_0_25) (TargetTemperature s) = true)
  \/ (controlHeater W s = changeHeaterStatus W OFF s
      /\ HeaterStatus s = ON
      /\ fleb (TargetTemperature s) (AverageTemp s) = true)
  \/ controlHeater W s = s.
Proof.
  unfold controlHeater.
  destruct (fltb _ _ && (HeaterStatus s =? OFF)) eqn:E1.
  - left. apply andb_prop in E1. destruct E1 as [Hc Hs].
    apply Z.eqb_eq in Hs. auto.
  - destruct ((HeaterStatus s =? ON) && fleb _ _) eqn:E2.
    + right; left. apply andb_prop in E2. destruct E2 as [Hs Hc].
      apply Z.eqb_eq in Hs. auto.
    + right; right. reflexivity.
Qed.

(** Invariants of the machine: what every step of a pass and the alert
    loop preserve holds along the whole run. *)
Section MachineInvariant.

Variable W : World.
Variable Inv : State -> Prop.
Hypothesis Inv_entry : forall s, Inv s -> Inv (pass_entry W s).
Hypothesis Inv_safetyCheck :
  forall s, Inv s -> Inv (outcome_state (safetyCheck W s)).
Hypothesis Inv_getTargetTemperature :
  forall s, Inv s -> Inv (getTargetTemperature W s).
Hypothesis Inv_getTemperature : forall s, Inv s -> Inv (getTemperature W s).
Hypothesis Inv_controlHeater : forall s, Inv s -> Inv (controlHeater W s).
Hypothesis Inv_updateLCD : forall s, Inv s -> Inv (updateLCD s).
Hypothesis Inv_alert : forall s, Inv s -> Inv (alert_iteration s).

Lemma loop_invariant (s : State) : Inv s -> Inv (outcome_state (loop W s)).
Proof.
  intros Hs. rewrite loop_unfold.
  pose proof (Inv_safetyCheck _ (Inv_entry _ Hs)) as H1.
  destruct (safetyCheck W (pass_entry W s)) as [s1 | h];
    cbn [outcome_state] in *; [| exact H1].
  auto.
Qed.

Lemma ticks_invariant (n : nat) :
  forall m, Inv (machine_state m) -> Inv (machine_state (ticks W n m)).
Proof.
  induction n as [|n IH]; intros m Hm; [exact Hm |].
  cbn [ticks]. apply IH. destruct m as [s | s]; cbn [tick machine_state] in *.
  - pose proof (loop_invariant s Hm) as H. destruct (loop W s); exact H.
  - auto.
Qed.

End MachineInvariant.

(** ** Relay outputs and the display *)

Lemma outputs_safetyCheck (W : World) (s : State) :
  outputs_mirrored s /\ status_valid s ->
  outputs_mirrored (outcome_state (safetyCheck W s))
  /\ status_valid (outcome_state (safetyCheck W s)).
Proof.
  intros [[Hh Hp] [Vh Vp]].
  destruct (safetyCheck W s) as [s1 | h] eqn:Hc; cbn [outcome_state].
  - destruct (safetyCheck_Running_frame W s s1 Hc) as (H1 & H2 & _ & H3).
    unfold outputs_mirrored, status_valid. rewrite H1, H2, H3. auto.
  - destruct (safetyCheck_Halted W s h Hc) as (code & s0 & _ & ->).
    destruct (abort_state_spec W code s0) as [(A1 & A2 & A3 & A4) _].
    unfold outputs_mirrored, status_valid. rewrite A1, A2, A3, A4. auto.
Qed.

Lemma outputs_controlHeater (W : World) (s : State) :
  outputs_mirrored s /\ status_valid s ->
  outputs_mirrored (controlHeater W s) /\ status_valid (controlHeater W s).
Proof.
  intros [[Hh Hp] [Vh Vp]].
  destruct (controlHeater_cases W s) as [(-> & _) | [(-> & _) | ->]];
    unfold outputs_mirrored, status_valid; proj_simpl; auto.
Qed.

Lemma outputs_getTargetTemperature (W : World) (s : State) :
  outputs_mirrored s /\ status_valid s ->
  outputs_mirrored (getTargetTemperature W s)
  /\ status_valid (getTargetTemperature W s).
Proof.
  destruct (getTargetTemperature_frame W s) as (v & pot & -> & _).
  intros H; exact H.
Qed.

Lemma outputs_setup (W : World) (fuel : nat) (s0 : State) :
  setup W fuel boot = Some s0 -> outputs_mirrored s0 /\ status_valid s0.
Proof.
  unfold setup, initHeater.
  match goal with |- context [initHeater_rounds W fuel ?n ?s] =>
    destruct (initHeater_rounds W fuel n s) as [s1|] eqn:Hi; [| discriminate];
    apply (initHeater_rounds_preserves W
             (fun t => pin_level t HEATER_PIN = OFF /\ HeaterStatus t = OFF
                       /\ pin_level t PUMP_PIN = ON)) in Hi
  end.
  - intros H. injection H as <-. destruct Hi as (H1 & H2 & H3).
    unfold outputs_mirrored, status_valid, initDashboard. proj_simpl.
    rewrite H1, H2, H3. auto.
  - intros t Ht. exact Ht.
  - intros t Ht. exact Ht.
  - repeat split.
Qed.

(** X2: in every state the program reaches from reset, the status
    variables of heater and pump are ON or OFF and equal the levels on the
    relay pins. *)
Theorem outputs_mirror_status (W : World) (fuel : nat) (s0 : State)
  (Hsetup : setup W fuel boot = Some s0) (n : nat) :
  let s := machine_state (ticks W n (Looping s0)) in
  outputs_mirrored s /\ status_valid s.
Proof.
  apply (ticks_invariant W (fun s => outputs_mirrored s /\ status_valid s)).
  - intros s H. exact H.
  - apply outputs_safetyCheck.
  - apply outputs_getTargetTemperature.
  - intros s H. exact H.
  - apply outputs_controlHeater.
  - intros s H. exact H.
  - intros s H. exact H.
  - cbn [machine_state]. eapply outputs_setup. exact Hsetup.
Qed.

Lemma outputs_mirror_status_witness :
  let s := machine_state (ticks stale_world 2 (Looping stale_start)) in
  setup stale_world 1 boot = Some stale_start
  /\ HeaterStatus s = ON
  /\ outputs_mirrored s.
Proof.
  intros s.
  assert (Hs : setup stale_world 1 boot = Some stale_start)
    by (vm_compute; reflexivity).
  split; [exact Hs |]. split; [vm_compute; reflexivity |].
  exact (proj1 (outputs_mirror_status stale_world 1%nat stale_start Hs 2%nat)).
Defined.

Lemma getTemperature_frame (W : World) (s : State) :
  exists ms sum avg,
    getTemperature W s
    = set_filter ms sum avg
        (emit [RequestTemperatures; GetTempCByIndex 0 (tempC_at W (n_temp s))]
           (set_counters (n_millis s) (n_analog s) (S (n_temp s)) (n_dht s) s)).
Proof.
  unfold getTemperature, getTempCByIndex.
  do 3 eexists. unfold set_filter, emit, set_counters. proj_simpl.
  rewrite <- app_assoc. reflexivity.
Qed.

(** What a safety check that returns leaves alone, and what it reads. *)
Lemma safetyCheck_Running_controls (W : World) (s s1 : State) :
  safetyCheck W s = Running s1 ->
  TargetTemperature s1 = TargetTemperature s
  /\ MaxHeaterOnTime s1 = MaxHeaterOnTime s
  /\ RunTime s1 = RunTime s
  /\ TimeHeaterOn s1 = TimeHeaterOn s
  /\ n_analog s1 = n_analog s
  /\ n_temp s1 = n_temp s
  /\ n_dht s1 = (n_dht s + if check_due W s then 1 else 0)%nat
  /\ n_millis s1 = (n_millis s + 1 + if check_due W s then 1 else 0)%nat.
Proof.
  unfold check_due.
  destruct (next_millis W s >? ulong (TimeLastSafetyCheck s + 120000)) eqn:G.
  2:{ rewrite safetyCheck_gate_closed by exact G. intros H. injection H as <-.
      proj_simpl. repeat split; lia. }
  unfold safetyCheck, next_millis in *. cbv beta iota zeta delta [millis].
  proj_simpl. rewrite G.
  intros H. step_prog; try discriminate H; injection H as <-; proj_simpl;
    repeat split; lia.
Qed.

Lemma safetyCheck_Halted_reads (W : World) (s h : State) :
  safetyCheck W s = Halted h ->
  check_due W s = true
  /\ n_analog h = n_analog s /\ n_temp h = n_temp s
  /\ n_millis h = (n_millis s + 3)%nat
  /\ (n_dht h <= S (n_dht s))%nat.
Proof.
  unfold check_due.
  destruct (next_millis W s >? ulong (TimeLastSafetyCheck s + 120000)) eqn:G.
  2:{ rewrite safetyCheck_gate_closed by exact G. discriminate. }
  unfold safetyCheck, next_millis in *. cbv beta iota zeta delta [millis].
  proj_simpl. rewrite G.
  intros H. step_prog; try discriminate H; injection H as <-; proj_simpl;
    repeat split; lia.
Qed.

Lemma filter_none {A : Type} (P Q : A -> bool) (l : list A) :
  (forall e, P e = true -> Q e = false) ->
  forallb P l = true -> filter Q l = [].
Proof.
  intros HPQ. induction l as [|e l IH]; [reflexivity |].
  cbn [forallb filter]. intros H. apply andb_prop in H. destruct H as [He Hl].
  rewrite (HPQ e He). apply IH. exact Hl.
Qed.

Lemma check_event_not_heater_write (e : Event) :
  is_check_event e = true -> is_heater_write e = false.
Proof. destruct e; try discriminate; reflexivity. Qed.

Lemma pot_event_not_heater_write (e : Event) :
  is_pot_event e = true -> is_heater_write e = false.
Proof. destruct e; try discriminate; reflexivity. Qed.

Lemma lcd_event_not_heater_write (e : Event) :
  is_lcd_event e = true -> is_heater_write e = false.
Proof. destruct e; try discriminate; reflexivity. Qed.

Lemma updateLCD_frame (s : State) :
  exists lcd, updateLCD s = emit lcd s /\ forallb is_lcd_event lcd = true.
Proof.
  unfold updateLCD. eexists. split; [reflexivity |].
  cbn. repeat split_if; reflexivity.
Qed.

(** X3: in a pass of [loop] that returns, the heater relay is written at
    most once, and only to change its level: the events of the pass hold
    no write to the heater pin if [HeaterStatus] is the same at both ends
    (the timer [TimeHeaterOn] is then left alone), and otherwise exactly
    one, of the new status, after which the timer holds the last clock
    value read in the pass. *)
Theorem loop_heater_switch (W : World) (s s' : State)
  (Hpass : loop W s = Running s') :
  exists evs,
    trace s' = trace s ++ evs
    /\ filter is_heater_write evs
       = (if HeaterStatus s' =? HeaterStatus s then []
          else [DigitalWrite HEATER_PIN (HeaterStatus s')])
    /\ (HeaterStatus s' = HeaterStatus s -> TimeHeaterOn s' = TimeHeaterOn s)
    /\ (HeaterStatus s' <> HeaterStatus s ->
        TimeHeaterOn s' = ulong (millis_at W (pred (n_millis s')))).
Proof.
  destruct (loop_Running W s s' Hpass) as (s1 & Hc & ->).
  destruct (safetyCheck_Running_trace W _ s1 Hc) as (t1 & chk & Ht1 & Hchk).
  destruct (safetyCheck_Running_frame W _ s1 Hc) as (Hh1 & _ & _ & _).
  destruct (safetyCheck_Running_controls W _ s1 Hc)
    as (_ & _ & _ & Hon1 & _).
  destruct (getTargetTemperature_frame W s1) as (v & pot & -> & Hpot).
  match goal with |- context [getTemperature W ?t] =>
    destruct (getTemperature_frame W t) as (ms & sum & avg & ->) end.
  pose proof (filter_none _ _ chk check_event_not_heater_write Hchk) as Fchk.
  pose proof (filter_none _ _ pot pot_event_not_heater_write Hpot) as Fpot.
  unfold pass_entry in Ht1, Hh1, Hon1. proj_simpl.
  match goal with |- context [updateLCD ?t] =>
    destruct (updateLCD_frame t) as (lcd & -> & Hlcd) end.
  pose proof (filter_none _ _ lcd lcd_event_not_heater_write Hlcd) as Flcd.
  match goal with |- context [controlHeater W ?t] =>
    destruct (controlHeater_cases W t) as [(-> & Hs & _) | [(-> & Hs & _) | ->]]
  end; proj_simpl; rewrite Ht1; rewrite <- ?app_assoc;
    (eexists; split; [reflexivity |]);
    rewrite ?filter_app, Fpot, Flcd; cbn [filter is_heater_write app];
    rewrite Fchk; cbn [app];
    rewrite <- Hh1, ?Hs.
  - change (HEATER_PIN =? HEATER_PIN) with true. cbn [app].
    split; [reflexivity |]. split; [discriminate |]. intros _.
    reflexivity.
  - change (HEATER_PIN =? HEATER_PIN) with true. cbn [app].
    split; [reflexivity |]. split; [discriminate |]. intros _.
    reflexivity.
  - rewrite Z.eqb_refl.
    split; [reflexivity |]. split; [intros _; exact Hon1 | congruence].
Qed.

Lemma loop_heater_switch_witness :
  let s' := outcome_state (loop stale_world stale_start) in
  loop stale_world stale_start = Running s'
  /\ HeaterStatus stale_start = OFF /\ HeaterStatus s' = ON
  /\ exists evs,
       trace s' = trace stale_start ++ evs
       /\ filter is_heater_write evs
          = (if HeaterStatus s' =? HeaterStatus stale_start then []
             else [DigitalWrite HEATER_PIN (HeaterStatus s')])
       /\ (HeaterStatus s' = HeaterStatus stale_start ->
           TimeHeaterOn s' = TimeHeaterOn stale_start)
       /\ (HeaterStatus s' <> HeaterStatus stale_start ->
           TimeHeaterOn s'
           = ulong (millis_at stale_world (pred (n_millis s')))).
Proof.
  intros s'.
  split; [vm_compute; reflexivity |].
  split; [vm_compute; reflexivity |].
  split; [vm_compute; reflexivity |].
  apply loop_heater_switch. vm_compute. reflexivity.
Defined.

(** X4: the hardware reads of a pass.  A pass that returns takes one
    temperature sample and ten potentiometer readings; it reads the
    ambient sensor once if the safety check is due and not at all
    otherwise; it reads the clock twice, once more for a due check and once
    more if the heater is switched.  A pass that ends in a fault was due
    for its check, takes no sample and no potentiometer reading, and reads
    the clock four times. *)
Theorem loop_hardware_reads (W : World) (s : State) :
  let due := check_due W (pass_entry W s) in
  match loop W s with
  | Running s' =>
      n_temp s' = S (n_temp s)
      /\ n_analog s' = (n_analog s + 10)%nat
      /\ n_dht s' = (n_dht s + if due then 1 else 0)%nat
      /\ n_millis s'
         = (n_millis s + 2 + (if due then 1 else 0)
            + (if (HeaterStatus s' =? HeaterStatus s)%Z then 0 else 1))%nat
  | Halted h =>
      due = true
      /\ n_temp h = n_temp s /\ n_analog h = n_analog s
      /\ n_millis h = (n_millis s + 4)%nat
      /\ (n_dht h <= S (n_dht s))%nat
  end.
Proof.
  intros due. subst due. rewrite loop_unfold.
  destruct (safetyCheck W (pass_entry W s)) as [s1 | h] eqn:Hc.
  - destruct (safetyCheck_Running_controls W _ s1 Hc)
      as (_ & _ & _ & _ & Ha & Ht & Hd & Hm).
    destruct (safetyCheck_Running_frame W _ s1 Hc) as (Hh1 & _ & _ & _).
    destruct (check_due W (pass_entry W s));
      unfold pass_entry in Ha, Ht, Hd, Hm, Hh1; proj_simpl;
      destruct (getTargetTemperature_frame W s1) as (v & pot & -> & _);
      match goal with |- context [getTemperature W ?t] =>
        destruct (getTemperature_frame W t) as (ms & sum & avg & ->) end;
      match goal with |- context [updateLCD ?t] =>
        destruct (updateLCD_frame t) as (lcd & -> & _) end;
      match goal with |- context [controlHeater W ?t] =>
        destruct (controlHeater_cases W t)
          as [(-> & Hs & _) | [(-> & Hs & _) | ->]]
      end; proj_simpl; rewrite <- Hh1, ?Hs, ?Z.eqb_refl;
      cbn [Z.eqb ON OFF]; repeat split; lia.
  - destruct (safetyCheck_Halted_reads W _ h Hc) as (Hd & Ha & Ht & Hm & Hdh).
    unfold pass_entry in Ha, Ht, Hm, Hdh. proj_simpl.
    repeat split; try assumption; lia.
Qed.

Lemma ticks_succ_r (W : World) (n : nat) :
  forall m, ticks W (S n) m = tick W (ticks W n m).
Proof.
  induction n as [|n IH]; intros m; [reflexivity |].
  cbn [ticks] in *. rewrite <- IH. reflexivity.
Qed.

(** Before a pass that left the machine looping, it was looping. *)
Lemma ticks_last_pass (W : World) (n : nat) (m : Machine) (s' : State) :
  ticks W (S n) m = Looping s' ->
  exists s, ticks W n m = Looping s /\ loop W s = Running s'.
Proof.
  rewrite ticks_succ_r. destruct (ticks W n m) as [s | h]; cbn [tick].
  - destruct (loop W s) as [s1 | h] eqn:Hl; [| discriminate].
    intros H. injection H as <-. exists s. auto.
  - discriminate.
Qed.

Lemma outputs_getTemperature (W : World) (s : State) :
  outputs_mirrored s /\ status_valid s ->
  outputs_mirrored (getTemperature W s) /\ status_valid (getTemperature W s).
Proof.
  destruct (getTemperature_frame W s) as (ms & sum & avg & ->).
  intros H; exact H.
Qed.

Lemma loop_dashboard (W : World) (s s' : State) :
  outputs_mirrored s /\ status_valid s ->
  loop W s = Running s' ->
  exists pre, trace s' = pre ++ dashboard s'.
Proof.
  intros Hs Hpass.
  destruct (loop_Running W s s' Hpass) as (s1 & Hc & ->).
  assert (H1 : outputs_mirrored s1 /\ status_valid s1).
  { pose proof (outputs_safetyCheck W (pass_entry W s) Hs) as H.
    rewrite Hc in H. exact H. }
  apply (outputs_getTargetTemperature W) in H1.
  apply (outputs_getTemperature W) in H1.
  apply (outputs_controlHeater W) in H1.
  match goal with |- context [controlHeater W ?t] =>
    set (s4 := controlHeater W t) in *
  end.
  destruct H1 as [[Hh Hp] _].
  exists (trace s4). unfold updateLCD, dashboard. proj_simpl.
  rewrite Hh, Hp. reflexivity.
Qed.

(** X5: whenever the machine is still looping after a pass, the last ten
    events are the dashboard of the state it is in: setpoint, average,
    run time, and a heater and a pump icon that are drawn exactly when the
    relay pin carries the ON level. *)
Theorem display_shows_outputs (W : World) (fuel : nat) (s0 : State)
  (Hsetup : setup W fuel boot = Some s0) (n : nat) (s' : State)
  (Hlooping : ticks W (S n) (Looping s0) = Looping s') :
  exists pre, trace s' = pre ++ dashboard s'.
Proof.
  destruct (ticks_last_pass W n _ s' Hlooping) as (s & Hn & Hpass).
  apply (loop_dashboard W s s'); [| exact Hpass].
  pose proof (ticks_invariant W (fun s => outputs_mirrored s /\ status_valid s))
    as Hinv.
  specialize (Hinv (fun s H => H) (outputs_safetyCheck W)
                (outputs_getTargetTemperature W) (fun s H => H)
                (outputs_controlHeater W) (fun s H => H) (fun s H => H)
                n (Looping s0)).
  rewrite Hn in Hinv. apply Hinv. cbn [machine_state].
  eapply outputs_setup. exact Hsetup.
Qed.

Lemma display_shows_outputs_witness :
  let s' := machine_state (ticks stale_world 2 (Looping stale_start)) in
  setup stale_world 1 boot = Some stale_start
  /\ ticks stale_world 2 (Looping stale_start) = Looping s'
  /\ exists pre, trace s' = pre ++ dashboard s'.
Proof.
  intros s'.
  assert (Hs : setup stale_world 1 boot = Some stale_start)
    by (vm_compute; reflexivity).
  assert (Hl : ticks stale_world 2 (Looping stale_start) = Looping s')
    by (vm_compute; reflexivity).
  split; [exact Hs |]. split; [exact Hl |].
  exact (display_shows_outputs stale_world 1%nat stale_start Hs 1%nat s' Hl).
Defined.

(** ** The setpoint reader and the heater controller *)

Ltac order_cases :=
  repeat match goal with
         | |- context [Pos.compare_cont Eq ?p ?q] =>
             change (Pos.compare_cont Eq p q) with (Pos.compare p q)
         | H : context [Pos.compare_cont Eq ?p ?q] |- _ =>
             change (Pos.compare_cont Eq p q) with (Pos.compare p q) in H
         end;
  repeat match goal with
         | H : context [Z.compare ?x ?y] |- _ =>
             destruct (Z.compare_spec x y); cbn in H
         | H : context [Pos.compare ?x ?y] |- _ =>
             destruct (Pos.compare_spec x y); cbn in H
         end;
  try discriminate;
  repeat match goal with
         | |- context [Z.compare ?x ?y] =>
             destruct (Z.compare_spec x y); cbn
         | |- context [Pos.compare ?x ?y] =>
             destruct (Pos.compare_spec x y); cbn
         end;
  try reflexivity; try discriminate; try (exfalso; subst; lia).

(** The order of binary32 is transitive. *)
Lemma fltb_fleb_trans (a b c : float) :
  fltb a b = true -> fleb b c = true -> fltb a c = true.
Proof.
  unfold fltb, fleb, SFltb, SFleb.
  destruct a as [sa | sa | | sa ma ea], b as [sb | sb | | sb mb eb],
    c as [sc | sc | | sc mc ec]; cbn;
    try discriminate; try reflexivity;
    repeat match goal with s : bool |- _ => destruct s end; cbn;
    try discriminate; try reflexivity;
    intros H1 H2; order_cases.
Qed.

Lemma setpoint_below_MaxTemp_all : check_below 71 setpoint_below_MaxTemp = true.
Proof. vm_compute. reflexivity. Qed.

Lemma HeaterStatus_abort_state (W : World) (code : string) (s : State) :
  HeaterStatus (abort_state W code s) = OFF.
Proof. reflexivity. Qed.

(** X6: a pass of [loop] that finds the heater not ON and leaves it ON
    has returned, and its controller saw the average more than a quarter of
    a degree below the setpoint; for potentiometer readings in the range of
    the ADC the average was then also more than a quarter below [MaxTemp].
    The safety check itself never switches the heater on. *)
Theorem heater_switched_on_only_when_cold (W : World) (s : State)
  (Hoff : HeaterStatus s <> ON)
  (Hon : HeaterStatus (outcome_state (loop W s)) = ON) :
  exists s',
    loop W s = Running s'
    /\ fltb (fadd (AverageTemp s') lit_0_25) (TargetTemperature s') = true
    /\ (adc_in_range W s ->
        fltb (fadd (AverageTemp s') lit_0_25) (of_Z MaxTemp) = true).
Proof.
  rewrite loop_unfold in *.
  destruct (safetyCheck W (pass_entry W s)) as [s1 | h] eqn:Hc;
    cbn [outcome_state] in Hon.
  2:{ destruct (safetyCheck_Halted W _ h Hc) as (code & s0 & _ & ->).
      rewrite HeaterStatus_abort_state in Hon. discriminate Hon. }
  destruct (safetyCheck_Running_frame W _ s1 Hc) as (Hh1 & _ & _ & _).
  destruct (safetyCheck_Running_controls W _ s1 Hc)
    as (_ & _ & _ & _ & Ha & _).
  unfold pass_entry in Hh1, Ha. proj_simpl.
  eexists. split; [reflexivity |].
  assert (HT : adc_in_range W s ->
               exists k, 2 * MinTemp <= k <= 2 * MaxTemp
                         /\ TargetTemperature (getTargetTemperature W s1)
                            = half_degrees k).
  { intros Hadc. apply getTargetTemperature_half_degrees.
    rewrite Ha. exact Hadc. }
  destruct (getTargetTemperature_frame W s1) as (v & pot & Heq & _).
  rewrite Heq in *. clear Heq. proj_simpl.
  match goal with |- context [getTemperature W ?t] =>
    destruct (getTemperature_frame W t) as (ms & sum & avg & Heq) end.
  rewrite Heq in *. clear Heq.
  match goal with |- context [updateLCD ?t] =>
    destruct (updateLCD_frame t) as (lcd & Heq & _) end.
  rewrite Heq in *. clear Heq.
  match goal with |- context [controlHeater W ?t] =>
    destruct (controlHeater_cases W t)
      as [(Heq & _ & Hcold) | [(Heq & _) | Heq]]
  end; rewrite Heq in *; clear Heq; proj_simpl;
    [| discriminate Hon | congruence].
  split; [exact Hcold |].
  intros Hadc. destruct (HT Hadc) as (k & Hk & ->).
  eapply fltb_fleb_trans; [exact Hcold |].
  pose proof (check_below_spec _ _ setpoint_below_MaxTemp_all k) as Hle.
  unfold setpoint_below_MaxTemp, MinTemp, MaxTemp in *.
  specialize (Hle ltac:(lia)).
  apply orb_prop in Hle. destruct Hle as [Hle | Hle]; [| exact Hle].
  apply Z.ltb_lt in Hle. lia.
Qed.

Lemma heater_switched_on_only_when_cold_witness :
  HeaterStatus stale_start <> ON
  /\ HeaterStatus (outcome_state (loop stale_world stale_start)) = ON
  /\ exists s',
       loop stale_world stale_start = Running s'
       /\ fltb (fadd (AverageTemp s') lit_0_25) (TargetTemperature s') = true
       /\ (adc_in_range stale_world stale_start ->
           fltb (fadd (AverageTemp s') lit_0_25) (of_Z MaxTemp) = true).
Proof.
  assert (H1 : HeaterStatus stale_start <> ON)
    by (vm_compute; intros H; discriminate H).
  assert (H2 : HeaterStatus (outcome_state (loop stale_world stale_start)) = ON)
    by (vm_compute; reflexivity).
  split; [exact H1 |]. split; [exact H2 |].
  exact (heater_switched_on_only_when_cold stale_world stale_start H1 H2).
Defined.

Lemma setpoint_step_ok_all : check_below 1024 setpoint_step_ok = true.
Proof. vm_compute. reflexivity. Qed.

Lemma half_degrees_ordered_all : check_below 71 half_degrees_ordered = true.
Proof. vm_compute. reflexivity. Qed.

Lemma setpoint_selectable_all : check_below 71 setpoint_selectable = true.
Proof. vm_compute. reflexivity. Qed.

Lemma setpoint_step (a : Z) :
  0 <= a <= 1023 ->
  half_degree_tenths a <= half_degree_tenths (a + 1)
  /\ (half_degree_tenths a = MinTemp * 10 <-> a <= 3)
  /\ (half_degree_tenths a = MaxTemp * 10 <-> 1010 <= a).
Proof.
  intros Ha.
  pose proof (check_below_spec _ _ setpoint_step_ok_all a ltac:(lia)) as H.
  unfold setpoint_step_ok in H.
  repeat (apply andb_prop in H; destruct H as [H ?]).
  repeat match goal with
         | H : _ || _ = true |- _ => apply orb_prop in H
         end.
  rewrite ?negb_true_iff, ?Z.eqb_eq, ?Z.eqb_neq, ?Z.leb_le, ?Z.ltb_lt in *.
  repeat split; try lia; intros; try tauto; lia.
Qed.

Lemma half_degree_tenths_monotone (a : Z) (n : nat) :
  0 <= a -> a + Z.of_nat n <= 1023 ->
  half_degree_tenths a <= half_degree_tenths (a + Z.of_nat n).
Proof.
  intros Ha. induction n as [|n IH]; intros Hb.
  - rewrite Z.add_0_r. lia.
  - rewrite Nat2Z.inj_succ in *.
    replace (a + Z.succ (Z.of_nat n)) with (a + Z.of_nat n + 1) by lia.
    destruct (setpoint_step (a + Z.of_nat n) ltac:(lia)) as [Hs _]. lia.
Qed.

(** The stored setpoint, in tenths and in half degrees. *)
Lemma getTargetTemperature_tenths (W : World) (s : State) :
  adc_in_range W s ->
  0 <= averaged_pot W s <= 1023
  /\ exists k,
       2 * MinTemp <= k <= 2 * MaxTemp
       /\ half_degree_tenths (averaged_pot W s) = 5 * k
       /\ TargetTemperature (getTargetTemperature W s) = half_degrees k.
Proof.
  intros Hadc. destruct (getTargetTemperature_value W s Hadc) as [Havg Ht].
  fold (averaged_pot W s) in *.
  pose proof (check_below_spec _ _ setpoint_ok_all _ Havg) as Hok.
  unfold setpoint_ok in Hok.
  repeat (apply andb_prop in Hok; destruct Hok as [Hok ?]).
  set (t := half_degree_tenths (averaged_pot W s)) in *.
  assert (H5 : 5 * (t / 5) = t)
    by (symmetry; apply Z.div_exact; [lia | apply Z.eqb_eq; assumption]).
  split; [lia |]. exists (t / 5).
  unfold MinTemp, MaxTemp in *.
  split; [lia |]. split; [lia |].
  unfold half_degrees. rewrite H5. exact Ht.
Qed.

Lemma half_degrees_le (j k : Z) :
  2 * MinTemp <= j -> j <= k -> k <= 2 * MaxTemp ->
  fleb (half_degrees j) (half_degrees k) = true.
Proof.
  unfold MinTemp, MaxTemp. intros Hj Hjk Hk.
  pose proof (check_below_spec _ _ half_degrees_ordered_all j ltac:(lia)) as H.
  unfold half_degrees_ordered in H.
  pose proof (check_below_spec _ _ H k ltac:(lia)) as H'. cbv beta in H'.
  apply orb_prop in H'. destruct H' as [H' | H']; [| exact H'].
  apply orb_prop in H'. unfold MinTemp in H'.
  destruct H' as [H' | H']; apply Z.ltb_lt in H'; lia.
Qed.

Lemma half_degrees_value (k : Z) :
  2 * MinTemp <= k <= 2 * MaxTemp ->
  (SF2Q (half_degrees k) == 5 * k # 10)%Q.
Proof.
  intros Hk. unfold MinTemp, MaxTemp in Hk.
  assert (Hc : check_below 71
                 (fun k => (k <? 10)
                           || Qeq_bool (SF2Q (half_degrees k)) (5 * k # 10))
               = true) by (vm_compute; reflexivity).
  pose proof (check_below_spec _ _ Hc k ltac:(lia)) as H. cbv beta in H.
  apply orb_prop in H. destruct H as [H | H].
  - apply Z.ltb_lt in H. lia.
  - apply Qeq_bool_iff. exact H.
Qed.

Lemma half_degrees_inj (j k : Z) :
  2 * MinTemp <= j <= 2 * MaxTemp -> 2 * MinTemp <= k <= 2 * MaxTemp ->
  half_degrees j = half_degrees k -> j = k.
Proof.
  intros Hj Hk Heq.
  pose proof (half_degrees_value j Hj) as Vj.
  pose proof (half_degrees_value k Hk) as Vk.
  rewrite Heq, Vk in Vj. unfold Qeq in Vj. cbn [Qnum Qden] in Vj. lia.
Qed.

Lemma averaged_pot_constant (W : World) (s : State) (v : Z) :
  (forall i, (i < 10)%nat -> analog_at W (n_analog s + i) = v) ->
  averaged_pot W s = v.
Proof.
  intros H. unfold averaged_pot, pot_readings.
  rewrite (map_ext_in _ (fun _ => v))
    by (intros i Hi; apply H; apply in_seq in Hi; lia).
  cbn [seq map sumZ fold_right].
  replace (v + (v + (v + (v + (v + (v + (v + (v + (v + (v + 0))))))))))
    with (v * 10) by lia.
  apply Z.quot_mul. lia.
Qed.

(** X7: the setpoint follows the potentiometer.  For readings in the
    range of the ADC a larger averaged reading never gives a lower
    setpoint; the lowest setpoint [MinTemp] is selected exactly by averaged
    readings up to 3 and the highest, [MaxTemp], exactly from 1010 on; and
    every half degree from [MinTemp] to [MaxTemp] is selected by some
    steady reading. *)
Theorem setpoint_follows_potentiometer :
  (forall W1 s1 W2 s2,
      adc_in_range W1 s1 -> adc_in_range W2 s2 ->
      averaged_pot W1 s1 <= averaged_pot W2 s2 ->
      fleb (TargetTemperature (getTargetTemperature W1 s1))
           (TargetTemperature (getTargetTemperature W2 s2)) = true)
  /\ (forall W s,
        adc_in_range W s ->
        (TargetTemperature (getTargetTemperature W s)
         = half_degrees (2 * MinTemp) <-> averaged_pot W s <= 3)
        /\ (TargetTemperature (getTargetTemperature W s)
            = half_degrees (2 * MaxTemp) <-> 1010 <= averaged_pot W s))
  /\ (forall k,
        2 * MinTemp <= k <= 2 * MaxTemp ->
        exists v,
          0 <= v <= 1023
          /\ forall W s,
               (forall i, (i < 10)%nat -> analog_at W (n_analog s + i) = v) ->
               TargetTemperature (getTargetTemperature W s) = half_degrees k).
Proof.
  split; [| split].
  - intros W1 s1 W2 s2 H1 H2 Hle.
    destruct (getTargetTemperature_tenths W1 s1 H1)
      as (Ha1 & k1 & Hk1 & Ht1 & ->).
    destruct (getTargetTemperature_tenths W2 s2 H2)
      as (Ha2 & k2 & Hk2 & Ht2 & ->).
    apply half_degrees_le; try lia.
    pose proof (half_degree_tenths_monotone (averaged_pot W1 s1)
                  (Z.to_nat (averaged_pot W2 s2 - averaged_pot W1 s1))
                  ltac:(lia) ltac:(lia)) as Hm.
    replace (averaged_pot W1 s1
             + Z.of_nat (Z.to_nat (averaged_pot W2 s2 - averaged_pot W1 s1)))
      with (averaged_pot W2 s2) in Hm by lia.
    lia.
  - intros W s Hadc.
    destruct (getTargetTemperature_tenths W s Hadc) as (Ha & k & Hk & Ht & ->).
    destruct (setpoint_step (averaged_pot W s) Ha) as (_ & Hmin & Hmax).
    unfold MinTemp, MaxTemp in *.
    split; (split; [intros Heq; apply half_degrees_inj in Heq;
                    unfold MinTemp, MaxTemp; try lia
                   | intros Hv; f_equal; lia]).
  - intros k Hk.
    pose proof (check_below_spec _ _ setpoint_selectable_all k) as H.
    unfold MinTemp, MaxTemp in Hk. specialize (H ltac:(lia)).
    unfold setpoint_selectable in H. apply orb_prop in H.
    destruct H as [H | H]; [apply Z.ltb_lt in H; unfold MinTemp in H; lia |].
    apply existsb_exists in H. destruct H as (a & Hin & Ha).
    apply in_map_iff in Hin. destruct Hin as (i & <- & Hi).
    apply in_seq in Hi. apply Z.eqb_eq in Ha.
    exists (Z.of_nat i). split; [lia |].
    intros W s Hconst.
    assert (Hadc : adc_in_range W s)
      by (intros j Hj; rewrite (Hconst j Hj); lia).
    destruct (getTargetTemperature_tenths W s Hadc) as (_ & k' & Hk' & Ht & ->).
    rewrite (averaged_pot_constant W s _ Hconst) in Ht.
    f_equal. lia.
Qed.

Lemma setpoint_follows_potentiometer_witness :
  adc_in_range (pot_world 2) boot /\ adc_in_range (pot_world 1011) boot
  /\ averaged_pot (pot_world 2) boot <= averaged_pot (pot_world 1011) boot
  /\ fleb (TargetTemperature (getTargetTemperature (pot_world 2) boot))
          (TargetTemperature (getTargetTemperature (pot_world 1011) boot))
     = true
  /\ TargetTemperature (getTargetTemperature (pot_world 2) boot)
     = half_degrees (2 * MinTemp)
  /\ TargetTemperature (getTargetTemperature (pot_world 1011) boot)
     = half_degrees (2 * MaxTemp).
Proof.
  assert (H1 : adc_in_range (pot_world 2) boot)
    by (intros i _; cbn; lia).
  assert (H2 : adc_in_range (pot_world 1011) boot)
    by (intros i _; cbn; lia).
  assert (H3 : averaged_pot (pot_world 2) boot
               <= averaged_pot (pot_world 1011) boot)
    by (vm_compute; intros H; discriminate H).
  split; [exact H1 |]. split; [exact H2 |]. split; [exact H3 |].
  split; [exact (proj1 setpoint_follows_potentiometer _ _ _ _ H1 H2 H3) |].
  split.
  - apply (proj1 (proj2 setpoint_follows_potentiometer) _ _ H1).
    vm_compute. intros H; discriminate H.
  - apply (proj1 (proj2 setpoint_follows_potentiometer) _ _ H2).
    vm_compute. intros H; discriminate H.
Defined.

(** ** Timers *)

Lemma ulong_range (z : Z) : 0 <= ulong z < 4294967296.
Proof. unfold ulong. apply Z.mod_pos_bound. lia. Qed.

Lemma timers_safetyCheck (W : World) (s : State) :
  timers_valid s -> timers_valid (outcome_state (safetyCheck W s)).
Proof.
  intros (Hm & Hon & Hl).
  destruct (next_millis W s >? ulong (TimeLastSafetyCheck s + 120000)) eqn:G.
  2:{ rewrite safetyCheck_gate_closed by exact G.
      unfold timers_valid. proj_simpl. auto. }
  unfold safetyCheck, next_millis in *. cbv beta iota zeta delta [millis].
  proj_simpl. rewrite G.
  step_prog; unfold timers_valid; proj_simpl;
    (split; [exact Hm |]); (split; [exact Hon || apply ulong_range |]);
    apply ulong_range.
Qed.

Lemma timers_controlHeater (W : World) (s : State) :
  timers_valid s -> timers_valid (controlHeater W s).
Proof.
  intros (Hm & Hon & Hl).
  destruct (controlHeater_cases W s) as [(-> & _) | [(-> & _) | ->]];
    unfold timers_valid; proj_simpl;
    (split; [exact Hm |]); (split; [exact Hon || apply ulong_range |]);
    exact Hl.
Qed.

Lemma timers_getTargetTemperature (W : World) (s : State) :
  timers_valid s -> timers_valid (getTargetTemperature W s).
Proof.
  destruct (getTargetTemperature_frame W s) as (v & pot & -> & _).
  intros H; exact H.
Qed.

Lemma timers_setup (W : World) (fuel : nat) (s0 : State) :
  setup W fuel boot = Some s0 -> timers_valid s0.
Proof.
  unfold setup, initHeater.
  match goal with |- context [initHeater_rounds W fuel ?n ?s] =>
    destruct (initHeater_rounds W fuel n s) as [s1|] eqn:Hi; [| discriminate];
    apply (initHeater_rounds_preserves W timers_valid) in Hi
  end.
  - intros H. injection H as <-. exact Hi.
  - intros t Ht. exact Ht.
  - intros t Ht. exact Ht.
  - repeat split; cbn; lia.
Qed.

Lemma heater_on_elapsed_wraps (W : World) (s : State) (e : Z) :
  0 <= e < 4294967296 ->
  next_millis W s = ulong (TimeHeaterOn s + e) ->
  heater_on_elapsed W s = of_Z e.
Proof.
  intros He Hn. unfold heater_on_elapsed. rewrite Hn. unfold ulong.
  rewrite Zminus_mod_idemp_l.
  replace (TimeHeaterOn s + e - TimeHeaterOn s) with e by lia.
  rewrite Z.mod_small by lia. reflexivity.
Qed.

(** X8: in every state the program reaches from reset, the heater time
    limit is the value computed by [setup], and the timeout test of the
    safety check, [TimeNow - TimeHeaterOn > MaxHeaterOnTime], holds exactly
    when more than 4884600 ms have passed on the 32-bit clock since the
    heater was last switched, also when the clock has wrapped in between. *)
Theorem heater_time_limit (W : World) (fuel : nat) (s0 : State)
  (Hsetup : setup W fuel boot = Some s0) (n : nat) :
  let s := machine_state (ticks W n (Looping s0)) in
  MaxHeaterOnTime s = startup_MaxHeaterOnTime
  /\ forall e,
       0 <= e < 4294967296 ->
       next_millis W s = ulong (TimeHeaterOn s + e) ->
       fltb (MaxHeaterOnTime s) (heater_on_elapsed W s) = (4884600 <? e).
Proof.
  intros s.
  assert (Hinv : timers_valid s).
  { apply (ticks_invariant W timers_valid).
    - intros t H. exact H.
    - apply timers_safetyCheck.
    - apply timers_getTargetTemperature.
    - intros t H. exact H.
    - apply timers_controlHeater.
    - intros t H. exact H.
    - intros t H. exact H.
    - cbn [machine_state]. eapply timers_setup. exact Hsetup. }
  destruct Hinv as (Hm & _ & _).
  split; [exact Hm |].
  intros e He Hn.
  rewrite (heater_on_elapsed_wraps W s e He Hn), Hm.
  apply heater_timeout_threshold. change (2 ^ 32) with 4294967296. exact He.
Qed.

Lemma heater_time_limit_witness :
  let s := machine_state (ticks stale_world 2 (Looping stale_start)) in
  setup stale_world 1 boot = Some stale_start
  /\ 0 <= 3000 < 4294967296
  /\ next_millis stale_world s = ulong (TimeHeaterOn s + 3000)
  /\ fltb (MaxHeaterOnTime s) (heater_on_elapsed stale_world s)
     = (4884600 <? 3000).
Proof.
  intros s.
  assert (Hs : setup stale_world 1 boot = Some stale_start)
    by (vm_compute; reflexivity).
  assert (Hn : next_millis stale_world s = ulong (TimeHeaterOn s + 3000))
    by (vm_compute; reflexivity).
  split; [exact Hs |]. split; [lia |]. split; [exact Hn |].
  apply (proj2 (heater_time_limit stale_world 1%nat stale_start Hs 2%nat));
    [lia | exact Hn].
Defined.

(** X9: the time gate at the end of the range of the clock.  When the
    last check was stamped within 120000 ms of the wrap of the 32-bit
    clock, the sum [TimeLastSafetyCheck + 120000] has wrapped: the checks
    run as soon as the clock is above the wrapped sum, in particular on
    every pass whose clock has not yet wrapped, however little time has
    passed since the last check. *)
Theorem safetyCheck_gate_near_wrap (W : World) (s : State)
  (Hlast : 4294967296 - 120000 <= TimeLastSafetyCheck s < 4294967296) :
  (checks_performed W s <->
   next_millis W s > TimeLastSafetyCheck s + 120000 - 4294967296)
  /\ (TimeLastSafetyCheck s <= next_millis W s -> checks_performed W s).
Proof.
  assert (Hw : ulong (TimeLastSafetyCheck s + 120000)
               = TimeLastSafetyCheck s + 120000 - 4294967296).
  { unfold ulong. symmetry. apply (Z.mod_unique _ _ 1); lia. }
  rewrite checks_performed_iff, Hw. split; [reflexivity | lia].
Qed.

Lemma safetyCheck_gate_near_wrap_witness :
  let s := set_TimeLastSafetyCheck 4294900000 gate_state in
  4294967296 - 120000 <= TimeLastSafetyCheck s < 4294967296
  /\ checks_performed gate_world s.
Proof.
  intros s.
  assert (H : 4294967296 - 120000 <= TimeLastSafetyCheck s < 4294967296)
    by (cbn; lia).
  split; [exact H |].
  apply (proj1 (safetyCheck_gate_near_wrap gate_world s H)).
  vm_compute. reflexivity.
Defined.

(** ** The wait of the warm-up *)

Lemma clock_reads_succ (W : World) (k : nat) (s : State) :
  n_millis (clock_reads W k s) = (n_millis s + k)%nat.
Proof.
  revert s. induction k as [|k IH]; intros s; cbn [clock_reads].
  - lia.
  - rewrite IH. proj_simpl. lia.
Qed.

(** X10: the wait [while(millis() < deadline)] of the warm-up ends with
    the first clock read that is not below the deadline: it returns, after
    [k+1] reads and nothing else, exactly when the first [k] reads are
    below the deadline and the next one is not; it is still spinning after
    [fuel] reads exactly when all of them are below the deadline. *)
Theorem busy_wait_first_deadline_read (W : World) (fuel : nat) (deadline : Z)
  (s : State) :
  (forall s',
      busy_wait W fuel deadline s = Some s' <->
      exists k,
        (k < fuel)%nat
        /\ (forall j, (j < k)%nat ->
                      ulong (millis_at W (n_millis s + j)) < deadline)
        /\ deadline <= ulong (millis_at W (n_millis s + k))
        /\ s' = clock_reads W (S k) s)
  /\ (busy_wait W fuel deadline s = None <->
      forall j, (j < fuel)%nat ->
                ulong (millis_at W (n_millis s + j)) < deadline).
Proof.
  revert s. induction fuel as [|f IH]; intros s.
  - split.
    + intros s'. cbn [busy_wait]. split; [discriminate |].
      intros (k & Hk & _). lia.
    + cbn [busy_wait]. split; [intros _ j Hj; lia | reflexivity].
  - cbn [busy_wait]. cbv beta iota zeta delta [millis].
    match goal with |- context [busy_wait W f deadline ?t] =>
      destruct (IH t) as [IHs IHn]; set (s1 := t) in *
    end.
    assert (Hs1 : s1 = snd (millis W s)) by reflexivity.
    assert (Hn1 : n_millis s1 = S (n_millis s)) by reflexivity.
    destruct (ulong (millis_at W (n_millis s)) <? deadline) eqn:Hlt.
    + apply Z.ltb_lt in Hlt. split.
      * intros s'. rewrite IHs. split.
        -- intros (k & Hk & Hbelow & Hd & ->).
           exists (S k). split; [lia |]. split; [| split].
           ++ intros [|j] Hj; [rewrite Nat.add_0_r; exact Hlt |].
              rewrite Nat.add_succ_r, <- Nat.add_succ_l, <- Hn1.
              apply Hbelow. lia.
           ++ rewrite Nat.add_succ_r, <- Nat.add_succ_l, <- Hn1. exact Hd.
           ++ rewrite Hs1. reflexivity.
        -- intros (k & Hk & Hbelow & Hd & ->).
           destruct k as [|k]; [rewrite Nat.add_0_r in Hd; lia |].
           exists k. split; [lia |]. split; [| split].
           ++ intros j Hj. rewrite Hn1, Nat.add_succ_l, <- Nat.add_succ_r.
              apply Hbelow. lia.
           ++ rewrite Hn1, Nat.add_succ_l, <- Nat.add_succ_r. exact Hd.
           ++ rewrite Hs1. reflexivity.
      * rewrite IHn. split.
        -- intros Hall [|j] Hj; [rewrite Nat.add_0_r; exact Hlt |].
           rewrite Nat.add_succ_r, <- Nat.add_succ_l, <- Hn1.
           apply Hall. lia.
        -- intros Hall j Hj. rewrite Hn1, Nat.add_succ_l, <- Nat.add_succ_r.
           apply Hall. lia.
    + apply Z.ltb_ge in Hlt. split.
      * intros s'. split.
        -- intros H. injection H as <-. exists 0%nat.
           split; [lia |]. split; [intros j Hj; lia |].
           split; [rewrite Nat.add_0_r; exact Hlt | reflexivity].
        -- intros (k & Hk & Hbelow & Hd & ->).
           destruct k as [|k]; [reflexivity |].
           specialize (Hbelow 0%nat ltac:(lia)).
           rewrite Nat.add_0_r in Hbelow. lia.
      * split; [discriminate |].
        intros Hall. specialize (Hall 0%nat ltac:(lia)).
        rewrite Nat.add_0_r in Hall. lia.
Qed.

(** ** Start-up *)

Lemma quiet_since_refl (s : State) : quiet_since s s.
Proof.
  repeat split. exists []. rewrite app_nil_r. split; reflexivity.
Qed.

Lemma quiet_since_millis (W : World) (s t : State) :
  quiet_since s t -> quiet_since s (snd (millis W t)).
Proof.
  intros (H1 & H2 & H3 & H4 & H5 & H6 & H7 & H8 & evs & Ht & Hf).
  unfold quiet_since. proj_simpl. repeat split; try assumption.
  eexists. rewrite Ht, <- app_assoc. split; [reflexivity |].
  rewrite filter_app, Hf. reflexivity.
Qed.

Lemma quiet_since_getTemperature (W : World) (s t : State) :
  quiet_since s t -> quiet_since s (getTemperature W t).
Proof.
  intros (H1 & H2 & H3 & H4 & H5 & H6 & H7 & H8 & evs & Ht & Hf).
  destruct (getTemperature_frame W t) as (ms & sum & avg & ->).
  unfold quiet_since. proj_simpl. repeat split; try assumption.
  eexists. rewrite Ht, <- app_assoc. split; [reflexivity |].
  rewrite filter_app, Hf. reflexivity.
Qed.

Lemma initHeater_rounds_samples (W : World) (fuel n : nat) (s s' : State) :
  initHeater_rounds W fuel n s = Some s' -> n_temp s' = (n_temp s + n)%nat.
Proof.
  intros H.
  apply (initHeater_rounds_filter W (fun _ => True)
           (fun _ _ _ _ => I) (fun _ _ => I) fuel n s s' H I).
Qed.

(** X11: what start-up does.  When [setup] returns it has taken exactly
    ten temperature samples and read the ambient sensor once; it has not
    read the potentiometer, so the setpoint is still the one it found; the
    only write to the heater relay is the OFF at its beginning, and
    [HeaterStatus], the baseline of the sensor check and both timers are
    as it found them. *)
Theorem setup_effects (W : World) (fuel : nat) (s s' : State)
  (Hsetup : setup W fuel s = Some s') :
  n_temp s' = (n_temp s + 10)%nat
  /\ n_dht s' = S (n_dht s)
  /\ IntTemp s' = int16 (dht_at W (n_dht s))
  /\ n_analog s' = n_analog s
  /\ TargetTemperature s' = TargetTemperature s
  /\ HeaterStatus s' = HeaterStatus s
  /\ PreviousHeaterStatus s' = PreviousHeaterStatus s
  /\ TimeHeaterOn s' = TimeHeaterOn s
  /\ TimeLastSafetyCheck s' = TimeLastSafetyCheck s
  /\ pin_level s' HEATER_PIN = OFF
  /\ exists evs,
       trace s' = trace s ++ evs
       /\ filter is_heater_write evs = [DigitalWrite HEATER_PIN OFF].
Proof.
  revert Hsetup. unfold setup, initHeater.
  match goal with |- context [initHeater_rounds W fuel ?n ?t] =>
    set (s1 := t);
    destruct (initHeater_rounds W fuel n s1) as [s2|] eqn:Hi; [| discriminate];
    pose proof (initHeater_rounds_samples W fuel n s1 s2 Hi) as Hn;
    apply (initHeater_rounds_preserves W (quiet_since s1)
             (quiet_since_millis W s1) (quiet_since_getTemperature W s1)) in Hi;
      [| apply quiet_since_refl]
  end.
  destruct Hi as (H1 & H2 & H3 & H4 & H5 & H6 & H7 & H8 & evs & Ht & Hf).
  intros H. injection H as <-.
  unfold getInternalTemp, dht_readTemperature, initDashboard. proj_simpl.
  rewrite H1, H2, H3, H4, H5, H6, H7, H8, Hn, Ht.
  subst s1. unfold initScreen, digitalWrite, NumberOfMeasurements. proj_simpl.
  change (HEATER_PIN =? HEATER_PIN) with true.
  repeat (split; [reflexivity |]).
  eexists. rewrite <- !app_assoc. split; [reflexivity |].
  cbn [app filter is_heater_write].
  change (HEATER_PIN =? HEATER_PIN) with true. cbn [app].
  rewrite filter_app, Hf. reflexivity.
Qed.

Lemma setup_effects_witness :
  setup idle_world 1 boot = Some startup_state
  /\ n_temp startup_state = (n_temp boot + 10)%nat
  /\ pin_level startup_state HEATER_PIN = OFF.
Proof.
  assert (Hs : setup idle_world 1 boot = Some startup_state)
    by (vm_compute; reflexivity).
  split; [exact Hs |].
  pose proof (setup_effects idle_world 1%nat boot startup_state Hs) as H.
  split; [exact (proj1 H) |].
  exact (proj1 (proj2 (proj2 (proj2 (proj2 (proj2 (proj2 (proj2 (proj2
           (proj2 H)))))))))).
Defined.

(** ** Steady readings *)

Lemma float_eqb_eq (x y : float) : float_eqb x y = true -> x = y.
Proof.
  destruct x as [a | a | | a m e], y as [b | b | | b m' e']; cbn;
    try discriminate; try reflexivity.
  - intros H. apply eqb_prop in H. congruence.
  - intros H. apply eqb_prop in H. congruence.
  - intros H. apply andb_prop in H. destruct H as [H He].
    apply andb_prop in H. destruct H as [Hs Hm].
    apply eqb_prop in Hs. apply Pos.eqb_eq in Hm. apply Z.eqb_eq in He.
    congruence.
Qed.

Lemma check_from_nat (lo : Z) (P : Z -> bool) (n : nat) :
  forall r,
    r = Nat.iter n (fun st => (fst st + 1, snd st && P (fst st))) (lo, true) ->
    fst r = lo + Z.of_nat n
    /\ (snd r = true -> forall z, lo <= z < lo + Z.of_nat n -> P z = true).
Proof.
  induction n as [|n IH]; intros r Hr.
  - subst r. cbn. split; [lia | intros _ z Hz; lia].
  - subst r. rewrite Nat.iter_succ.
    destruct (IH _ eq_refl) as [IH1 IH2].
    set (r0 := Nat.iter n _ _) in *. cbn [fst snd].
    rewrite Nat2Z.inj_succ.
    split; [lia |]. intros H z Hz.
    apply andb_prop in H. destruct H as [H0 HP].
    destruct (Z.eq_dec z (fst r0)) as [-> | Hne]; [exact HP |].
    apply IH2; [exact H0 | lia].
Qed.

Lemma check_from_spec (lo : Z) (count : positive) (P : Z -> bool) :
  check_from lo count P = true ->
  forall z, lo <= z < lo + Zpos count -> P z = true.
Proof.
  unfold check_from. rewrite Pos2Nat.inj_iter. intros H z Hz.
  apply (proj2 (check_from_nat lo P (Pos.to_nat count) _ eq_refl) H). lia.
Qed.

Lemma steady_ok_all : check_from (-32768) 65537 steady_ok = true.
Proof. vm_compute. reflexivity. Qed.

Lemma sumZ_constant (k : Z) (l : list Z) :
  Forall (fun z => z = k) l -> sumZ l = Z.of_nat (length l) * k.
Proof.
  induction 1 as [|z l Hz _ IH]; [reflexivity |].
  cbn [sumZ fold_right length]. fold (sumZ l).
  rewrite IH, Hz, Nat2Z.inj_succ. lia.
Qed.

(** X12: a steady reading is reported exactly.  For a probe on its grid,
    in any state reached from reset, if the last ten raw readings are all
    the same 16-bit value, the average is exactly that reading: summing
    and dividing in binary32 lose nothing. *)
Theorem steady_reading_is_exact (W : World) (raw : nat -> Z) (fuel : nat)
  (s0 : State) (Hgrid : on_grid W raw)
  (Hsetup : setup W fuel boot = Some s0) (n : nat) (k : Z) :
  let s := machine_state (ticks W n (Looping s0)) in
  -32768 <= k <= 32768 ->
  (forall i, (i < 10)%nat -> raw (n_temp s - 1 - i)%nat = k) ->
  AverageTemp s = grid k /\ AverageTemp s = tempC_at W (n_temp s - 1).
Proof.
  intros s Hk Hsteady.
  destruct (run_warmed_up W (filter_inv W raw) (filter_inv_frame W raw)
              (fun t => filter_inv_getTemperature W raw t Hgrid) fuel s0 n
              (filter_inv_boot W raw) Hsetup) as [[[_ Ha] Hs] Hn].
  fold s in Ha, Hs, Hn. unfold sum_inv in Hs.
  rewrite history_full in Hs by exact Hn.
  rewrite (sumZ_constant k) in Hs.
  2:{ apply Forall_forall. intros z Hz. apply in_map_iff in Hz.
      destruct Hz as (i & <- & Hi). apply in_seq in Hi. apply Hsteady. lia. }
  rewrite length_map, length_seq in Hs.
  assert (Hg : AverageTemp s = grid k).
  { rewrite Ha, Hs. change (Z.of_nat 10) with 10.
    apply float_eqb_eq.
    apply (check_from_spec _ _ _ steady_ok_all k). lia. }
  split; [exact Hg |].
  rewrite Hg. destruct (Hgrid (n_temp s - 1)%nat) as [_ ->].
  rewrite <- (Hsteady 0%nat ltac:(lia)). rewrite Nat.sub_0_r. reflexivity.
Qed.

Lemma steady_reading_is_exact_witness :
  let s := machine_state (ticks idle_world 3 (Looping startup_state)) in
  on_grid idle_world (fun _ => 2560)
  /\ setup idle_world 1 boot = Some startup_state
  /\ AverageTemp s = grid 2560.
Proof.
  intros s.
  assert (Hg : on_grid idle_world (fun _ => 2560)).
  { intros i. split; [vm_compute; intros H; discriminate H | reflexivity]. }
  assert (Hs : setup idle_world 1 boot = Some startup_state)
    by (vm_compute; reflexivity).
  split; [exact Hg |]. split; [exact Hs |].
  apply (steady_reading_is_exact idle_world (fun _ => 2560) 1%nat
           startup_state Hg Hs 3%nat 2560); [lia | reflexivity].
Defined.
